(** * Content Creator Suite: tool handlers, validation and envelopes

    A shallow embedding of the three MCP adapters of the suite
    ([idea-generator/server.ts], [script-to-video/server.ts],
    [growth-optimizer/server.ts]) together with the shared schemas of
    [shared/types.ts] and the trace helpers of [shared/logger.ts].

    JavaScript values are an inductive type, numbers are IEEE 754 doubles
    (Rocq's primitive floats), strings are held in their UTF-8 encoding,
    and every effect of a handler (log line, HTTP request, provider call,
    file write) is an event of a writer monad whose answers come from a
    [runtime] record. *)

From Stdlib Require Import List String Ascii Bool Arith ZArith QArith Lia.
From Stdlib Require Import Permutation Sorted DecimalString Floats.
Import ListNotations.

Set Warnings "-register-all,-inexact-float".
Local Close Scope Q_scope.
Local Open Scope nat_scope.
Local Open Scope list_scope.
Local Open Scope string_scope.

(** ** Strings *)

(** The double quote, and template text written with [~] standing for it. *)
Definition dquote : ascii := ascii_of_nat 34.

Fixpoint tpl (s : string) : string :=
  match s with
  | EmptyString => EmptyString
  | String c r => String (if Ascii.eqb c "~"%char then dquote else c) (tpl r)
  end.

Definition newline : string := String (ascii_of_nat 10) EmptyString.

(** [Array.prototype.join] on strings. *)
Definition join (sep : string) (l : list string) : string := String.concat sep l.

(** [Array.prototype.includes] on strings. *)
Definition includes (x : string) (l : list string) : bool := existsb (String.eqb x) l.

(** A string is the UTF-8 encoding of the JavaScript string it stands for
    (a lone surrogate being encoded like any other code point).  The UTF-16
    code units a byte accounts for: none for a continuation byte, two for
    the lead byte of a four-byte sequence, one for any other byte. *)
Definition utf16_units (c : ascii) : nat :=
  let n := nat_of_ascii c in
  if (n <? 128)%nat then 1
  else if (n <? 192)%nat then 0
  else if (n <? 240)%nat then 1
  else 2.

(** [s.length]: the number of UTF-16 code units. *)
Fixpoint js_length (s : string) : nat :=
  match s with
  | EmptyString => 0
  | String c r => utf16_units c + js_length r
  end.

(** The high surrogate of the code point encoded by the four bytes
    [b0 b1 b2 b3], in its three-byte encoding. *)
Definition high_surrogate (b0 b1 b2 : ascii) : string :=
  (* [cp_hi] is the code point without its low six bits; the surrogate is
     0xD800 plus the code point less 0x10000, without its low ten bits *)
  let cp_hi := ((N_of_ascii b0 mod 8) * 4096 + (N_of_ascii b1 mod 64) * 64
                + N_of_ascii b2 mod 64)%N in
  let hi := (55296 + (cp_hi - 1024) / 16)%N in
  String (ascii_of_N 237)
    (String (ascii_of_N (128 + (hi / 64) mod 64))
       (String (ascii_of_N (128 + hi mod 64)) EmptyString)).

(** [String.prototype.slice(0, n)]: the first [n] code units.  A cut in the
    middle of a surrogate pair keeps the high surrogate. *)
Fixpoint slice0 (n : nat) (s : string) : string :=
  match s with
  | EmptyString => EmptyString
  | String c r =>
      match utf16_units c with
      | 0 => String c (slice0 n r)
      | 1 => if (1 <=? n)%nat then String c (slice0 (n - 1) r) else EmptyString
      | _ =>
          if (2 <=? n)%nat then String c (slice0 (n - 2) r)
          else if (1 <=? n)%nat then
            match r with
            | String b1 (String b2 _) => high_surrogate c b1 b2
            | _ => EmptyString
            end
          else EmptyString
      end
  end.

(** [String.prototype.toLowerCase] on the ASCII range. *)
Definition lower_ascii (c : ascii) : ascii :=
  let n := nat_of_ascii c in
  if ((65 <=? n) && (n <=? 90))%nat then ascii_of_nat (n + 32) else c.

Fixpoint lower_ascii_string (s : string) : string :=
  match s with
  | EmptyString => EmptyString
  | String c r => String (lower_ascii c) (lower_ascii_string r)
  end.

(** No byte of the string is outside the ASCII range. *)
Fixpoint is_ascii (s : string) : bool :=
  match s with
  | EmptyString => true
  | String c r => (nat_of_ascii c <? 128)%nat && is_ascii r
  end.

(** Decimal rendering of naturals and integers ([Number.prototype.toString]
    on integral values). *)
Definition nat_to_string (n : nat) : string := NilZero.string_of_uint (Nat.to_uint n).
Definition Z_to_string (z : Z) : string := NilZero.string_of_int (Z.to_int z).

Fixpoint replicate_string (n : nat) (c : ascii) : string :=
  match n with
  | O => EmptyString
  | S k => String c (replicate_string k c)
  end.

(** [s.padStart(w, c)] for a one-character filler. *)
Definition padStart (w : nat) (c : ascii) (s : string) : string :=
  replicate_string (w - js_length s) c ++ s.

(** Occurrence of a character and of a substring. *)
Fixpoint has_char (c : ascii) (s : string) : bool :=
  match s with
  | EmptyString => false
  | String d r => Ascii.eqb c d || has_char c r
  end.

Fixpoint contains (needle s : string) : bool :=
  prefix needle s ||
  match s with
  | EmptyString => false
  | String _ r => contains needle r
  end.

(** The text of [s] up to its first line break. *)
Fixpoint first_line (s : string) : string :=
  match s with
  | EmptyString => EmptyString
  | String c r => if Ascii.eqb c (ascii_of_nat 10) then EmptyString
                  else String c (first_line r)
  end.

(** [s ? f(s) : ''] for an optional string. *)
Definition if_str (o : option string) (f : string -> string) : string :=
  match o with
  | Some s => if String.eqb s "" then "" else f s
  | None => ""
  end.

(** ** Greedy bracket extraction

    [text.match(/\{[\s\S]*\}/)] and [text.match(/\[[\s\S]*\]/)]: the match
    starts at the first opening character that is followed by a closing one
    and, being greedy, ends at the last closing character. *)

(** The prefix of [s] ending at the last occurrence of [close]. *)
Fixpoint upto_last (close : ascii) (s : string) : option string :=
  match s with
  | EmptyString => None
  | String c r =>
      match upto_last close r with
      | Some t => Some (String c t)
      | None => if Ascii.eqb c close then Some (String c EmptyString) else None
      end
  end.

Fixpoint greedy_match (open close : ascii) (s : string) : option string :=
  match s with
  | EmptyString => None
  | String c r =>
      if Ascii.eqb c open then
        match upto_last close r with
        | Some t => Some (String c t)
        | None => None
        end
      else greedy_match open close r
  end.

Definition match_object : string -> option string := greedy_match "{"%char "}"%char.
Definition match_array : string -> option string := greedy_match "["%char "]"%char.

(** ** Numbers

    A JavaScript number is a double.  [Z2float z] is the double nearest to
    the integer [z] (the integer itself up to 2^53 in absolute value). *)
Definition Z2float (z : Z) : float := SF2Prim (binary_normalize prec emax z 0 false).

Definition nat2float (n : nat) : float := Z2float (Z.of_nat n).

(** The integer a double is, when it is one. *)
Definition float_to_Z (x : float) : option Z :=
  match Prim2SF x with
  | S754_zero _ => Some 0%Z
  | S754_finite s m e =>
      if (0 <=? e)%Z then Some (cond_Zopp s (Z.pos m * 2 ^ e))
      else if (Z.pos m mod 2 ^ (- e) =? 0)%Z
           then Some (cond_Zopp s (Z.pos m / 2 ^ (- e)))
           else None
  | S754_infinity _ | S754_nan => None
  end.

(** [Number.isInteger]. *)
Definition Number_isInteger (x : float) : bool :=
  match float_to_Z x with
  | Some _ => true
  | None => false
  end.

(** [Math.floor]: a double without fractional bits, an infinity, a zero
    and [NaN] are their own floor. *)
Definition Math_floor (x : float) : float :=
  match Prim2SF x with
  | S754_finite s m e =>
      if (0 <=? e)%Z then x else Z2float (cond_Zopp s (Z.pos m) / 2 ^ (- e))
  | _ => x
  end.

(** ** JavaScript values *)

Inductive jsval : Type :=
| JUndefined
| JNull
| JBool (b : bool)
| JNum (x : float)
| JStr (s : string)
| JArr (items : list jsval)
| JObj (fields : list (string * jsval)).

Definition JInt (z : Z) : jsval := JNum (Z2float z).
Definition JNat (n : nat) : jsval := JInt (Z.of_nat n).

Fixpoint assoc {A : Type} (k : string) (l : list (string * A)) : option A :=
  match l with
  | [] => None
  | (k', v) :: r => if String.eqb k k' then Some v else assoc k r
  end.

(** Own-property read on an object literal; a missing key reads [undefined]. *)
Definition prop (fields : list (string * jsval)) (k : string) : jsval :=
  match assoc k fields with
  | Some v => v
  | None => JUndefined
  end.

(** Truthiness ([Boolean(v)], [!v], [v ? a : b], [v || d]): of the numbers
    the two zeros and [NaN] are falsy. *)
Definition truthy (v : jsval) : bool :=
  match v with
  | JUndefined | JNull => false
  | JBool b => b
  | JNum x => negb (PrimFloat.is_zero x || PrimFloat.is_nan x)
  | JStr s => negb (String.eqb s "")
  | JArr _ | JObj _ => true
  end.

(** Truthiness of an optional string ([process.env.X], optional arguments). *)
Definition truthy_str (o : option string) : bool :=
  match o with
  | Some s => negb (String.eqb s "")
  | None => false
  end.

(** ** Exceptions *)
Inductive exn : Type :=
| Error (message : string)
| TrendAnalysisError (message : string)
| ZodError (message : string)
| SyntaxError (message : string)
| TypeError (message : string)
| RequestError (message : string).

(** [error.message]; every exception of the model is an instance of [Error].
    A [ZodError] carries the issue list as zod renders it. *)
Definition exn_message (e : exn) : string :=
  match e with
  | Error m | TrendAnalysisError m | ZodError m
  | SyntaxError m | TypeError m | RequestError m => m
  end.

(** Property read [v.k]: reading a property of [undefined] or [null] throws,
    other primitives have no own data properties of interest. *)
Definition member (v : jsval) (k : string) : exn + jsval :=
  match v with
  | JUndefined => inl (TypeError ("Cannot read properties of undefined (reading '" ++ k ++ "')"))
  | JNull => inl (TypeError ("Cannot read properties of null (reading '" ++ k ++ "')"))
  | JObj o => inr (prop o k)
  | JArr l => inr (if String.eqb k "length" then JNat (List.length l) else JUndefined)
  | JStr s => inr (if String.eqb k "length" then JNat (js_length s) else JUndefined)
  | JBool _ | JNum _ => inr JUndefined
  end.

(** Optional chaining [v?.k]. *)
Definition member_opt (v : jsval) (k : string) : jsval :=
  match member v k with
  | inr w => w
  | inl _ => JUndefined
  end.

(** [a || b] on values. *)
Definition js_or (a b : jsval) : jsval := if truthy a then a else b.

(** The fields of a value that a schema refuses, each with the value found
    there. *)
Definition issues : Type := list (string * jsval).

(** ** Effects

    A handler reads its surroundings from a [runtime] and emits [event]s.
    [M A] is a reader of the runtime, a writer of the emitted events and an
    exception monad: [inl e] is a thrown [e]. *)

Inductive event : Type :=
| Log (traceId level message : string) (meta : list (string * jsval))
| HttpGet (url : string) (params : list (string * jsval))
| HttpPost (url : string) (body : jsval) (credential : string)
| GenerateContent (apiKey modelName prompt : string)
| WriteFile (path data : string).

Record runtime : Type := {
  (** [process.env] *)
  env : string -> option string;
  (** [Date.now()] and [new Date().toISOString()] *)
  date_now : Z;
  now_iso : string;
  (** [Math.random().toString(36).substring(2, 11)] and the later draws of
      [Math.random()] *)
  random_suffix : string;
  random : nat -> float;
  (** [new Date(s).getHours()]; [None] is [NaN] *)
  getHours : string -> option nat;
  (** [JSON.parse] *)
  JSON_parse : string -> exn + jsval;
  (** the pattern test of zod's [z.string().datetime()] *)
  zod_datetime : string -> bool;
  (** [String(x)] for a number outside the plainly printed integers *)
  Number_toString : float -> string;
  (** [s.toLowerCase()] for a string with characters outside ASCII *)
  String_toLowerCase : string -> string;
  (** the message of the [ZodError] that the named schema throws for the
      fields in violation *)
  zod_message : string -> issues -> string;
  (** [fs.writeFileSync(path, data)] *)
  fs_writeFileSync : string -> string -> exn + unit;
  (** [axios.get(url).data], [axios.post(url, body).data] *)
  axios_get : string -> exn + jsval;
  axios_post : string -> jsval -> exn + string;
  (** [(await model.generateContent(prompt)).response.text()] *)
  generateContent : string -> exn + string
}.

Definition M (A : Type) : Type := runtime -> (exn + A) * list event.

Definition ret {A : Type} (a : A) : M A := fun _ => (inr a, []).

Definition bind {A B : Type} (m : M A) (k : A -> M B) : M B :=
  fun rt =>
    match m rt with
    | (inl e, t) => (inl e, t)
    | (inr a, t) => let (r, t') := k a rt in (r, (t ++ t')%list)
    end.

Definition throw {A : Type} (e : exn) : M A := fun _ => (inl e, []).

Definition emit (ev : event) : M unit := fun _ => (inr tt, [ev]).

Definition ask {A : Type} (f : runtime -> A) : M A := fun rt => (inr (f rt), []).

(** A pure step that may throw. *)
Definition lift {A : Type} (r : exn + A) : M A := fun _ => (r, []).

(** [try { m } catch (error) { h error }] *)
Definition try_catch {A : Type} (m : M A) (h : exn -> M A) : M A :=
  fun rt =>
    match m rt with
    | (inl e, t) => let (r, t') := h e rt in (r, (t ++ t')%list)
    | (inr a, t) => (inr a, t)
    end.

Declare Scope js_scope.
Delimit Scope js_scope with js.
Notation "x <- m ;; k" := (bind m (fun x => k))
  (at level 61, m at next level, right associativity) : js_scope.
Notation "m ;; k" := (bind m (fun _ => k))
  (at level 61, right associativity) : js_scope.
Local Open Scope js_scope.

(** [for (const x of l) body(x)] / [l.forEach(body)] *)
Fixpoint forEach {A : Type} (body : A -> M unit) (l : list A) : M unit :=
  match l with
  | [] => ret tt
  | x :: r => body x ;; forEach body r
  end.

(** [l.map(f)] for an effectful callback. *)
Fixpoint mapM {A B : Type} (f : A -> M B) (l : list A) : M (list B) :=
  match l with
  | [] => ret []
  | x :: r => y <- f x ;; ys <- mapM f r ;; ret (y :: ys)
  end.

(** The events that reach outside the process. *)
Definition external (ev : event) : bool :=
  match ev with
  | Log _ _ _ _ => false
  | HttpGet _ _ | HttpPost _ _ _ | GenerateContent _ _ _ | WriteFile _ _ => true
  end.

(** The external capabilities: generative provider, trend source, TTS. *)
Definition capability (ev : event) : bool :=
  match ev with
  | HttpGet _ _ | HttpPost _ _ _ | GenerateContent _ _ _ => true
  | Log _ _ _ _ | WriteFile _ _ => false
  end.

(** *** Shared logger ([shared/logger.ts]) *)

Definition createTraceId : M string :=
  ask (fun rt => Z_to_string (date_now rt) ++ "-" ++ random_suffix rt).

Definition logWithTrace (traceId level message : string)
    (meta : list (string * jsval)) : M unit :=
  emit (Log traceId level message meta).

(** The external calls. *)
Definition axiosGet (url : string) (params : list (string * jsval)) : M jsval :=
  emit (HttpGet url params) ;;
  r <- ask (fun rt => axios_get rt url) ;;
  lift r.

Definition axiosPost (url : string) (body : jsval) (credential : string) : M string :=
  emit (HttpPost url body credential) ;;
  r <- ask (fun rt => axios_post rt url body) ;;
  lift r.

Definition geminiGenerate (apiKey prompt : string) : M string :=
  emit (GenerateContent apiKey "gemini-1.5-pro" prompt) ;;
  r <- ask (fun rt => generateContent rt prompt) ;;
  lift r.

Definition writeFileSync (path data : string) : M unit :=
  emit (WriteFile path data) ;;
  r <- ask (fun rt => fs_writeFileSync rt path data) ;;
  lift r.

(** [s.toLowerCase()] *)
Definition toLowerCase (rt : runtime) (s : string) : string :=
  if is_ascii s then lower_ascii_string s else String_toLowerCase rt s.

Definition jsonParse (s : string) : M jsval :=
  r <- ask (fun rt => JSON_parse rt s) ;;
  lift r.

(** A number inside a template literal: an integer of up to 2^53 in
    absolute value prints as its decimal digits. *)
Definition number_to_string (rt : runtime) (x : float) : string :=
  match float_to_Z x with
  | Some z => if (Z.abs z <=? 2 ^ 53)%Z then Z_to_string z else Number_toString rt x
  | None => Number_toString rt x
  end.

(** [process.env.NAME] *)
Definition getenv (name : string) : M (option string) := ask (fun rt => env rt name).

(** The elements of a value used as an array ([v.map], [v.forEach]); a call
    of a missing method throws. *)
Definition array_items (v : jsval) (callee : string) : exn + list jsval :=
  match v with
  | JArr l => inr l
  | JUndefined | JNull =>
      inl (TypeError "Cannot read properties of undefined")
  | _ => inl (TypeError (callee ++ " is not a function"))
  end.

(** The error object as it appears in log metadata. *)
Definition err_js (e : exn) : jsval := JStr (exn_message e).

(** [[...new Set(l)]]: the distinct elements in first-seen order. *)
Fixpoint dedup_from (seen l : list string) : list string :=
  match l with
  | [] => []
  | x :: r => if includes x seen then dedup_from seen r
              else x :: dedup_from (x :: seen) r
  end.

Definition dedup (l : list string) : list string := dedup_from [] l.

(** [Array.prototype.sort(cmp)]: the sort is stable; [cmp a b < 0] puts [a]
    first, and a [NaN] from the callback counts as [+0].  Each element is
    inserted after the elements that must precede it and before the first
    one that need not.  For a callback that is a consistent comparator this
    is the one order a stable sort can give; for one that is not (here: a
    difference of means one of which is [NaN]) the language leaves the
    order to the engine, and the statements about the order of a ranking
    are made for rankings whose means are numbers. *)
Fixpoint insert_sorted {A : Type} (cmp : A -> A -> float) (x : A) (l : list A) : list A :=
  match l with
  | [] => [x]
  | y :: r => if (cmp y x <? 0)%float then y :: insert_sorted cmp x r
              else x :: y :: r
  end.

Definition js_sort {A : Type} (cmp : A -> A -> float) (l : list A) : list A :=
  fold_right (insert_sorted cmp) [] l.

(** ** Response envelopes

    [{ content: [{ type: 'text', text: JSON.stringify(doc, null, 2) }] }];
    the model keeps the document [doc] that is serialised into [text]. *)
Record envelope : Type := {
  content : jsval;
  isError : bool
}.

Definition success (doc : jsval) : envelope := {| content := doc; isError := false |}.

Definition failure (e : exn) (traceId : string) : envelope :=
  {| content := JObj [("error", JStr (exn_message e)); ("traceId", JStr traceId)];
     isError := true |}.

(** ** A mutable local that survives exceptions

    [Loc S A] adds to [M] one local variable of type [S] (an array the body
    pushes to): what was pushed before a [throw] is still there in the
    [catch] block and after it. *)

Definition Loc (S A : Type) : Type := S -> runtime -> (exn + A) * S * list event.

Section LocalState.
Context {S : Type}.

Definition retL {A : Type} (a : A) : Loc S A := fun s _ => (inr a, s, []).

Definition bindL {A B : Type} (m : Loc S A) (k : A -> Loc S B) : Loc S B :=
  fun s rt =>
    match m s rt with
    | (inl e, s', t) => (inl e, s', t)
    | (inr a, s', t) => let '(r, s'', t') := k a s' rt in (r, s'', (t ++ t')%list)
    end.

Definition liftL {A : Type} (m : M A) : Loc S A :=
  fun s rt => let (r, t) := m rt in (r, s, t).

Definition modify (f : S -> S) : Loc S unit := fun s _ => (inr tt, f s, []).

Definition readL : Loc S S := fun s _ => (inr s, s, []).

Definition try_catchL {A : Type} (m : Loc S A) (h : exn -> Loc S A) : Loc S A :=
  fun s rt =>
    match m s rt with
    | (inl e, s', t) => let '(r, s'', t') := h e s' rt in (r, s'', (t ++ t')%list)
    | (inr a, s', t) => (inr a, s', t)
    end.

Fixpoint forEachL {A : Type} (body : A -> Loc S unit) (l : list A) : Loc S unit :=
  match l with
  | [] => retL tt
  | x :: r => bindL (body x) (fun _ => forEachL body r)
  end.

(** Run a body from the initial value of its local. *)
Definition with_local {A : Type} (s0 : S) (m : Loc S A) : M A :=
  fun rt => let '(r, _, t) := m s0 rt in (r, t).
End LocalState.

Declare Scope loc_scope.
Delimit Scope loc_scope with loc.
Notation "x <- m ;; k" := (bindL m (fun x => k))
  (at level 61, m at next level, right associativity) : loc_scope.
Notation "m ;; k" := (bindL m (fun _ => k))
  (at level 61, right associativity) : loc_scope.

(** [when c m] is [if (c) { m }]. *)
Definition whenL {S : Type} (c : bool) (m : Loc S unit) : Loc S unit :=
  if c then m else retL tt.

(** ** Zod combinators

    A schema is a function from a raw value to the parsed value, [None] on a
    violation.  [z_optional] accepts [undefined]; [z_default] replaces it. *)

Definition z_string (v : jsval) : option string :=
  match v with
  | JStr s => Some s
  | _ => None
  end.

(** [z.number()] refuses [NaN]. *)
Definition z_number (v : jsval) : option float :=
  match v with
  | JNum x => if PrimFloat.is_nan x then None else Some x
  | _ => None
  end.

Definition z_boolean (v : jsval) : option bool :=
  match v with
  | JBool b => Some b
  | _ => None
  end.

Definition z_enum (allowed : list string) (v : jsval) : option string :=
  match v with
  | JStr s => if includes s allowed then Some s else None
  | _ => None
  end.

(** [.min(lo)] / [.max(hi)] on a string's length, both inclusive. *)
Definition z_min_len (lo : nat) (s : string) : option string :=
  if (lo <=? js_length s)%nat then Some s else None.
Definition z_max_len (hi : nat) (s : string) : option string :=
  if (js_length s <=? hi)%nat then Some s else None.

(** [.min(lo)] / [.max(hi)] / [.int()] on a number: too small is [x < lo],
    too big is [x > hi]. *)
Definition z_min (lo : float) (x : float) : option float :=
  if (x <? lo)%float then None else Some x.
Definition z_max (hi : float) (x : float) : option float :=
  if (hi <? x)%float then None else Some x.
Definition z_int (x : float) : option float :=
  if Number_isInteger x then Some x else None.

Definition z_max_items {A : Type} (hi : nat) (l : list A) : option (list A) :=
  if (List.length l <=? hi)%nat then Some l else None.

Definition opt_bind {A B : Type} (o : option A) (k : A -> option B) : option B :=
  match o with
  | Some a => k a
  | None => None
  end.

Declare Scope zod_scope.
Delimit Scope zod_scope with zod.
Notation "x <- m ;; k" := (opt_bind m (fun x => k))
  (at level 61, m at next level, right associativity) : zod_scope.

(** Chaining a refinement onto a schema, as in [z.string().min(10)]. *)
Definition refine {A B : Type} (p : jsval -> option A) (r : A -> option B)
    (v : jsval) : option B := opt_bind (p v) r.

Fixpoint all_some {A B : Type} (p : A -> option B) (l : list A) : option (list B) :=
  match l with
  | [] => Some []
  | x :: r =>
      match p x, all_some p r with
      | Some y, Some ys => Some (y :: ys)
      | _, _ => None
      end
  end.

Definition z_array {A : Type} (p : jsval -> option A) (v : jsval) : option (list A) :=
  match v with
  | JArr l => all_some p l
  | _ => None
  end.

Definition z_optional {A : Type} (p : jsval -> option A) (v : jsval) : option (option A) :=
  match v with
  | JUndefined => Some None
  | _ => option_map Some (p v)
  end.

Definition z_default {A : Type} (d : A) (p : jsval -> option A) (v : jsval) : option A :=
  match v with
  | JUndefined => Some d
  | _ => p v
  end.

(** [z.object({...})]: the raw value must be an object. *)
Definition z_object {A : Type} (p : list (string * jsval) -> option A) (v : jsval) : option A :=
  match v with
  | JObj o => p o
  | _ => None
  end.

(** An object schema checks every field and reports all that are in
    violation: [Checked A] is the list of the violations so far and the
    value parsed so far, if there is no violation. *)
Definition Checked (A : Type) : Type := issues * option A.

Definition pure {A : Type} (a : A) : Checked A := ([], Some a).

Definition ap {A B : Type} (f : Checked (A -> B)) (x : Checked A) : Checked B :=
  ((fst f ++ fst x)%list,
   match snd f, snd x with
   | Some g, Some a => Some (g a)
   | _, _ => None
   end).

Notation "f <*> x" := (ap f x) (at level 50, left associativity).

(** A top-level field of an argument object; a violation is reported under
    the field's name, with the value found there. *)
Definition field {A : Type} (o : list (string * jsval)) (k : string)
    (p : jsval -> option A) : Checked A :=
  match p (prop o k) with
  | Some a => ([], Some a)
  | None => ([(k, prop o k)], None)
  end.

(** An argument schema applied to a raw value: the parsed arguments, or the
    fields in violation.  A value that is no object is itself the
    violation, at the empty path. *)
Definition args_object {A : Type} (p : list (string * jsval) -> Checked A)
    (v : jsval) : issues + A :=
  match v with
  | JObj o =>
      match p o with
      | (_, Some a) => inr a
      | (violations, None) => inl violations
      end
  | _ => inl [("", v)]
  end.

(** [Schema.parse(v)]: the parsed value, or a thrown [ZodError] with the
    message zod renders for the violations. *)
Definition parse {A : Type} (name : string) (schema : jsval -> issues + A)
    (v : jsval) : M A :=
  match schema v with
  | inr a => ret a
  | inl violations =>
      message <- ask (fun rt => zod_message rt name violations) ;;
      throw (ZodError message)
  end.

Definition strs (l : list string) : jsval := JArr (map JStr l).

(** ** Shared schemas ([shared/types.ts]) *)

Module Shared.

Local Open Scope zod_scope.

Definition platforms5 : list string :=
  ["youtube"; "tiktok"; "instagram-reels"; "youtube-shorts"; "all"].

Definition categories : list string :=
  ["education"; "entertainment"; "comedy"; "tutorial"; "review"; "vlog";
   "gaming"; "lifestyle"; "tech"; "fitness"].

Definition z_datetime (rt : runtime) (s : string) : option string :=
  if zod_datetime rt s then Some s else None.

Definition outlineSection (v : jsval) : option jsval :=
  z_object (fun o =>
    section <- z_string (prop o "section") ;;
    duration <- z_number (prop o "duration") ;;
    keyPoints <- z_array z_string (prop o "keyPoints") ;;
    Some (JObj [("section", JStr section); ("duration", JNum duration);
                ("keyPoints", strs keyPoints)])) v.

Definition estimatedViewsSchema (v : jsval) : option jsval :=
  z_object (fun o =>
    min <- z_number (prop o "min") ;;
    max <- z_number (prop o "max") ;;
    confidence <- z_number (prop o "confidence") ;;
    Some (JObj [("min", JNum min); ("max", JNum max);
                ("confidence", JNum confidence)])) v.

Definition seoSchema (v : jsval) : option jsval :=
  z_object (fun o =>
    tags <- refine (z_array z_string) (z_max_items 30) (prop o "tags") ;;
    description <- refine z_string (z_max_len 500) (prop o "description") ;;
    keywords <- z_array z_string (prop o "keywords") ;;
    Some (JObj [("tags", strs tags); ("description", JStr description);
                ("keywords", strs keywords)])) v.

(** [ViralIdeaSchema.parse(idea)]: the parsed idea keeps the declared keys
    only; [None] stands for the thrown [ZodError]. *)
Definition ViralIdeaSchema (rt : runtime) (v : jsval) : option jsval :=
  z_object (fun o =>
    id <- z_string (prop o "id") ;;
    title <- refine (refine z_string (z_min_len 10)) (z_max_len 100) (prop o "title") ;;
    hook <- refine (refine z_string (z_min_len 10)) (z_max_len 200) (prop o "hook") ;;
    platform <- z_enum platforms5 (prop o "platform") ;;
    category <- z_enum categories (prop o "category") ;;
    viralScore <- refine (refine z_number (z_min 0%float)) (z_max 100%float) (prop o "viralScore") ;;
    trendingTopics <- z_array z_string (prop o "trendingTopics") ;;
    targetAudience <- z_string (prop o "targetAudience") ;;
    thumbnailConcept <- z_string (prop o "thumbnailConcept") ;;
    scriptOutline <- z_array outlineSection (prop o "scriptOutline") ;;
    estimatedViews <- estimatedViewsSchema (prop o "estimatedViews") ;;
    seo <- seoSchema (prop o "seo") ;;
    generatedAt <- refine z_string (z_datetime rt) (prop o "generatedAt") ;;
    Some (JObj [("id", JStr id); ("title", JStr title); ("hook", JStr hook);
                ("platform", JStr platform); ("category", JStr category);
                ("viralScore", JNum viralScore);
                ("trendingTopics", strs trendingTopics);
                ("targetAudience", JStr targetAudience);
                ("thumbnailConcept", JStr thumbnailConcept);
                ("scriptOutline", JArr scriptOutline);
                ("estimatedViews", estimatedViews); ("seo", seo);
                ("generatedAt", JStr generatedAt)])) v.

End Shared.

(** ** Idea generator ([idea-generator/server.ts]) *)

Module IdeaGenerator.

Record GenerateIdeasArgs : Type := {
  gi_niche : string;
  gi_platform : string;
  gi_count : float;
  gi_trendWindow : string
}.

Record AnalyzeTrendsArgs : Type := {
  at_niche : string;
  at_platforms : list string
}.

Record PredictViralityArgs : Type := {
  pv_title : string;
  pv_description : string;
  pv_platform : string;
  pv_niche : string
}.

Definition GenerateIdeasArgsSchema : jsval -> issues + GenerateIdeasArgs :=
  args_object (fun o =>
    pure Build_GenerateIdeasArgs
      <*> field o "niche" z_string
      <*> field o "platform"
            (z_enum ["youtube"; "tiktok"; "instagram-reels"; "youtube-shorts"; "all"])
      <*> field o "count"
            (refine (refine (refine z_number z_int) (z_min 10%float)) (z_max 50%float))
      <*> field o "trendWindow" (z_default "7d" (z_enum ["24h"; "7d"; "30d"]))).

Definition AnalyzeTrendsArgsSchema : jsval -> issues + AnalyzeTrendsArgs :=
  args_object (fun o =>
    pure Build_AnalyzeTrendsArgs
      <*> field o "niche" z_string
      <*> field o "platforms"
            (z_array (z_enum ["youtube"; "tiktok"; "twitter"; "reddit"; "google-trends"]))).

Definition PredictViralityArgsSchema : jsval -> issues + PredictViralityArgs :=
  args_object (fun o =>
    pure Build_PredictViralityArgs
      <*> field o "title" z_string
      <*> field o "description" z_string
      <*> field o "platform"
            (z_enum ["youtube"; "tiktok"; "instagram-reels"; "youtube-shorts"])
      <*> field o "niche" z_string).

(** [trends.push(...)] *)
Definition push (items : list string) : Loc (list string) unit :=
  modify (fun trends => (trends ++ items)%list).

(** [title.toLowerCase()] on whatever the response carries as a title. *)
Definition call_toLowerCase (rt : runtime) (v : jsval) : exn + string :=
  match v with
  | JStr s => inr (toLowerCase rt s)
  | _ => inl (TypeError "post.data.title.toLowerCase is not a function")
  end.

(** The callback of [posts.forEach]. *)
Definition pushTitle (post : jsval) : Loc (list string) unit :=
  (data <- liftL (lift (member post "data")) ;;
   title <- liftL (lift (member data "title")) ;;
   whenL (truthy title)
     (called <- liftL (ask (fun rt => call_toLowerCase rt title)) ;;
      lowered <- liftL (lift called) ;;
      push [lowered]))%loc.

(** The four blocks of [scrapeTrendingTopics], one per source. *)
Definition youtubeTrends (niche traceId : string) : Loc (list string) unit :=
  try_catchL
    (response <- liftL (axiosGet "https://www.youtube.com/feed/trending"
                          [("bp", JStr "wgYCCAESAhAB")]) ;;
     liftL (logWithTrace traceId "info" "Scraped YouTube trends"
              [("niche", JStr niche)]) ;;
     push [niche ++ " tutorial"; niche ++ " 2025"; "best " ++ niche])%loc
    (fun error =>
       liftL (logWithTrace traceId "warn" "YouTube scraping failed"
                [("error", err_js error)])).

Definition twitterTrends (niche : string) : Loc (list string) unit :=
  push ["#" ++ niche; niche ++ " tips"; niche ++ " secrets"].

Definition redditTrends (niche traceId : string) : Loc (list string) unit :=
  try_catchL
    (response <- liftL (axiosGet ("https://www.reddit.com/r/" ++ niche ++ "/hot.json")
                          [("limit", JInt 10)]) ;;
     let posts := js_or (member_opt (member_opt response "data") "children")
                        (JArr []) in
     items <- liftL (lift (array_items posts "posts.forEach")) ;;
     forEachL pushTitle items ;;
     liftL (logWithTrace traceId "info" "Scraped Reddit trends"
              [("count", JNat (List.length items))]))%loc
    (fun error =>
       liftL (logWithTrace traceId "warn" "Reddit scraping failed"
                [("error", err_js error)])).

Definition googleTrends (niche : string) : Loc (list string) unit :=
  push ["how to " ++ niche; niche ++ " for beginners"; niche ++ " vs";
        niche ++ " mistakes"].

Definition scrapeTrendingTopics (niche : string) (platforms : list string)
    (traceId : string) : M (list string) :=
  with_local []
    (whenL (includes "youtube" platforms) (youtubeTrends niche traceId) ;;
     whenL (includes "twitter" platforms) (twitterTrends niche) ;;
     whenL (includes "reddit" platforms) (redditTrends niche traceId) ;;
     whenL (includes "google-trends" platforms) (googleTrends niche) ;;
     trends <- readL ;;
     retL (dedup trends))%loc.

Definition systemPrompt (rt : runtime) (args : GenerateIdeasArgs)
    (trends : list string) : string :=
  "You are a viral content strategist. Generate " ++
  number_to_string rt (gi_count args) ++
  " viral video ideas for " ++
  gi_platform args ++
  ".

Niche: " ++
  gi_niche args ++
  "
Current Trends: " ++
  join ", " (firstn 10 trends) ++
  "

For each idea, provide:
- Catchy title (40-60 characters)
- Hook (first 5 seconds, max 200 chars)
- Viral score (0-100)
- Thumbnail concept
- 3-5 section script outline
- Estimated views (min/max/confidence)
- SEO tags & description

Return JSON array of viral ideas.".

Definition userPrompt (rt : runtime) (args : GenerateIdeasArgs)
    (trends : list string) : string :=
  "Generate " ++
  number_to_string rt (gi_count args) ++
  " viral " ++
  gi_platform args ++
  " video ideas for the " ++
  gi_niche args ++
  " niche.

Use these trending topics for inspiration:
" ++
  join newline trends ++
  tpl "

Each idea must have:
{
  ~id~: ~unique-id~,
  ~title~: ~Attention-grabbing title~,
  ~hook~: ~First 5 seconds that stop scrolling~,
  ~platform~: ~" ++
  gi_platform args ++
  tpl "~,
  ~category~: ~education/entertainment/etc~,
  ~viralScore~: 85,
  ~trendingTopics~: [~topic1~, ~topic2~],
  ~targetAudience~: ~Description of ideal viewer~,
  ~thumbnailConcept~: ~Visual description for thumbnail~,
  ~scriptOutline~: [
    {~section~: ~Hook~, ~duration~: 5, ~keyPoints~: [~point1~]},
    {~section~: ~Main Content~, ~duration~: 180, ~keyPoints~: [~point1~, ~point2~]}
  ],
  ~estimatedViews~: {~min~: 10000, ~max~: 100000, ~confidence~: 0.75},
  ~seo~: {
    ~tags~: [~tag1~, ~tag2~],
    ~description~: ~SEO-optimized description~,
    ~keywords~: [~keyword1~, ~keyword2~]
  },
  ~generatedAt~: ~" ++
  now_iso rt ++
  tpl "~
}

Platform-specific requirements:
- TikTok: Hook in first 1-3 seconds, max 60 seconds
- YouTube: Strong title SEO, 8-12 minute sweet spot
- Instagram Reels: Visual hooks, trending audio
- YouTube Shorts: 15-60 seconds, vertical format

Generate ideas with viral score 70+.".

(** [ViralIdeaSchema.parse(idea)] as a throwing call. *)
Definition parseIdea (idea : jsval) : M jsval :=
  r <- ask (fun rt => Shared.ViralIdeaSchema rt idea) ;;
  match r with
  | Some v => ret v
  | None =>
      message <- ask (fun rt => zod_message rt "ViralIdeaSchema" [("", idea)]) ;;
      throw (ZodError message)
  end.

Definition generateViralIdeas (args : GenerateIdeasArgs) (traceId : string)
    : M (list jsval) :=
  apiKey <- getenv "GEMINI_API_KEY" ;;
  if negb (truthy_str apiKey) then throw (TrendAnalysisError "GEMINI_API_KEY not found")
  else
    let key := match apiKey with Some k => k | None => "" end in
    trends <- scrapeTrendingTopics (gi_niche args)
                ["youtube"; "reddit"; "google-trends"] traceId ;;
    system <- ask (fun rt => systemPrompt rt args trends) ;;
    user <- ask (fun rt => userPrompt rt args trends) ;;
    logWithTrace traceId "info" "Generating viral ideas"
      [("niche", JStr (gi_niche args)); ("count", JNum (gi_count args))] ;;
    text <- geminiGenerate key (user ++ newline ++ newline ++ system) ;;
    ideas <- match match_array text with
             | Some m => jsonParse m
             | None => ret (JArr [])
             end ;;
    items <- lift (array_items ideas "ideas.map") ;;
    mapped <- mapM (fun idea =>
                try_catch (parseIdea idea)
                  (fun error =>
                     logWithTrace traceId "warn" "Invalid idea skipped"
                       [("error", err_js error)] ;;
                     ret JNull))
                items ;;
    let validatedIdeas := filter truthy mapped in
    logWithTrace traceId "info" "Ideas generated"
      [("count", JNat (List.length validatedIdeas))] ;;
    ret validatedIdeas.

(** [Math.floor(Math.random() * k)] on the [i]-th draw. *)
Definition random_int (rt : runtime) (i : nat) (k : float) : float :=
  Math_floor (random rt i * k)%float.

Fixpoint trendRows (rt : runtime) (i : nat) (trends : list string) : list jsval :=
  match trends with
  | [] => []
  | trend :: rest =>
      JObj [("topic", JStr trend);
            ("volume", JNum (random_int rt i 100000 + 10000)%float);
            ("growth", JNum (random_int rt (S i) 100 - 50)%float)]
      :: trendRows rt (S (S i)) rest
  end.

Definition analyzeTrends (args : AnalyzeTrendsArgs) (traceId : string) : M jsval :=
  trends <- scrapeTrendingTopics (at_niche args) (at_platforms args) traceId ;;
  rows <- ask (fun rt => trendRows rt 0 trends) ;;
  analyzedAt <- ask now_iso ;;
  ret (JObj [("niche", JStr (at_niche args));
             ("platforms", strs (at_platforms args));
             ("trends", JArr rows);
             ("topTrends", strs (firstn 10 trends));
             ("analyzedAt", JStr analyzedAt)]).

Definition viralityPrompt (args : PredictViralityArgs) : string :=
  "Analyze the viral potential of this " ++
  pv_platform args ++
  " video idea:

Title: " ++
  pv_title args ++
  "
Description: " ++
  pv_description args ++
  "
Niche: " ++
  pv_niche args ++
  tpl "

Rate on these factors (0-100):
1. Title clickability
2. Hook strength
3. Trending topic alignment
4. Audience appeal
5. Uniqueness

Return JSON:
{
  ~overallScore~: 85,
  ~breakdown~: {
    ~titleClickability~: 90,
    ~hookStrength~: 85,
    ~trendAlignment~: 80,
    ~audienceAppeal~: 85,
    ~uniqueness~: 75
  },
  ~strengths~: [~strength1~, ~strength2~],
  ~weaknesses~: [~weakness1~],
  ~improvements~: [~suggestion1~, ~suggestion2~],
  ~estimatedViews~: {~min~: 50000, ~max~: 500000}
}".

Definition predictVirality (args : PredictViralityArgs) (traceId : string) : M jsval :=
  apiKey <- getenv "GEMINI_API_KEY" ;;
  if negb (truthy_str apiKey) then throw (TrendAnalysisError "GEMINI_API_KEY not found")
  else
    let key := match apiKey with Some k => k | None => "" end in
    logWithTrace traceId "info" "Predicting virality"
      [("title", JStr (pv_title args))] ;;
    text <- geminiGenerate key (viralityPrompt args) ;;
    match match_object text with
    | Some m => jsonParse m
    | None => ret (JObj [("overallScore", JInt 50)])
    end.

(** The [CallToolRequestSchema] handler. *)
Definition callTool (name : string) (arguments : jsval) : M envelope :=
  traceId <- createTraceId ;;
  try_catch
    (if String.eqb name "generate_viral_ideas" then
       args <- parse "GenerateIdeasArgsSchema" GenerateIdeasArgsSchema arguments ;;
       ideas <- generateViralIdeas args traceId ;;
       ret (success (JObj [("ideas", JArr ideas);
                           ("count", JNat (List.length ideas))]))
     else if String.eqb name "analyze_trending_topics" then
       args <- parse "AnalyzeTrendsArgsSchema" AnalyzeTrendsArgsSchema arguments ;;
       trends <- analyzeTrends args traceId ;;
       ret (success trends)
     else if String.eqb name "predict_virality" then
       args <- parse "PredictViralityArgsSchema" PredictViralityArgsSchema arguments ;;
       prediction <- predictVirality args traceId ;;
       ret (success prediction)
     else throw (Error ("Unknown tool: " ++ name)))
    (fun error =>
       logWithTrace traceId "error" "Tool execution failed"
         [("error", err_js error)] ;;
       ret (failure error traceId)).

End IdeaGenerator.

(** ** Script to video ([script-to-video/server.ts]) *)

Module ScriptToVideo.

Record Idea : Type := {
  idea_title : string;
  idea_hook : string;
  idea_platform : string;
  idea_duration : float;
  idea_outline : option (list jsval)
}.

Record GenerateScriptArgs : Type := {
  gs_idea : Idea;
  gs_tone : string;
  gs_includeVoiceover : bool;
  gs_includeBRoll : bool
}.

Record GenerateStoryboardArgs : Type := {
  sb_script : string;
  sb_platform : string;
  sb_visualStyle : string
}.

Record GenerateVoiceoverArgs : Type := {
  vo_script : string;
  vo_voice : string;
  vo_provider : string;
  vo_format : string
}.

Record ExportProjectArgs : Type := {
  ep_storyboard : list (string * jsval);
  ep_voiceoverPath : option string;
  ep_bRollSuggestions : option (list string);
  ep_format : string
}.

Definition videoPlatforms : list string :=
  ["youtube"; "tiktok"; "instagram-reels"; "youtube-shorts"].

Definition outlineItem (v : jsval) : option jsval :=
  z_object (fun o =>
    section <- z_string (prop o "section") ;;
    duration <- z_number (prop o "duration") ;;
    keyPoints <- z_array z_string (prop o "keyPoints") ;;
    Some (JObj [("section", JStr section); ("duration", JNum duration);
                ("keyPoints", strs keyPoints)]))%zod v.

Definition ideaSchema (v : jsval) : option Idea :=
  z_object (fun o =>
    title <- z_string (prop o "title") ;;
    hook <- z_string (prop o "hook") ;;
    platform <- z_enum videoPlatforms (prop o "platform") ;;
    duration <- z_number (prop o "duration") ;;
    outline <- z_optional (z_array outlineItem) (prop o "outline") ;;
    Some {| idea_title := title; idea_hook := hook; idea_platform := platform;
            idea_duration := duration; idea_outline := outline |})%zod v.

Definition GenerateScriptArgsSchema : jsval -> issues + GenerateScriptArgs :=
  args_object (fun o =>
    pure Build_GenerateScriptArgs
      <*> field o "idea" ideaSchema
      <*> field o "tone"
            (z_default "casual" (z_enum ["energetic"; "educational"; "casual"; "professional"; "humorous"]))
      <*> field o "includeVoiceover" (z_default true z_boolean)
      <*> field o "includeBRoll" (z_default true z_boolean)).

Definition GenerateStoryboardArgsSchema : jsval -> issues + GenerateStoryboardArgs :=
  args_object (fun o =>
    pure Build_GenerateStoryboardArgs
      <*> field o "script" z_string
      <*> field o "platform" (z_enum videoPlatforms)
      <*> field o "visualStyle"
            (z_default "hybrid" (z_enum ["talking-head"; "b-roll-heavy"; "screen-record"; "animated"; "hybrid"]))).

Definition GenerateVoiceoverArgsSchema : jsval -> issues + GenerateVoiceoverArgs :=
  args_object (fun o =>
    pure Build_GenerateVoiceoverArgs
      <*> field o "script" z_string
      <*> field o "voice" (z_default "neutral" z_string)
      <*> field o "provider"
            (z_default "huggingface" (z_enum ["elevenlabs"; "huggingface"]))
      <*> field o "format" (z_default "mp3" (z_enum ["mp3"; "wav"]))).

(** [z.object({}).passthrough()]: any object, all keys kept. *)
Definition z_passthrough (v : jsval) : option (list (string * jsval)) :=
  match v with
  | JObj o => Some o
  | _ => None
  end.

Definition ExportProjectArgsSchema : jsval -> issues + ExportProjectArgs :=
  args_object (fun o =>
    pure Build_ExportProjectArgs
      <*> field o "storyboard" z_passthrough
      <*> field o "voiceoverPath" (z_optional z_string)
      <*> field o "bRollSuggestions" (z_optional (z_array z_string))
      <*> field o "format" (z_enum ["fcpxml"; "premiere-xml"; "davinci-xml"])).

Record PlatformSpec : Type := {
  maxDuration : nat;
  idealDuration : nat;
  hookDuration : nat
}.

(** [platformSpecs[platform]]; [None] is [undefined]. *)
Definition platformSpecs (platform : string) : option PlatformSpec :=
  if String.eqb platform "youtube" then
    Some {| maxDuration := 720; idealDuration := 480; hookDuration := 15 |}
  else if String.eqb platform "tiktok" then
    Some {| maxDuration := 180; idealDuration := 60; hookDuration := 3 |}
  else if String.eqb platform "instagram-reels" then
    Some {| maxDuration := 90; idealDuration := 45; hookDuration := 3 |}
  else if String.eqb platform "youtube-shorts" then
    Some {| maxDuration := 60; idealDuration := 45; hookDuration := 5 |}
  else None.

Definition scriptPrompt (rt : runtime) (args : GenerateScriptArgs)
    (spec : PlatformSpec) : string :=
  "Generate a COMPLETE video script for " ++
  idea_platform (gs_idea args) ++
  ".

**Video Details:**
- Title: " ++
  idea_title (gs_idea args) ++
  "
- Hook: " ++
  idea_hook (gs_idea args) ++
  "
- Target Duration: " ++
  number_to_string rt (idea_duration (gs_idea args)) ++
  "s (max: " ++
  nat_to_string (maxDuration spec) ++
  "s)
- Tone: " ++
  gs_tone args ++
  "

**Platform Requirements:**
- Hook must grab attention in first " ++
  nat_to_string (hookDuration spec) ++
  " seconds
- " ++
  (if String.eqb (idea_platform (gs_idea args)) "youtube"
     then "Pattern interrupt every 30-45s to maintain retention"
     else "Fast-paced, high energy throughout") ++
  "
- " ++
  (if String.eqb (idea_platform (gs_idea args)) "tiktok"
        || String.eqb (idea_platform (gs_idea args)) "instagram-reels"
     then "Vertical format (9:16)" else "Horizontal format (16:9)") ++
  tpl "

**Script Structure (return JSON):**
{
  ~title~: ~" ++
  idea_title (gs_idea args) ++
  tpl "~,
  ~platform~: ~" ++
  idea_platform (gs_idea args) ++
  tpl "~,
  ~totalDuration~: " ++
  number_to_string rt (idea_duration (gs_idea args)) ++
  tpl ",
  ~scenes~: [
    {
      ~timestamp~: ~00:00~,
      ~duration~: " ++
  nat_to_string (hookDuration spec) ++
  tpl ",
      ~sceneType~: ~hook~,
      ~voiceover~: ~Exact words to say (conversational, " ++
  gs_tone args ++
  tpl " tone)~,
      ~onScreenText~: ~Text overlays (if any)~,
      ~visualCue~: ~What viewer sees (camera angle, b-roll, graphics)~,
      ~audioNotes~: ~Music/SFX suggestions~,
      ~transitionTo~: ~cut/fade/zoom~
    }
  ],
  ~bRollSuggestions~: [
    {
      ~timestamp~: ~00:15~,
      ~description~: ~Stock footage of...~,
      ~keywords~: [~search~, ~terms~],
      ~duration~: 3
    }
  ],
  ~musicSuggestions~: {
    ~genre~: ~upbeat electronic~,
    ~mood~: ~energetic~,
    ~keywords~: [~royalty-free~, ~non-copyrighted~]
  },
  ~callToAction~: {
    ~timestamp~: ~" ++
  number_to_string rt (Math_floor (idea_duration (gs_idea args) * 0.9)%float) ++
  tpl "s~,
    ~voiceover~: ~Subscribe for more...~,
    ~visualCue~: ~Subscribe button animation~
  }
}

**Critical:**
- Every " ++
  (if String.eqb (gs_tone args) "educational" then "60" else "30") ++
  tpl " seconds, add a pattern interrupt (question, visual change, reveal)
- Include timestamps for EVERY scene change
- Voiceover must be word-for-word, natural speech (contractions, filler words if casual)
- Visual cues must be specific (~Close-up of hands typing~, not ~Person working~)
" ++
  (if gs_includeBRoll args then "- Suggest 8-12 b-roll clips with exact timestamps" else "") ++
  "

Generate the COMPLETE script now.".

(** [value?.length || 0] in log metadata. *)
Definition length_or_0 (v : jsval) : jsval := js_or (member_opt v "length") (JInt 0).

Definition generateVideoScript (args : GenerateScriptArgs) (traceId : string) : M jsval :=
  apiKey <- getenv "GEMINI_API_KEY" ;;
  if negb (truthy_str apiKey) then throw (Error "GEMINI_API_KEY not found")
  else
    let key := match apiKey with Some k => k | None => "" end in
    spec <- match platformSpecs (idea_platform (gs_idea args)) with
            | Some spec => ret spec
            | None => throw (TypeError "Cannot read properties of undefined (reading 'maxDuration')")
            end ;;
    prompt <- ask (fun rt => scriptPrompt rt args spec) ;;
    logWithTrace traceId "info" "Generating video script"
      [("title", JStr (idea_title (gs_idea args)));
       ("duration", JNum (idea_duration (gs_idea args)))] ;;
    text <- geminiGenerate key prompt ;;
    match match_object text with
    | None => throw (Error "Failed to extract JSON from AI response")
    | Some m =>
        script <- jsonParse m ;;
        scenes <- lift (member script "scenes") ;;
        logWithTrace traceId "info" "Script generated"
          [("scenes", length_or_0 scenes)] ;;
        ret script
    end.

Definition storyboardPrompt (args : GenerateStoryboardArgs) : string :=
  "Create a detailed visual storyboard from this video script.

**Script:**
" ++
  sb_script args ++
  "

**Platform:** " ++
  sb_platform args ++
  "
**Visual Style:** " ++
  sb_visualStyle args ++
  tpl "

Return JSON:
{
  ~shots~: [
    {
      ~shotNumber~: 1,
      ~timestamp~: ~00:00~,
      ~duration~: 5,
      ~shotType~: ~wide/medium/close-up/extreme-close-up~,
      ~cameraAngle~: ~eye-level/high-angle/low-angle/dutch-tilt~,
      ~cameraMovement~: ~static/pan/tilt/dolly/zoom~,
      ~subject~: ~What's in frame~,
      ~lighting~: ~Natural/studio/dramatic/soft~,
      ~composition~: ~Rule of thirds description~,
      ~visualNotes~: ~Detailed description for videographer~,
      ~thumbnail~: ~AI image prompt for this shot (for pre-viz)~
    }
  ],
  ~equipmentNeeded~: [~camera~, ~tripod~, ~lighting~],
  ~locations~: [~home office~, ~outdoor park~],
  ~props~: [~laptop~, ~coffee mug~]
}

Platform-specific guidelines:
- " ++
  (if String.eqb (sb_platform args) "tiktok" || String.eqb (sb_platform args) "instagram-reels"
   then "Vertical framing, dynamic movement" else "Horizontal framing, stable shots") ++
  "
- " ++
  (if String.eqb (sb_visualStyle args) "b-roll-heavy"
   then "Minimize talking-head, maximize action shots" else "") ++
  "
- " ++
  (if String.eqb (sb_visualStyle args) "screen-record"
   then "Focus on screen captures with cursor movement" else "") ++
  "

Generate complete storyboard now.".

Definition generateStoryboard (args : GenerateStoryboardArgs) (traceId : string) : M jsval :=
  apiKey <- getenv "GEMINI_API_KEY" ;;
  if negb (truthy_str apiKey) then throw (Error "GEMINI_API_KEY not found")
  else
    let key := match apiKey with Some k => k | None => "" end in
    logWithTrace traceId "info" "Generating storyboard"
      [("platform", JStr (sb_platform args)); ("style", JStr (sb_visualStyle args))] ;;
    text <- geminiGenerate key (storyboardPrompt args) ;;
    storyboard <- match match_object text with
                  | Some m => jsonParse m
                  | None => ret (JObj [("shots", JArr [])])
                  end ;;
    shots <- lift (member storyboard "shots") ;;
    logWithTrace traceId "info" "Storyboard generated"
      [("shots", length_or_0 shots)] ;;
    ret storyboard.

(** [args.voice || '21m00Tcm4TlvDq8ikWAM'] *)
Definition voiceId (voice : string) : string :=
  if String.eqb voice "" then "21m00Tcm4TlvDq8ikWAM" else voice.

Definition generateVoiceover (args : GenerateVoiceoverArgs) (traceId : string) : M jsval :=
  logWithTrace traceId "info" "Generating voiceover"
    [("provider", JStr (vo_provider args)); ("voice", JStr (vo_voice args))] ;;
  if String.eqb (vo_provider args) "elevenlabs" then
    apiKey <- getenv "ELEVENLABS_API_KEY" ;;
    if negb (truthy_str apiKey) then
      throw (Error (tpl "ELEVENLABS_API_KEY not found. Set it or use provider: ~huggingface~"))
    else
      let key := match apiKey with Some k => k | None => "" end in
      audioBuffer <- axiosPost
        ("https://api.elevenlabs.io/v1/text-to-speech/" ++ voiceId (vo_voice args))
        (JObj [("text", JStr (vo_script args));
               ("model_id", JStr "eleven_monolingual_v1");
               ("voice_settings",
                JObj [("stability", JNum 0.5%float); ("similarity_boost", JNum 0.75%float)])])
        key ;;
      let outputPath := "/tmp/voiceover-" ++ traceId ++ "." ++ vo_format args in
      writeFileSync outputPath audioBuffer ;;
      logWithTrace traceId "info" "Voiceover generated (ElevenLabs)"
        [("path", JStr outputPath); ("size", JNat (String.length audioBuffer))] ;;
      ret (JObj [("success", JBool true);
                 ("audioPath", JStr outputPath);
                 ("provider", JStr "elevenlabs");
                 ("duration", JNat (js_length (vo_script args) / 15));
                 ("format", JStr (vo_format args))])
  else
    HF_API_KEY <- getenv "HUGGINGFACE_API_KEY" ;;
    if negb (truthy_str HF_API_KEY) then throw (Error "HUGGINGFACE_API_KEY not found")
    else
      let key := match HF_API_KEY with Some k => k | None => "" end in
      audioBuffer <- axiosPost
        "https://api-inference.huggingface.co/models/facebook/fastspeech2-en-ljspeech"
        (JObj [("inputs", JStr (vo_script args))])
        ("Bearer " ++ key) ;;
      let outputPath := "/tmp/voiceover-" ++ traceId ++ "." ++ vo_format args in
      writeFileSync outputPath audioBuffer ;;
      logWithTrace traceId "info" "Voiceover generated (HuggingFace)"
        [("path", JStr outputPath); ("size", JNat (String.length audioBuffer))] ;;
      ret (JObj [("success", JBool true);
                 ("audioPath", JStr outputPath);
                 ("provider", JStr "huggingface");
                 ("duration", JNat (js_length (vo_script args) / 15));
                 ("format", JStr (vo_format args));
                 ("note", JStr "For production quality, use ElevenLabs (set ELEVENLABS_API_KEY)")]).

(** The strings of a list of conversions, or the first exception. *)
Fixpoint sequence (l : list (exn + string)) : exn + list string :=
  match l with
  | [] => inr []
  | inl e :: _ => inl e
  | inr s :: r =>
      match sequence r with
      | inl e => inl e
      | inr t => inr (s :: t)
      end
  end.

(** [String(v)], as a template literal renders a value.  An object is
    rendered by [Object.prototype.toString] unless it has a [toString] of
    its own: the own property, not being a function, is passed over, the
    inherited [valueOf] returns the object itself, and the conversion
    throws.  An array renders its elements, [null] and [undefined] as the
    empty string. *)
Fixpoint js_toString (rt : runtime) (v : jsval) : exn + string :=
  match v with
  | JUndefined => inr "undefined"
  | JNull => inr "null"
  | JBool b => inr (if b then "true" else "false")
  | JNum x => inr (number_to_string rt x)
  | JStr s => inr s
  | JArr l =>
      match sequence (map (fun x => match x with
                                    | JUndefined | JNull => inr ""
                                    | _ => js_toString rt x
                                    end) l) with
      | inl e => inl e
      | inr parts => inr (join "," parts)
      end
  | JObj o =>
      match assoc "toString" o with
      | Some _ => inl (TypeError "Cannot convert object to primitive value")
      | None => inr "[object Object]"
      end
  end.

(** [(args.storyboard as any).title || 'Untitled'] inside the template. *)
Definition projectName (rt : runtime) (storyboard : list (string * jsval))
    : exn + string :=
  js_toString rt (js_or (prop storyboard "title") (JStr "Untitled")).

Definition assetElement (voiceoverPath : string) : string :=
  tpl "<asset id=~r2~ src=~file://" ++ voiceoverPath ++
  tpl "~ start=~0s~ duration=~60s~ hasAudio=~1~/>".

Definition audioElement : string :=
  tpl "<audio ref=~r2~ offset=~0s~ duration=~60s~/>".

Definition trackElement (voiceoverPath : string) : string :=
  "<track><clipitem><file><pathurl>file://" ++ voiceoverPath ++
  "</pathurl></file></clipitem></track>".

Definition fcpxml (args : ExportProjectArgs) (name : string) : string :=
  tpl "<?xml version=~1.0~ encoding=~UTF-8~?>
<!DOCTYPE fcpxml>
<fcpxml version=~1.9~>
  <resources>
    <format id=~r1~ name=~FFVideoFormat1080p30~ frameDuration=~1001/30000s~ width=~1920~ height=~1080~/>
    " ++
  if_str (ep_voiceoverPath args) assetElement ++
  tpl "
  </resources>
  <library>
    <event name=~AI Generated Video~>
      <project name=~" ++
  name ++
  tpl "~>
        <sequence format=~r1~ duration=~60s~>
          <spine>
            " ++
  if_str (ep_voiceoverPath args) (fun _ => audioElement) ++
  "
            <!-- Add video clips here based on storyboard -->
          </spine>
        </sequence>
      </project>
    </event>
  </library>
</fcpxml>".

Definition premiereXml (args : ExportProjectArgs) : string :=
  tpl "<?xml version=~1.0~ encoding=~UTF-8~?>
<xmeml version=~5~>
  <sequence>
    <name>AI Generated Video</name>
    <duration>1800</duration>
    <rate>
      <timebase>30</timebase>
    </rate>
    <media>
      <audio>
        " ++
  if_str (ep_voiceoverPath args) trackElement ++
  "
      </audio>
    </media>
  </sequence>
</xmeml>".

Definition edl : string :=
  "TITLE: AI Generated Video
FCM: NON-DROP FRAME

001  BL       V     C        00:00:00:00 00:00:10:00 00:00:00:00 00:00:10:00
* FROM CLIP NAME: Voiceover
".

(** The document that [exportEditingProject] writes; rendering the project
    name may throw. *)
Definition projectDocument (rt : runtime) (args : ExportProjectArgs) : exn + string :=
  if String.eqb (ep_format args) "fcpxml" then
    match projectName rt (ep_storyboard args) with
    | inl e => inl e
    | inr name => inr (fcpxml args name)
    end
  else if String.eqb (ep_format args) "premiere-xml" then inr (premiereXml args)
  else inr edl.

Definition exportEditingProject (args : ExportProjectArgs) (traceId : string) : M jsval :=
  logWithTrace traceId "info" "Exporting editing project"
    [("format", JStr (ep_format args))] ;;
  rendered <- ask (fun rt => projectDocument rt args) ;;
  xml <- lift rendered ;;
  let outputPath := "/tmp/project-" ++ traceId ++ "." ++
                    (if String.eqb (ep_format args) "fcpxml" then "fcpxml" else "xml") in
  writeFileSync outputPath xml ;;
  logWithTrace traceId "info" "Project exported"
    [("path", JStr outputPath); ("format", JStr (ep_format args))] ;;
  ret (JObj [("success", JBool true);
             ("projectPath", JStr outputPath);
             ("format", JStr (ep_format args));
             ("instructions",
              JStr ("Import " ++ outputPath ++ " into " ++
                    (if String.eqb (ep_format args) "fcpxml" then "Final Cut Pro X"
                     else if String.eqb (ep_format args) "premiere-xml"
                          then "Adobe Premiere Pro"
                          else "DaVinci Resolve")))]).

(** The [CallToolRequestSchema] handler. *)
Definition callTool (name : string) (arguments : jsval) : M envelope :=
  traceId <- createTraceId ;;
  try_catch
    (if String.eqb name "generate_video_script" then
       args <- parse "GenerateScriptArgsSchema" GenerateScriptArgsSchema arguments ;;
       script <- generateVideoScript args traceId ;;
       ret (success script)
     else if String.eqb name "generate_storyboard" then
       args <- parse "GenerateStoryboardArgsSchema" GenerateStoryboardArgsSchema arguments ;;
       storyboard <- generateStoryboard args traceId ;;
       ret (success storyboard)
     else if String.eqb name "generate_voiceover" then
       args <- parse "GenerateVoiceoverArgsSchema" GenerateVoiceoverArgsSchema arguments ;;
       voiceover <- generateVoiceover args traceId ;;
       ret (success voiceover)
     else if String.eqb name "export_editing_project" then
       args <- parse "ExportProjectArgsSchema" ExportProjectArgsSchema arguments ;;
       project <- exportEditingProject args traceId ;;
       ret (success project)
     else throw (Error ("Unknown tool: " ++ name)))
    (fun error =>
       logWithTrace traceId "error" "Tool execution failed"
         [("error", err_js error)] ;;
       ret (failure error traceId)).

End ScriptToVideo.

(** ** Growth optimizer ([growth-optimizer/server.ts]) *)

Module GrowthOptimizer.

Record OptimizeSEOArgs : Type := {
  seo_title : string;
  seo_description : string;
  seo_platform : string;
  seo_niche : string;
  seo_targetAudience : option string
}.

Record GenerateThumbnailArgs : Type := {
  th_title : string;
  th_platform : string;
  th_niche : option string;
  th_style : option string
}.

(** One element of [historicalPerformance]. *)
Record Post : Type := {
  postTime : string;
  views : float;
  engagement : float
}.

Record OptimizeScheduleArgs : Type := {
  os_platform : string;
  os_timezone : string;
  os_audienceDemographics : option jsval;
  os_historicalPerformance : option (list Post)
}.

Record RepurposeContentArgs : Type := {
  rc_videoTranscript : string;
  rc_videoDuration : float;
  rc_targetPlatforms : list string;
  rc_clipDuration : float
}.

Record RunABTestArgs : Type := {
  ab_element : string;
  ab_original : string;
  ab_variants : float;
  ab_platform : string
}.

Definition growthPlatforms : list string := ["youtube"; "tiktok"; "instagram"].

Definition OptimizeSEOArgsSchema : jsval -> issues + OptimizeSEOArgs :=
  args_object (fun o =>
    pure Build_OptimizeSEOArgs
      <*> field o "title" z_string
      <*> field o "description" z_string
      <*> field o "platform" (z_enum growthPlatforms)
      <*> field o "niche" z_string
      <*> field o "targetAudience" (z_optional z_string)).

Definition GenerateThumbnailArgsSchema : jsval -> issues + GenerateThumbnailArgs :=
  args_object (fun o =>
    pure Build_GenerateThumbnailArgs
      <*> field o "title" z_string
      <*> field o "platform" (z_enum growthPlatforms)
      <*> field o "niche" (z_optional z_string)
      <*> field o "style"
            (z_optional (z_enum ["minimalist"; "bold-text"; "reaction-face"; "before-after"; "mystery"]))).

(** An optional key of a parsed object: present only when it was given. *)
Definition opt_key (k : string) (v : option jsval) : list (string * jsval) :=
  match v with
  | Some x => [(k, x)]
  | None => []
  end.

Definition demographicsSchema (v : jsval) : option jsval :=
  z_object (fun o =>
    ageRange <- z_optional z_string (prop o "ageRange") ;;
    topCountries <- z_optional (z_array z_string) (prop o "topCountries") ;;
    gender <- z_optional (z_object (fun g => Some (JObj g))) (prop o "gender") ;;
    Some (JObj (opt_key "ageRange" (option_map JStr ageRange) ++
                opt_key "topCountries" (option_map strs topCountries) ++
                opt_key "gender" gender)%list))%zod v.

Definition postSchema (v : jsval) : option Post :=
  z_object (fun o =>
    postTime <- z_string (prop o "postTime") ;;
    views <- z_number (prop o "views") ;;
    engagement <- z_number (prop o "engagement") ;;
    Some {| postTime := postTime; views := views; engagement := engagement |})%zod v.

Definition OptimizeScheduleArgsSchema : jsval -> issues + OptimizeScheduleArgs :=
  args_object (fun o =>
    pure Build_OptimizeScheduleArgs
      <*> field o "platform" (z_enum ["youtube"; "tiktok"; "instagram"; "twitter"])
      <*> field o "timezone" z_string
      <*> field o "audienceDemographics" (z_optional demographicsSchema)
      <*> field o "historicalPerformance" (z_optional (z_array postSchema))).

Definition RepurposeContentArgsSchema : jsval -> issues + RepurposeContentArgs :=
  args_object (fun o =>
    pure Build_RepurposeContentArgs
      <*> field o "videoTranscript" z_string
      <*> field o "videoDuration" z_number
      <*> field o "targetPlatforms"
            (z_array (z_enum ["tiktok"; "instagram-reels"; "youtube-shorts"; "twitter"]))
      <*> field o "clipDuration" (z_default 45%float z_number)).

Definition RunABTestArgsSchema : jsval -> issues + RunABTestArgs :=
  args_object (fun o =>
    pure Build_RunABTestArgs
      <*> field o "element" (z_enum ["thumbnail"; "title"; "hook"])
      <*> field o "original" z_string
      <*> field o "variants"
            (z_default 3%float
               (refine (refine (refine z_number z_int) (z_min 2%float)) (z_max 5%float)))
      <*> field o "platform" (z_enum growthPlatforms)).

Record PlatformRules : Type := {
  titleLength : string;
  descriptionLength : string;
  tags : string;
  keywords : string
}.

(** [platformRules[platform]]; [None] is [undefined]. *)
Definition platformRules (platform : string) : option PlatformRules :=
  if String.eqb platform "youtube" then
    Some {| titleLength := "40-70 characters (mobile truncates at 60)";
            descriptionLength := "First 150 chars appear above fold, use 5000 max";
            tags := "10-15 tags, mix broad + specific, include misspellings";
            keywords := "Front-load title with keyword, repeat 2-3x in description" |}
  else if String.eqb platform "tiktok" then
    Some {| titleLength := "150 chars max, but shorter = better";
            descriptionLength := "NA (caption = title)";
            tags := "3-5 hashtags: 1 viral (#fyp), 1 niche, 1 specific";
            keywords := "Use trending sounds + keywords in caption" |}
  else if String.eqb platform "instagram" then
    Some {| titleLength := "125 chars visible, 2200 max";
            descriptionLength := "First line = hook, hashtags at end or first comment";
            tags := "5-10 hashtags: avoid banned tags, mix popularity levels";
            keywords := "Natural language, avoid keyword stuffing" |}
  else None.

Definition seoPrompt (args : OptimizeSEOArgs) (rules : PlatformRules) : string :=
  "You are an expert " ++
  seo_platform args ++
  " SEO optimizer. Optimize this content for maximum discoverability.

**Original:**
Title: " ++
  seo_title args ++
  "
Description: " ++
  seo_description args ++
  "
Niche: " ++
  seo_niche args ++
  "
" ++
  if_str (seo_targetAudience args) (fun a => "Target Audience: " ++ a) ++
  "

**Platform Rules (" ++
  seo_platform args ++
  "):**
- Title: " ++
  titleLength rules ++
  "
- Description: " ++
  descriptionLength rules ++
  "
- Tags: " ++
  tags rules ++
  "
- Keyword Strategy: " ++
  keywords rules ++
  tpl "

Return JSON:
{
  ~optimizedTitle~: ~New SEO-optimized title~,
  ~optimizedDescription~: ~Keyword-rich description with CTA~,
  ~tags~: [~tag1~, ~tag2~, ~tag3~],
  ~primaryKeyword~: ~main keyword~,
  ~secondaryKeywords~: [~keyword2~, ~keyword3~],
  ~improvements~: [
    ~What changed and why (e.g., 'Added primary keyword to first 5 words')~
  ],
  ~seoScore~: 85,
  ~estimatedImprovement~: ~+25% impressions, +15% CTR~,
  ~competitorAnalysis~: {
    ~topCompetitors~: [~Channel 1~, ~Channel 2~],
    ~gapOpportunities~: [~Underserved keyword: 'X tutorial for beginners'~]
  }
}

Critical:
- Title MUST include primary keyword in first 5 words
- Description MUST have CTA (like, subscribe, comment)
- " ++
  (if String.eqb (seo_platform args) "youtube" then "Add timestamps if tutorial/how-to" else "") ++
  "
- " ++
  (if String.eqb (seo_platform args) "tiktok"
   then "Include trending hashtag + question to boost comments" else "") ++
  "

Optimize now.".

Definition optimizeSEO (args : OptimizeSEOArgs) (traceId : string) : M jsval :=
  apiKey <- getenv "GEMINI_API_KEY" ;;
  if negb (truthy_str apiKey) then throw (Error "GEMINI_API_KEY not found")
  else
    let key := match apiKey with Some k => k | None => "" end in
    rules <- match platformRules (seo_platform args) with
             | Some rules => ret rules
             | None => throw (TypeError "Cannot read properties of undefined (reading 'titleLength')")
             end ;;
    logWithTrace traceId "info" "Optimizing SEO"
      [("platform", JStr (seo_platform args)); ("niche", JStr (seo_niche args))] ;;
    text <- geminiGenerate key (seoPrompt args rules) ;;
    optimized <- match match_object text with
                 | Some m => jsonParse m
                 | None => ret (JObj [])
                 end ;;
    seoScore <- lift (member optimized "seoScore") ;;
    logWithTrace traceId "info" "SEO optimized" [("seoScore", seoScore)] ;;
    ret optimized.

Definition thumbnailPrompt (args : GenerateThumbnailArgs) : string :=
  "Generate 5 high-CTR thumbnail concepts for this " ++
  th_platform args ++
  " video.

**Video Title:** " ++
  th_title args ++
  "
" ++
  if_str (th_niche args) (fun n => "**Niche:** " ++ n) ++
  "
" ++
  if_str (th_style args) (fun s => "**Preferred Style:** " ++ s) ++
  tpl "

Return JSON array:
[
  {
    ~conceptId~: 1,
    ~style~: ~bold-text~,
    ~visualDescription~: ~Bright red background, white sans-serif text '" ++
  slice0 30 (th_title args) ++
  tpl "...', shocked face bottom-right~,
    ~colorPalette~: [~#FF0000~, ~#FFFFFF~, ~#000000~],
    ~textOverlay~: ~3-5 WORDS MAX~,
    ~faceExpression~: ~shocked/curious/excited/none~,
    ~composition~: ~Rule of thirds: text left, face right~,
    ~contrastScore~: 95,
    ~clickabilityScore~: 88,
    ~aiImagePrompt~: ~Photorealistic thumbnail for YouTube: bright red background, bold white text '" ++
  slice0 20 (th_title args) ++
  tpl "', person with shocked expression bottom right corner, high contrast, 16:9 aspect ratio~,
    ~abTestHypothesis~: ~Red backgrounds outperform blue by 12% in tech niche~
  }
]

**Thumbnail Best Practices:**
- " ++
  (if String.eqb (th_platform args) "youtube" then "1280x720px, faces should be 40%+ of frame" else "") ++
  "
- " ++
  (if String.eqb (th_platform args) "tiktok" then "Vertical 9:16, text readable on mobile" else "") ++
  "
- High contrast (use complementary colors)
- Text: 3-5 words MAX, sans-serif, 80pt+
- Faces: expressive emotions (shock, curiosity, excitement)
- Avoid clickbait (platform will demote)
- Include ONE focal point (not cluttered)

Generate 5 diverse concepts with different styles.".

Definition generateThumbnailConcepts (args : GenerateThumbnailArgs) (traceId : string)
    : M jsval :=
  apiKey <- getenv "GEMINI_API_KEY" ;;
  if negb (truthy_str apiKey) then throw (Error "GEMINI_API_KEY not found")
  else
    let key := match apiKey with Some k => k | None => "" end in
    logWithTrace traceId "info" "Generating thumbnail concepts"
      [("title", JStr (th_title args))] ;;
    text <- geminiGenerate key (thumbnailPrompt args) ;;
    concepts <- match match_array text with
                | Some m => jsonParse m
                | None => ret (JArr [])
                end ;;
    count <- lift (member concepts "length") ;;
    logWithTrace traceId "info" "Thumbnail concepts generated" [("count", count)] ;;
    ret (JObj [("concepts", concepts);
               ("abTestRecommendation", JStr "Test top 2 concepts for 48 hours, keep winner");
               ("toolSuggestions",
                strs ["Canva"; "Photoshop"; "Figma"; "Midjourney (for AI generation)"])]).

(** [baselineTimes[platform]]; [None] is [undefined]. *)
Definition baselineTimes (platform : string) : option (list string) :=
  if String.eqb platform "youtube" then Some ["14:00"; "17:00"; "20:00"]
  else if String.eqb platform "tiktok" then Some ["07:00"; "12:00"; "19:00"]
  else if String.eqb platform "instagram" then Some ["11:00"; "13:00"; "19:00"]
  else if String.eqb platform "twitter" then Some ["08:00"; "12:00"; "17:00"]
  else None.

(** The value of [getHours()]: an hour, or [NaN] for an unparsable time. *)
Definition Hour : Type := option nat.

Record Bucket : Type := {
  total_views : float;
  total_engagement : float;
  count : float
}.

(** [performanceByHour]: the object's entries in the order [Object.entries]
    lists them, integer keys ascending and the key [NaN] after them. *)
Definition ByHour : Type := list (Hour * Bucket).

Definition hour_eqb (a b : Hour) : bool :=
  match a, b with
  | Some x, Some y => Nat.eqb x y
  | None, None => true
  | _, _ => false
  end.

Definition hour_before (a b : Hour) : bool :=
  match a, b with
  | Some x, Some y => (x <? y)%nat
  | Some _, None => true
  | None, _ => false
  end.

(** [performanceByHour[hour]] *)
Fixpoint lookup (h : Hour) (m : ByHour) : option Bucket :=
  match m with
  | [] => None
  | (k, b) :: r => if hour_eqb h k then Some b else lookup h r
  end.

(** [performanceByHour[hour] = b] for a key the object does not have yet. *)
Fixpoint create (h : Hour) (b : Bucket) (m : ByHour) : ByHour :=
  match m with
  | [] => [(h, b)]
  | (k, c) :: r => if hour_before h k then (h, b) :: (k, c) :: r
                   else (k, c) :: create h b r
  end.

(** In-place update of the bucket stored under [h]. *)
Fixpoint update (h : Hour) (f : Bucket -> Bucket) (m : ByHour) : ByHour :=
  match m with
  | [] => []
  | (k, b) :: r => if hour_eqb h k then (k, f b) :: r else (k, b) :: update h f r
  end.

Definition empty_bucket : Bucket :=
  {| total_views := 0; total_engagement := 0; count := 0 |}.

(** The three [+=] of the loop body. *)
Definition add_post (post : Post) (b : Bucket) : Bucket :=
  {| total_views := (total_views b + views post)%float;
     total_engagement := (total_engagement b + engagement post)%float;
     count := (count b + 1)%float |}.

(** The body of [historicalPerformance.forEach]. *)
Definition record_post (rt : runtime) (m : ByHour) (post : Post) : ByHour :=
  let hour := getHours rt (postTime post) in
  let m' := match lookup hour m with
            | Some _ => m
            | None => create hour empty_bucket m
            end in
  update hour (add_post post) m'.

Definition performanceByHour (rt : runtime) (history : list Post) : ByHour :=
  fold_left (record_post rt) history [].

Record HourStat : Type := {
  hour : Hour;
  avgViews : float;
  avgEngagement : float
}.

(** The callback of [Object.entries(performanceByHour).map]. *)
Definition hourStat (entry : Hour * Bucket) : HourStat :=
  let (h, data) := entry in
  {| hour := h;
     avgViews := (total_views data / count data)%float;
     avgEngagement := (total_engagement data / count data)%float |}.

(** The sort callback [(a, b) => b.avgEngagement - a.avgEngagement]. *)
Definition byEngagementDesc (a b : HourStat) : float :=
  (avgEngagement b - avgEngagement a)%float.

Definition rankedHours (rt : runtime) (history : list Post) : list HourStat :=
  js_sort byEngagementDesc (map hourStat (performanceByHour rt history)).

Definition topHours (rt : runtime) (history : list Post) : list HourStat :=
  firstn 3 (rankedHours rt history).

(** [h.hour.toString()] *)
Definition hour_toString (h : Hour) : string :=
  match h with
  | Some n => nat_to_string n
  | None => "NaN"
  end.

Definition formatTime (h : HourStat) : string :=
  padStart 2 "0"%char (hour_toString (hour h)) ++ ":00".

Definition hour_js (h : Hour) : jsval :=
  match h with
  | Some n => JNat n
  | None => JNull
  end.

Definition hourStat_js (h : HourStat) : jsval :=
  JObj [("hour", hour_js (hour h)); ("avgViews", JNum (avgViews h));
        ("avgEngagement", JNum (avgEngagement h))].

Definition postingTime (platform time : string) : jsval :=
  JObj [("time", JStr time);
        ("dayOfWeek", JStr (if String.eqb platform "youtube" then "Thursday/Friday"
                            else "Tuesday/Wednesday"));
        ("reason", JStr "Peak audience activity based on analytics")].

Definition optimizePostingSchedule (args : OptimizeScheduleArgs) (traceId : string)
    : M jsval :=
  logWithTrace traceId "info" "Optimizing posting schedule"
    [("platform", JStr (os_platform args)); ("timezone", JStr (os_timezone args))] ;;
  let baseline := baselineTimes (os_platform args) in
  optimalTimes <-
    match os_historicalPerformance args with
    | Some history =>
        if (0 <? List.length history)%nat then
          top <- ask (fun rt => topHours rt history) ;;
          logWithTrace traceId "info" "Analyzed historical data"
            [("topHours", JArr (map hourStat_js top))] ;;
          ret (Some (map formatTime top))
        else ret baseline
    | None => ret baseline
    end ;;
  match optimalTimes with
  | None => throw (TypeError "Cannot read properties of undefined (reading 'map')")
  | Some times =>
      ret (JObj [("platform", JStr (os_platform args));
                 ("timezone", JStr (os_timezone args));
                 ("optimalPostingTimes", JArr (map (postingTime (os_platform args)) times));
                 ("frequency",
                  JStr (if String.eqb (os_platform args) "youtube" then "2-3 videos/week"
                        else if String.eqb (os_platform args) "tiktok" then "1-3 videos/day"
                        else "1 post/day"));
                 ("avoidTimes", strs ["02:00-06:00 (low activity)";
                                      "During major events (unless relevant)"]);
                 ("seasonalNotes",
                  JStr "Summer: -15% engagement. Holiday season: +30% engagement.");
                 ("recommendation",
                  JStr ("Post on " ++ nth 0 times "undefined" ++ " " ++
                        os_timezone args ++ " for maximum reach."))])
  end.

Definition repurposePrompt (rt : runtime) (args : RepurposeContentArgs) : string :=
  "Repurpose this long-form video transcript into " ++
  nat_to_string (List.length (rc_targetPlatforms args)) ++
  " platforms of short-form clips.

**Original Transcript (" ++
  number_to_string rt (rc_videoDuration args) ++
  "s):**
" ++
  rc_videoTranscript args ++
  "

**Target Platforms:** " ++
  join ", " (rc_targetPlatforms args) ++
  "
**Clip Duration:** " ++
  number_to_string rt (rc_clipDuration args) ++
  tpl "s each

Return JSON:
{
  ~clips~: [
    {
      ~clipId~: 1,
      ~platform~: ~tiktok~,
      ~startTime~: ~00:15~,
      ~endTime~: ~00:45~,
      ~duration~: 30,
      ~hook~: ~Did you know...~,
      ~title~: ~Catchy clip title~,
      ~transcript~: ~Exact words from original (" ++
  number_to_string rt (rc_clipDuration args) ++
  tpl "s worth)~,
      ~viralScore~: 85,
      ~callToAction~: ~Watch full video (link in bio)~,
      ~editingNotes~: ~Add zoom effect at 0:05, text overlay for key stat~
    }
  ]
}

**Requirements:**
- Extract 10-15 clips from original
- Each clip MUST have a strong hook (first 3 seconds)
- Clips should be self-contained (no ~as I mentioned before~)
- Prioritize high-energy moments, statistics, surprising facts
- " ++
  (if includes "tiktok" (rc_targetPlatforms args) then "TikTok clips: viral potential 70+" else "") ++
  "
- Include call-to-action to watch full video

Extract clips now.".

Definition repurposeContent (args : RepurposeContentArgs) (traceId : string) : M jsval :=
  apiKey <- getenv "GEMINI_API_KEY" ;;
  if negb (truthy_str apiKey) then throw (Error "GEMINI_API_KEY not found")
  else
    let key := match apiKey with Some k => k | None => "" end in
    prompt <- ask (fun rt => repurposePrompt rt args) ;;
    logWithTrace traceId "info" "Repurposing content"
      [("duration", JNum (rc_videoDuration args));
       ("platforms", JNat (List.length (rc_targetPlatforms args)))] ;;
    text <- geminiGenerate key prompt ;;
    repurposed <- match match_object text with
                  | Some m => jsonParse m
                  | None => ret (JObj [("clips", JArr [])])
                  end ;;
    clips <- lift (member repurposed "clips") ;;
    count <- lift (member clips "length") ;;
    logWithTrace traceId "info" "Content repurposed" [("clips", count)] ;;
    ret repurposed.

Definition abTestPrompt (rt : runtime) (args : RunABTestArgs) : string :=
  "Generate " ++
  number_to_string rt (ab_variants args) ++
  " A/B test variants for this " ++
  ab_element args ++
  ".

**Original " ++
  ab_element args ++
  ":**
" ++
  ab_original args ++
  "

**Platform:** " ++
  ab_platform args ++
  tpl "

Return JSON:
{
  ~original~: ~" ++
  ab_original args ++
  tpl "~,
  ~variants~: [
    {
      ~variantId~: ~A~,
      ~content~: ~Variant text/description~,
      ~hypothesis~: ~Why this might outperform (e.g., 'More curiosity gap')~,
      ~expectedImprovement~: ~+15% CTR~,
      ~riskLevel~: ~low/medium/high~
    }
  ],
  ~testPlan~: {
    ~sampleSize~: 1000,
    ~duration~: ~48 hours~,
    ~successMetric~: ~" ++
  (if String.eqb (ab_element args) "thumbnail" then "CTR"
   else if String.eqb (ab_element args) "title" then "CTR + Retention"
   else "Engagement Rate") ++
  tpl "~,
    ~statisticalSignificance~: ~95% confidence interval~
  }
}

**Variant Strategies:**
" ++
  (if String.eqb (ab_element args) "thumbnail"
   then "- Test colors (warm vs cool), face vs no-face, text placement" else "") ++
  "
" ++
  (if String.eqb (ab_element args) "title"
   then "- Test question vs statement, numbers vs no-numbers, emotional words" else "") ++
  "
" ++
  (if String.eqb (ab_element args) "hook"
   then "- Test curiosity gap, shock value, direct benefit statement" else "") ++
  "

Generate variants now.".

Definition runABTest (args : RunABTestArgs) (traceId : string) : M jsval :=
  apiKey <- getenv "GEMINI_API_KEY" ;;
  if negb (truthy_str apiKey) then throw (Error "GEMINI_API_KEY not found")
  else
    let key := match apiKey with Some k => k | None => "" end in
    prompt <- ask (fun rt => abTestPrompt rt args) ;;
    logWithTrace traceId "info" "Running A/B test"
      [("element", JStr (ab_element args)); ("variants", JNum (ab_variants args))] ;;
    text <- geminiGenerate key prompt ;;
    abTest <- match match_object text with
              | Some m => jsonParse m
              | None => ret (JObj [("variants", JArr [])])
              end ;;
    variants <- lift (member abTest "variants") ;;
    logWithTrace traceId "info" "A/B test variants generated"
      [("count", js_or (member_opt variants "length") (JInt 0))] ;;
    ret abTest.

(** The [CallToolRequestSchema] handler. *)
Definition callTool (name : string) (arguments : jsval) : M envelope :=
  traceId <- createTraceId ;;
  try_catch
    (if String.eqb name "optimize_seo" then
       args <- parse "OptimizeSEOArgsSchema" OptimizeSEOArgsSchema arguments ;;
       result <- optimizeSEO args traceId ;;
       ret (success result)
     else if String.eqb name "generate_thumbnail_concepts" then
       args <- parse "GenerateThumbnailArgsSchema" GenerateThumbnailArgsSchema arguments ;;
       result <- generateThumbnailConcepts args traceId ;;
       ret (success result)
     else if String.eqb name "optimize_posting_schedule" then
       args <- parse "OptimizeScheduleArgsSchema" OptimizeScheduleArgsSchema arguments ;;
       result <- optimizePostingSchedule args traceId ;;
       ret (success result)
     else if String.eqb name "repurpose_content" then
       args <- parse "RepurposeContentArgsSchema" RepurposeContentArgsSchema arguments ;;
       result <- repurposeContent args traceId ;;
       ret (success result)
     else if String.eqb name "run_ab_test" then
       args <- parse "RunABTestArgsSchema" RunABTestArgsSchema arguments ;;
       result <- runABTest args traceId ;;
       ret (success result)
     else throw (Error ("Unknown tool: " ++ name)))
    (fun error =>
       logWithTrace traceId "error" "Tool execution failed"
         [("error", err_js error)] ;;
       ret (failure error traceId)).

End GrowthOptimizer.
(** * Specifications *)

(** ** The order of the doubles

    Every double but [NaN] has a place on a line of integers: zero at 0, a
    finite double at its exponent and mantissa, the infinities beyond all
    of them.  Comparison of doubles is comparison of places. *)

Module FloatOrder.
Local Open Scope Z_scope.

(** Mantissa and exponent within the bounds of the format. *)
Definition in_range (x : spec_float) : Prop :=
  match x with
  | S754_finite _ m e => Z.pos m < 2 ^ 53 /\ -1074 <= e <= 971
  | _ => True
  end.

(** The place of a positive finite double. *)
Definition magnitude (m : positive) (e : Z) : Z := (e + 1075) * 2 ^ 53 + Z.pos m.

(** A place beyond every finite double: 2^70. *)
Definition far : Z := 1180591620717411303424.

Definition position (x : spec_float) : Z :=
  match x with
  | S754_zero _ => 0
  | S754_infinity s => if s then - far else far
  | S754_nan => 0
  | S754_finite s m e => if s then - magnitude m e else magnitude m e
  end.

(** An infinity or a finite double of sign [s]. *)
Definition signed (s : bool) (r : spec_float) : Prop :=
  match r with
  | S754_finite s' _ _ | S754_infinity s' => s' = s
  | _ => False
  end.

(** A double that is a number. *)
Definition nan_free (x : float) : Prop := PrimFloat.is_nan x = false.

(** The place of a double. *)
Definition rank (x : float) : Z := position (Prim2SF x).

(** *** Rounding

    What is needed to follow a product through its rounding. *)

(** [test] holds of the [n] integers from [z] on. *)
Fixpoint all_from (test : Z -> bool) (n : nat) (z : Z) : bool :=
  match n with
  | O => true
  | S k => test z && all_from test k (z + 1)
  end.

(** After [k] shifts the mantissa is the quotient by [2 ^ k], and a set
    round bit says that the remainder is at least half of [2 ^ k]. *)
Definition shifted (M k : Z) (mrs : shr_record) : Prop :=
  shr_m mrs = M / 2 ^ k /\
  (0 < k -> shr_r mrs = true -> 2 ^ (k - 1) <= M mod 2 ^ k).

(** The weight of a mantissa at an exponent, on a scale fine enough for
    every product of two doubles. *)
Definition weight (m e : Z) : Z := m * 2 ^ (e + 2200).

End FloatOrder.





(** ** Posting schedule: what the ranking is measured against *)

Module ScheduleSpec.
Import GrowthOptimizer.

Definition hour_of (rt : runtime) (p : Post) : Hour := getHours rt (postTime p).

(** The samples of the history posted at hour [h]. *)
Definition posts_at (rt : runtime) (h : Hour) (history : list Post) : list Post :=
  filter (fun p => hour_eqb (hour_of rt p) h) history.

(** The sum of the samples as the handler accumulates it: from zero, one
    double addition per sample, in the order of the samples. *)
Definition running_sum (l : list float) : float := fold_left PrimFloat.add l 0%float.

(** The number of samples as the handler counts it: from zero, one double
    increment per sample. *)
Definition running_count (l : list float) : float :=
  fold_left (fun c _ => (c + 1)%float) l 0%float.


(** Every mean engagement of the ranking is a number. *)
Definition means_are_numbers (ranked : list HourStat) : Prop :=
  Forall (fun s => FloatOrder.nan_free (avgEngagement s)) ranked.

(** The rational number a finite double is. *)
Definition exact (x : float) : Q :=
  match Prim2SF x with
  | S754_finite s m e => (inject_Z (cond_Zopp s (Z.pos m)) * Qpower 2 e)%Q
  | _ => 0%Q
  end.


Definition Hour_eq_dec : forall a b : Hour, {a = b} + {a <> b}.
Proof. decide equality. apply Nat.eq_dec. Defined.

(** The distinct hours of day the samples fall into. *)
Definition distinct_hours (rt : runtime) (history : list Post) : list Hour :=
  nodup Hour_eq_dec (map (hour_of rt) history).

Definition bucket_or_empty (o : option Bucket) : Bucket :=
  match o with
  | Some b => b
  | None => empty_bucket
  end.


(** The [time] fields of [optimalPostingTimes] in a result document. *)
Definition posting_times (doc : jsval) : list jsval :=
  match member_opt doc "optimalPostingTimes" with
  | JArr l => map (fun e => member_opt e "time") l
  | _ => []
  end.


(** The samples of the worked example: hours 9, 9 and 14. *)
Definition example_history : list Post :=
  [ {| postTime := "2025-03-04T09:05:00"; views := 100; engagement := 50 |};
    {| postTime := "2025-03-05T09:40:00"; views := 300; engagement := 70 |};
    {| postTime := "2025-03-06T14:10:00"; views := 50; engagement := 90 |} ].



End ScheduleSpec.

(** ** A sample runtime

    Credentials present, local ISO timestamps ([YYYY-MM-DDTHH:mm:ss]) read
    at their hour field, every request refused and a provider that answers
    with prose. *)

Definition digit_of (c : ascii) : option nat :=
  let n := nat_of_ascii c in
  if ((48 <=? n) && (n <=? 57))%nat then Some (n - 48) else None.

Definition iso_local_hour (s : string) : option nat :=
  match String.get 11 s, String.get 12 s with
  | Some a, Some b =>
      match digit_of a, digit_of b with
      | Some x, Some y => if (10 * x + y <? 24)%nat then Some (10 * x + y) else None
      | _, _ => None
      end
  | _, _ => None
  end.

Definition sample_runtime : runtime := {|
  env := fun name => Some ("key-for-" ++ name);
  date_now := 1759785405000%Z;
  now_iso := "2025-10-06T21:16:45.000Z";
  random_suffix := "k3j9x0q1z";
  random := fun _ => 0.5%float;
  getHours := iso_local_hour;
  JSON_parse := fun _ => inl (SyntaxError "Unexpected token");
  zod_datetime := fun _ => true;
  Number_toString := fun _ => "NaN";
  String_toLowerCase := fun s => s;
  zod_message := fun name _ => "Invalid arguments for " ++ name;
  fs_writeFileSync := fun _ _ => inr tt;
  axios_get := fun _ => inl (RequestError "Network Error");
  axios_post := fun _ _ => inl (RequestError "Network Error");
  generateContent := fun _ => inr "Sorry, I cannot help with that."
|}.

Definition schedule_args (history : list GrowthOptimizer.Post)
    : GrowthOptimizer.OptimizeScheduleArgs := {|
  GrowthOptimizer.os_platform := "youtube";
  GrowthOptimizer.os_timezone := "America/New_York";
  GrowthOptimizer.os_audienceDemographics := None;
  GrowthOptimizer.os_historicalPerformance := Some history
|}.

Definition sample_schedule_args : GrowthOptimizer.OptimizeScheduleArgs :=
  schedule_args ScheduleSpec.example_history.

(** ** Trend scraper: the sources one by one *)

Module TrendSpec.
Import IdeaGenerator.

Definition youtube_url : string := "https://www.youtube.com/feed/trending".

Definition reddit_url (niche : string) : string :=
  "https://www.reddit.com/r/" ++ niche ++ "/hot.json".

(** What one source did: it went through, or it failed with an exception
    after having pushed some topics. *)
Inductive outcome : Type :=
| Succeeded (topics : list string)
| Failed (pushed : list string) (e : exn).

Definition pushed_by (o : outcome) : list string :=
  match o with
  | Succeeded ts => ts
  | Failed ts _ => ts
  end.

(** The topics obtained from a source that succeeded. *)
Definition obtained_from (o : outcome) : list string :=
  match o with
  | Succeeded ts => ts
  | Failed _ _ => []
  end.

Definition and_then (t : string) (o : outcome) : outcome :=
  match o with
  | Succeeded ts => Succeeded (t :: ts)
  | Failed ts e => Failed (t :: ts) e
  end.

(** The titles the Reddit loop pushes, post after post. *)
Fixpoint reddit_titles (rt : runtime) (posts : list jsval) : outcome :=
  match posts with
  | [] => Succeeded []
  | post :: rest =>
      match member post "data" with
      | inl e => Failed [] e
      | inr data =>
          match member data "title" with
          | inl e => Failed [] e
          | inr title =>
              if truthy title then
                match call_toLowerCase rt title with
                | inl e => Failed [] e
                | inr lowered => and_then lowered (reddit_titles rt rest)
                end
              else reddit_titles rt rest
          end
      end
  end.

Definition reddit_posts (response : jsval) : exn + list jsval :=
  array_items (js_or (member_opt (member_opt response "data") "children") (JArr []))
              "posts.forEach".

Definition youtube_outcome (rt : runtime) (niche : string) : outcome :=
  match axios_get rt youtube_url with
  | inr _ => Succeeded [niche ++ " tutorial"; niche ++ " 2025"; "best " ++ niche]
  | inl e => Failed [] e
  end.

Definition reddit_outcome (rt : runtime) (niche : string) : outcome :=
  match axios_get rt (reddit_url niche) with
  | inl e => Failed [] e
  | inr response =>
      match reddit_posts response with
      | inl e => Failed [] e
      | inr posts => reddit_titles rt posts
      end
  end.

Definition source_outcome (rt : runtime) (niche source : string) : outcome :=
  if String.eqb source "youtube" then youtube_outcome rt niche
  else if String.eqb source "twitter" then
    Succeeded ["#" ++ niche; niche ++ " tips"; niche ++ " secrets"]
  else if String.eqb source "reddit" then reddit_outcome rt niche
  else if String.eqb source "google-trends" then
    Succeeded ["how to " ++ niche; niche ++ " for beginners"; niche ++ " vs";
               niche ++ " mistakes"]
  else Succeeded [].

(** The sources in the order the scraper visits them, and those of them a
    call asks for. *)
Definition sources : list string := ["youtube"; "twitter"; "reddit"; "google-trends"].

Definition requested (platforms : list string) : list string :=
  filter (fun s => includes s platforms) sources.

(** The warning a failed source leaves in the log. *)
Definition failure_log (traceId source : string) (e : exn) : event :=
  Log traceId "warn"
    ((if String.eqb source "youtube" then "YouTube" else "Reddit") ++ " scraping failed")
    [("error", err_js e)].

(** The events of one source: its request, then its log line. *)
Definition source_events (rt : runtime) (niche traceId source : string) : list event :=
  if String.eqb source "youtube" then
    [HttpGet youtube_url [("bp", JStr "wgYCCAESAhAB")];
     match youtube_outcome rt niche with
     | Succeeded _ => Log traceId "info" "Scraped YouTube trends" [("niche", JStr niche)]
     | Failed _ e => failure_log traceId source e
     end]
  else if String.eqb source "reddit" then
    [HttpGet (reddit_url niche) [("limit", JInt 10)];
     match reddit_outcome rt niche with
     | Succeeded _ =>
         Log traceId "info" "Scraped Reddit trends"
           [("count", JNat (match axios_get rt (reddit_url niche) with
                            | inr response =>
                                match reddit_posts response with
                                | inr posts => List.length posts
                                | inl _ => 0
                                end
                            | inl _ => 0
                            end))]
     | Failed _ e => failure_log traceId source e
     end]
  else [].

(** Every topic pushed by the requested sources, in visiting order. *)
Definition all_pushed (rt : runtime) (niche : string) (platforms : list string)
    : list string :=
  flat_map (fun s => pushed_by (source_outcome rt niche s)) (requested platforms).

(** The topics of the requested sources that succeeded, in visiting order. *)
Definition all_obtained (rt : runtime) (niche : string) (platforms : list string)
    : list string :=
  flat_map (fun s => obtained_from (source_outcome rt niche s)) (requested platforms).

(** No requested source failed after it had pushed a topic. *)
Definition clean_failures (rt : runtime) (niche : string) (platforms : list string)
    : Prop :=
  forall s ts e, In s (requested platforms) ->
    source_outcome rt niche s = Failed ts e -> ts = [].

(** A Reddit answer whose second post has no [data]. *)
Definition half_broken_reddit : jsval :=
  JObj [("data", JObj [("children",
     JArr [JObj [("data", JObj [("title", JStr "Ten Minute Dinners")])];
           JObj [("kind", JStr "t3")]])])].

Definition half_broken_runtime : runtime := {|
  env := env sample_runtime;
  date_now := date_now sample_runtime;
  now_iso := now_iso sample_runtime;
  random_suffix := random_suffix sample_runtime;
  random := random sample_runtime;
  getHours := getHours sample_runtime;
  JSON_parse := JSON_parse sample_runtime;
  zod_datetime := zod_datetime sample_runtime;
  Number_toString := Number_toString sample_runtime;
  String_toLowerCase := String_toLowerCase sample_runtime;
  zod_message := zod_message sample_runtime;
  fs_writeFileSync := fs_writeFileSync sample_runtime;
  axios_get := fun url =>
    if String.eqb url (reddit_url "cooking") then inr half_broken_reddit
    else inr (JStr "<html></html>");
  axios_post := axios_post sample_runtime;
  generateContent := generateContent sample_runtime
|}.

End TrendSpec.

(** ** Replies of a tool call *)

(** The trace id of the call served under [rt]. *)
Definition trace_id (rt : runtime) : string :=
  Z_to_string (date_now rt) ++ "-" ++ random_suffix rt.

(** No event of the list reaches outside the process. *)
Definition silent (events : list event) : Prop :=
  forallb (fun ev => negb (external ev)) events = true.

(** The error envelope carrying [message] and the trace id of the call. *)
Definition error_envelope (rt : runtime) (message : string) : envelope :=
  {| content := JObj [("error", JStr message); ("traceId", JStr (trace_id rt))];
     isError := true |}.

(** A call answered by the error envelope for [message], nothing outside
    the process having been touched. *)
Definition refused (rt : runtime) (message : string)
    (out : (exn + envelope) * list event) : Prop :=
  fst out = inr (error_envelope rt message) /\ silent (snd out).

(** What the [catch] block of a [CallToolRequestSchema] handler makes of the
    outcome of its [try] block. *)
Definition replied (rt : runtime) (out : (exn + envelope) * list event)
    : (exn + envelope) * list event :=
  match out with
  | (inl e, t) =>
      (inr (failure e (trace_id rt)),
       (t ++ [Log (trace_id rt) "error" "Tool execution failed" [("error", err_js e)]])%list)
  | (inr v, t) => (inr v, t)
  end.

(** A configuration error: the message names the missing credential. *)
Definition configuration_error (rt : runtime) (credential : string)
    (out : (exn + envelope) * list event) : Prop :=
  exists message,
    prefix (credential ++ " not found") message = true /\ refused rt message out.

(** [call] fails closed on a missing [credential] for every argument object
    that [schema] accepts with [selects] of the parsed arguments. *)
Definition needs_credential {A : Type} (credential : string)
    (schema : jsval -> issues + A) (selects : A -> Prop)
    (call : jsval -> M envelope) : Prop :=
  forall rt arguments args,
    env rt credential = None ->
    schema arguments = inr args ->
    selects args ->
    configuration_error rt credential (call arguments rt).

(** [call] answers every argument object that the schema called [name]
    rejects with the message of the schema violation, nothing outside the
    process having been touched. *)
Definition validates_first {A : Type} (name : string) (schema : jsval -> issues + A)
    (call : jsval -> M envelope) : Prop :=
  forall rt arguments violations,
    schema arguments = inl violations ->
    refused rt (zod_message rt name violations) (call arguments rt).

(** The sample runtime with an empty environment. *)
Definition keyless_runtime : runtime := {|
  env := fun _ => None;
  date_now := date_now sample_runtime;
  now_iso := now_iso sample_runtime;
  random_suffix := random_suffix sample_runtime;
  random := random sample_runtime;
  getHours := getHours sample_runtime;
  JSON_parse := JSON_parse sample_runtime;
  zod_datetime := zod_datetime sample_runtime;
  Number_toString := Number_toString sample_runtime;
  String_toLowerCase := String_toLowerCase sample_runtime;
  zod_message := zod_message sample_runtime;
  fs_writeFileSync := fs_writeFileSync sample_runtime;
  axios_get := axios_get sample_runtime;
  axios_post := axios_post sample_runtime;
  generateContent := generateContent sample_runtime
|}.

Definition sample_idea_arguments : jsval :=
  JObj [("niche", JStr "cooking"); ("platform", JStr "tiktok"); ("count", JInt 12)].

(** ** Generative handlers *)

(** The provider answers [text], whatever the prompt. *)
Definition provider_answers (rt : runtime) (text : string) : Prop :=
  forall prompt, generateContent rt prompt = inr text.

(** The environment holds a usable [credential]. *)
Definition has_credential (rt : runtime) (credential key : string) : Prop :=
  env rt credential = Some key /\ key <> "".

(** [text] has an [open] character that is followed, somewhere later, by a
    [close] character: what the extraction patterns match. *)
Definition bracketed (open close : ascii) (text : string) : Prop :=
  exists before inside after,
    text = before ++ String open (inside ++ String close after).

(** The success envelope of a call. *)
Definition answers (out : (exn + envelope) * list event) (doc : jsval) : Prop :=
  fst out = inr (success doc).

Module IdeaSpec.

(** The ideas that pass [ViralIdeaSchema], as parsed, and the elements that
    do not pass. *)
Definition survivors (rt : runtime) (ideas : list jsval) : list jsval :=
  flat_map (fun idea => match Shared.ViralIdeaSchema rt idea with
                        | Some v => [v]
                        | None => []
                        end) ideas.

Definition fails_validation (rt : runtime) (idea : jsval) : bool :=
  match Shared.ViralIdeaSchema rt idea with
  | Some _ => false
  | None => true
  end.

Definition rejected (rt : runtime) (ideas : list jsval) : list jsval :=
  filter (fails_validation rt) ideas.

(** The log line of a dropped element. *)
Definition is_skip_log (ev : event) : bool :=
  match ev with
  | Log _ level message _ =>
      String.eqb level "warn" && String.eqb message "Invalid idea skipped"
  | _ => false
  end.

(** The document of a [generate_viral_ideas] reply. *)
Definition ideas_document (ideas : list jsval) : jsval :=
  JObj [("ideas", JArr ideas); ("count", JNat (List.length ideas))].

(** A well-formed idea, and two that are not: one without most of its
    fields, one with a score above 100. *)
Definition sample_idea (id : string) (score : Z) : jsval :=
  JObj [("id", JStr id);
        ("title", JStr "Five knife skills in five minutes");
        ("hook", JStr "You are holding your knife wrong.");
        ("platform", JStr "tiktok");
        ("category", JStr "tutorial");
        ("viralScore", JInt score);
        ("trendingTopics", strs ["cooking tutorial"; "how to cooking"]);
        ("targetAudience", JStr "Home cooks");
        ("thumbnailConcept", JStr "A knife above a halved onion");
        ("scriptOutline",
         JArr [JObj [("section", JStr "Hook"); ("duration", JInt 5);
                     ("keyPoints", strs ["grip"])]]);
        ("estimatedViews",
         JObj [("min", JInt 10000); ("max", JInt 100000); ("confidence", JNum 0.75%float)]);
        ("seo", JObj [("tags", strs ["knife"; "skills"]);
                      ("description", JStr "Learn five cuts.");
                      ("keywords", strs ["knife skills"])]);
        ("generatedAt", JStr "2025-10-06T21:16:45.000Z")].

(** An idea whose title has nine code units in twelve bytes. *)
Definition accented_idea : jsval :=
  match sample_idea "idea-6" 80 with
  | JObj fields =>
      JObj (map (fun kv => if String.eqb (fst kv) "title"
                           then ("title", JStr "Café déjà") else kv) fields)
  | v => v
  end.

Definition five_ideas : list jsval :=
  [sample_idea "idea-1" 88; JObj [("id", JStr "idea-2")]; sample_idea "idea-3" 74;
   sample_idea "idea-4" 150; sample_idea "idea-5" 91].

Definition sample_array_text : string := "Here are the ideas: [five ideas] Enjoy!".

(** The sample runtime with a provider that answers five ideas. *)
Definition ideas_runtime : runtime := {|
  env := env sample_runtime;
  date_now := date_now sample_runtime;
  now_iso := now_iso sample_runtime;
  random_suffix := random_suffix sample_runtime;
  random := random sample_runtime;
  getHours := getHours sample_runtime;
  JSON_parse := fun s =>
    if String.eqb s "[five ideas]" then inr (JArr five_ideas)
    else inl (SyntaxError "Unexpected token");
  zod_datetime := zod_datetime sample_runtime;
  Number_toString := Number_toString sample_runtime;
  String_toLowerCase := String_toLowerCase sample_runtime;
  zod_message := zod_message sample_runtime;
  fs_writeFileSync := fs_writeFileSync sample_runtime;
  axios_get := axios_get sample_runtime;
  axios_post := axios_post sample_runtime;
  generateContent := fun _ => inr sample_array_text
|}.

End IdeaSpec.

(** A runtime whose provider answers prose and whose environment has the
    Gemini key: the sample runtime. *)
Definition sample_storyboard_arguments : jsval :=
  JObj [("script", JStr "Open on the skyline. Cut to the kitchen.");
        ("platform", JStr "tiktok")].

Definition sample_script_arguments : jsval :=
  JObj [("idea", JObj [("title", JStr "Five knife skills in five minutes");
                       ("hook", JStr "You are holding your knife wrong.");
                       ("platform", JStr "youtube-shorts");
                       ("duration", JInt 45)])].

Definition sample_virality_arguments : jsval :=
  JObj [("title", JStr "Five knife skills in five minutes");
        ("description", JStr "A chef shows the five cuts every cook needs.");
        ("platform", JStr "tiktok");
        ("niche", JStr "cooking")].

Definition sample_prose : string := "Sorry, I cannot help with that.".

(** ** Exported documents *)

Module ExportSpec.
Import ScriptToVideo.

(** The documents a call wrote to disk. *)
Definition written (events : list event) : list string :=
  flat_map (fun ev => match ev with
                      | WriteFile _ data => [data]
                      | _ => []
                      end) events.

(** Splitting at a separator character. *)
Fixpoint split_at (sep : ascii) (s : string) : list string :=
  match s with
  | EmptyString => [EmptyString]
  | String c r =>
      if Ascii.eqb c sep then EmptyString :: split_at sep r
      else match split_at sep r with
           | [] => [String c EmptyString]
           | w :: ws => String c w :: ws
           end
  end.

Definition lines (s : string) : list string := split_at (ascii_of_nat 10) s.

(** The fields of a line: its maximal runs of non-blank characters. *)
Definition fields (line : string) : list string :=
  filter (fun w => negb (String.eqb w "")) (split_at " "%char line).

Definition is_digit (c : ascii) : bool :=
  let n := nat_of_ascii c in ((48 <=? n) && (n <=? 57))%nat.

Fixpoint all_digits (s : string) : bool :=
  match s with
  | EmptyString => true
  | String c r => is_digit c && all_digits r
  end.

(** A timecode [hh:mm:ss:ff]. *)
Definition is_timecode (s : string) : bool :=
  match split_at ":"%char s with
  | [h; m; sec; f] =>
      forallb (fun p => (String.length p =? 2)%nat && all_digits p) [h; m; sec; f]
  | _ => false
  end.

(** An edit line of an edit decision list: event number, reel, track,
    transition and four timecodes. *)
Definition is_edit_line (line : string) : bool :=
  match fields line with
  | [number; reel; track; transition; src_in; src_out; rec_in; rec_out] =>
      negb (String.eqb number "") && all_digits number &&
      forallb is_timecode [src_in; src_out; rec_in; rec_out]
  | _ => false
  end.

Definition no_storyboard_args (format : string) (path : option string) : ExportProjectArgs :=
  {| ep_storyboard := []; ep_voiceoverPath := path; ep_bRollSuggestions := None;
     ep_format := format |}.

End ExportSpec.
(** ** Further vocabulary: ranking, buckets *)

(** [a] comes before [b] in a stable descending sort by [key] of a list in
    which [before] holds from each element to the later ones: its key is
    the larger one, or the keys are equal and [a] was before [b]. *)
Definition precedes {A : Type} (key : A -> float) (before : A -> A -> Prop) (a b : A) : Prop :=
  (key b <? key a)%float = true \/ ((key a =? key b)%float = true /\ before a b).

Module RankingSpec.
Import GrowthOptimizer.

(** The entry order of [performanceByHour]: hours ascending, [NaN] last. *)
Definition keys_ascending (keys : list Hour) : Prop :=
  StronglySorted (fun a b => hour_before a b = true) keys.

(** [a] is ranked before [b]: a higher mean engagement, or the same mean
    engagement and the earlier hour. *)
Definition ranks_before : HourStat -> HourStat -> Prop :=
  precedes avgEngagement (fun a b => hour_before (hour a) (hour b) = true).

(** The bucket that the samples [ps], taken in their order, add up to. *)
Definition bucket_of (ps : list Post) : Bucket :=
  {| total_views := ScheduleSpec.running_sum (map views ps);
     total_engagement := ScheduleSpec.running_sum (map engagement ps);
     count := ScheduleSpec.running_count (map views ps) |}.

(** The samples of the history bucket by bucket, in the order of the
    buckets. *)
Definition bucketed (rt : runtime) (history : list Post) : list Post :=
  flat_map (fun h => ScheduleSpec.posts_at rt h history)
           (map fst (performanceByHour rt history)).

(** Samples at hours 14, 8 and 9: hours 14 and 9 have the same mean
    engagement, hour 8 a lower one. *)
Definition tied_history : list Post :=
  [ {| postTime := "2025-03-06T14:10:00"; views := 50; engagement := 90 |};
    {| postTime := "2025-03-07T08:30:00"; views := 20; engagement := 10 |};
    {| postTime := "2025-03-04T09:05:00"; views := 100; engagement := 80 |};
    {| postTime := "2025-03-05T09:40:00"; views := 300; engagement := 100 |} ].

End RankingSpec.

(** ** Tool registries

    The [Tool[]] constants that the [ListToolsRequestSchema] handlers
    return, with their JSON Schema descriptors as values. *)

Module Registry.

Record Tool : Type := {
  name : string;
  description : string;
  inputSchema : jsval
}.

Definition IDEA_GENERATOR_TOOLS : list Tool :=
[
  {| name := "generate_viral_ideas";
     description := "Generate 10-50 viral content ideas based on trending topics and niche";
     inputSchema :=
       JObj [("type", JStr "object");
             ("properties",
             JObj [("niche",
                   JObj [("type", JStr "string");
                         ("description", JStr "Content niche (tech, fitness, cooking, gaming, etc.)")]);
                   ("platform",
                   JObj [("type", JStr "string");
                         ("enum", strs ["youtube";
                               "tiktok";
                               "instagram-reels";
                               "youtube-shorts";
                               "all"])]);
                   ("count",
                   JObj [("type", JStr "number");
                         ("minimum", JInt 10);
                         ("maximum", JInt 50);
                         ("description", JStr "Number of ideas to generate")]);
                   ("trendWindow",
                   JObj [("type", JStr "string");
                         ("enum", strs ["24h"; "7d"; "30d"]);
                         ("description", JStr "Trend analysis time window")])]);
             ("required", strs ["niche"; "platform"; "count"])] |};
  {| name := "analyze_trending_topics";
     description := "Analyze current trending topics across platforms for a niche";
     inputSchema :=
       JObj [("type", JStr "object");
             ("properties",
             JObj [("niche",
                   JObj [("type", JStr "string")]);
                   ("platforms",
                   JObj [("type", JStr "array");
                         ("items",
                         JObj [("type", JStr "string");
                               ("enum", strs ["youtube";
                                     "tiktok";
                                     "twitter";
                                     "reddit";
                                     "google-trends"])])])]);
             ("required", strs ["niche"; "platforms"])] |};
  {| name := "predict_virality";
     description := "Predict viral potential of a content idea (0-100 score)";
     inputSchema :=
       JObj [("type", JStr "object");
             ("properties",
             JObj [("title",
                   JObj [("type", JStr "string")]);
                   ("description",
                   JObj [("type", JStr "string")]);
                   ("platform",
                   JObj [("type", JStr "string");
                         ("enum", strs ["youtube";
                               "tiktok";
                               "instagram-reels";
                               "youtube-shorts"])]);
                   ("niche",
                   JObj [("type", JStr "string")])]);
             ("required", strs ["title"; "description"; "platform"; "niche"])] |} ].

Definition SCRIPT_TO_VIDEO_TOOLS : list Tool :=
[
  {| name := "generate_video_script";
     description := "Generate full video script from idea/outline with timestamps, hooks, transitions";
     inputSchema :=
       JObj [("type", JStr "object");
             ("properties",
             JObj [("idea",
                   JObj [("type", JStr "object");
                         ("properties",
                         JObj [("title",
                               JObj [("type", JStr "string")]);
                               ("hook",
                               JObj [("type", JStr "string")]);
                               ("platform",
                               JObj [("type", JStr "string");
                                     ("enum", strs ["youtube";
                                           "tiktok";
                                           "instagram-reels";
                                           "youtube-shorts"])]);
                               ("duration",
                               JObj [("type", JStr "number");
                                     ("description", JStr "Target duration in seconds")]);
                               ("outline",
                               JObj [("type", JStr "array");
                                     ("items",
                                     JObj [("type", JStr "object");
                                           ("properties",
                                           JObj [("section",
                                                 JObj [("type", JStr "string")]);
                                                 ("duration",
                                                 JObj [("type", JStr "number")]);
                                                 ("keyPoints",
                                                 JObj [("type", JStr "array");
                                                       ("items",
                                                       JObj [("type", JStr "string")])])])])])]);
                         ("required", strs ["title"; "hook"; "platform"; "duration"])]);
                   ("tone",
                   JObj [("type", JStr "string");
                         ("enum", strs ["energetic";
                               "educational";
                               "casual";
                               "professional";
                               "humorous"])]);
                   ("includeVoiceover",
                   JObj [("type", JStr "boolean");
                         ("description", JStr "Generate voiceover script")]);
                   ("includeBRoll",
                   JObj [("type", JStr "boolean");
                         ("description", JStr "Generate b-roll suggestions")])]);
             ("required", strs ["idea"])] |};
  {| name := "generate_storyboard";
     description := "Create visual storyboard from script with shot list, camera angles, visuals";
     inputSchema :=
       JObj [("type", JStr "object");
             ("properties",
             JObj [("script",
                   JObj [("type", JStr "string")]);
                   ("platform",
                   JObj [("type", JStr "string");
                         ("enum", strs ["youtube";
                               "tiktok";
                               "instagram-reels";
                               "youtube-shorts"])]);
                   ("visualStyle",
                   JObj [("type", JStr "string");
                         ("enum", strs ["talking-head";
                               "b-roll-heavy";
                               "screen-record";
                               "animated";
                               "hybrid"])])]);
             ("required", strs ["script"; "platform"])] |};
  {| name := "generate_voiceover";
     description := "Generate AI voiceover audio file from script (ElevenLabs or HuggingFace TTS)";
     inputSchema :=
       JObj [("type", JStr "object");
             ("properties",
             JObj [("script",
                   JObj [("type", JStr "string")]);
                   ("voice",
                   JObj [("type", JStr "string");
                         ("description", JStr "Voice ID or type (male/female/energetic/calm)")]);
                   ("provider",
                   JObj [("type", JStr "string");
                         ("enum", strs ["elevenlabs"; "huggingface"]);
                         ("default", JStr "huggingface")]);
                   ("format",
                   JObj [("type", JStr "string");
                         ("enum", strs ["mp3"; "wav"]);
                         ("default", JStr "mp3")])]);
             ("required", strs ["script"])] |};
  {| name := "export_editing_project";
     description := "Export timeline to Final Cut Pro XML, Premiere Pro XML, or DaVinci Resolve";
     inputSchema :=
       JObj [("type", JStr "object");
             ("properties",
             JObj [("storyboard",
                   JObj [("type", JStr "object")]);
                   ("voiceoverPath",
                   JObj [("type", JStr "string")]);
                   ("bRollSuggestions",
                   JObj [("type", JStr "array");
                         ("items",
                         JObj [("type", JStr "string")])]);
                   ("format",
                   JObj [("type", JStr "string");
                         ("enum", strs ["fcpxml"; "premiere-xml"; "davinci-xml"])])]);
             ("required", strs ["storyboard"; "format"])] |} ].

Definition GROWTH_OPTIMIZER_TOOLS : list Tool :=
[
  {| name := "optimize_seo";
     description := "Optimize video title, description, tags for maximum discoverability";
     inputSchema :=
       JObj [("type", JStr "object");
             ("properties",
             JObj [("title",
                   JObj [("type", JStr "string")]);
                   ("description",
                   JObj [("type", JStr "string")]);
                   ("platform",
                   JObj [("type", JStr "string");
                         ("enum", strs ["youtube"; "tiktok"; "instagram"])]);
                   ("niche",
                   JObj [("type", JStr "string")]);
                   ("targetAudience",
                   JObj [("type", JStr "string")])]);
             ("required", strs ["title"; "description"; "platform"; "niche"])] |};
  {| name := "generate_thumbnail_concepts";
     description := "Generate 5 high-CTR thumbnail concepts with A/B test suggestions";
     inputSchema :=
       JObj [("type", JStr "object");
             ("properties",
             JObj [("title",
                   JObj [("type", JStr "string")]);
                   ("platform",
                   JObj [("type", JStr "string");
                         ("enum", strs ["youtube"; "tiktok"; "instagram"])]);
                   ("niche",
                   JObj [("type", JStr "string")]);
                   ("style",
                   JObj [("type", JStr "string");
                         ("enum", strs ["minimalist";
                               "bold-text";
                               "reaction-face";
                               "before-after";
                               "mystery"])])]);
             ("required", strs ["title"; "platform"])] |};
  {| name := "optimize_posting_schedule";
     description := "Analyze audience analytics and suggest optimal posting times";
     inputSchema :=
       JObj [("type", JStr "object");
             ("properties",
             JObj [("platform",
                   JObj [("type", JStr "string");
                         ("enum", strs ["youtube"; "tiktok"; "instagram"; "twitter"])]);
                   ("timezone",
                   JObj [("type", JStr "string");
                         ("description", JStr "Audience timezone (e.g., America/New_York)")]);
                   ("audienceDemographics",
                   JObj [("type", JStr "object");
                         ("properties",
                         JObj [("ageRange",
                               JObj [("type", JStr "string")]);
                               ("topCountries",
                               JObj [("type", JStr "array");
                                     ("items",
                                     JObj [("type", JStr "string")])]);
                               ("gender",
                               JObj [("type", JStr "object")])])]);
                   ("historicalPerformance",
                   JObj [("type", JStr "array");
                         ("items",
                         JObj [("type", JStr "object");
                               ("properties",
                               JObj [("postTime",
                                     JObj [("type", JStr "string")]);
                                     ("views",
                                     JObj [("type", JStr "number")]);
                                     ("engagement",
                                     JObj [("type", JStr "number")])])])])]);
             ("required", strs ["platform"; "timezone"])] |};
  {| name := "repurpose_content";
     description := "Take 1 long-form video and generate 10+ short-form clips with hooks";
     inputSchema :=
       JObj [("type", JStr "object");
             ("properties",
             JObj [("videoTranscript",
                   JObj [("type", JStr "string")]);
                   ("videoDuration",
                   JObj [("type", JStr "number");
                         ("description", JStr "Original video duration in seconds")]);
                   ("targetPlatforms",
                   JObj [("type", JStr "array");
                         ("items",
                         JObj [("type", JStr "string");
                               ("enum", strs ["tiktok";
                                     "instagram-reels";
                                     "youtube-shorts";
                                     "twitter"])])]);
                   ("clipDuration",
                   JObj [("type", JStr "number");
                         ("description", JStr "Target clip length (15-60s)");
                         ("default", JInt 45)])]);
             ("required", strs ["videoTranscript"; "videoDuration"; "targetPlatforms"])] |};
  {| name := "run_ab_test";
     description := "Generate A/B test variants for thumbnails, titles, or hooks";
     inputSchema :=
       JObj [("type", JStr "object");
             ("properties",
             JObj [("element",
                   JObj [("type", JStr "string");
                         ("enum", strs ["thumbnail"; "title"; "hook"])]);
                   ("original",
                   JObj [("type", JStr "string");
                         ("description", JStr "Original version")]);
                   ("variants",
                   JObj [("type", JStr "number");
                         ("description", JStr "Number of variants to generate (2-5)");
                         ("default", JInt 3)]);
                   ("platform",
                   JObj [("type", JStr "string");
                         ("enum", strs ["youtube"; "tiktok"; "instagram"])])]);
             ("required", strs ["element"; "original"; "platform"])] |} ].

(** The [ListToolsRequestSchema] handlers. *)
Definition listIdeaTools : M (list Tool) := ret IDEA_GENERATOR_TOOLS.
Definition listScriptTools : M (list Tool) := ret SCRIPT_TO_VIDEO_TOOLS.
Definition listGrowthTools : M (list Tool) := ret GROWTH_OPTIMIZER_TOOLS.

(** An adapter: what it lists and how it answers a call. *)
Record server : Type := {
  tools : list Tool;
  call : string -> jsval -> M envelope
}.

Definition ideaServer : server :=
  {| tools := IDEA_GENERATOR_TOOLS; call := IdeaGenerator.callTool |}.
Definition scriptServer : server :=
  {| tools := SCRIPT_TO_VIDEO_TOOLS; call := ScriptToVideo.callTool |}.
Definition growthServer : server :=
  {| tools := GROWTH_OPTIMIZER_TOOLS; call := GrowthOptimizer.callTool |}.

Definition servers : list server := [ideaServer; scriptServer; growthServer].

(** The strings of an array value. *)
Definition js_strings (v : jsval) : list string :=
  match v with
  | JArr l => flat_map (fun x => match x with JStr s => [s] | _ => [] end) l
  | _ => []
  end.

(** The [required] list of a descriptor. *)
Definition required_fields (t : Tool) : list string :=
  js_strings (member_opt (inputSchema t) "required").

(** The properties of a descriptor that declare a [default], with it. *)
Definition declared_defaults (t : Tool) : list (string * jsval) :=
  match member_opt (inputSchema t) "properties" with
  | JObj props =>
      flat_map (fun p => match member_opt (snd p) "default" with
                         | JUndefined => []
                         | d => [(fst p, d)]
                         end) props
  | _ => []
  end.

End Registry.

(** ** Further vocabulary: trend reports *)

Module ReportSpec.
Import TrendSpec.

(** Two platform lists that name the same sources. *)
Definition same_sources (p q : list string) : Prop :=
  forall s, In s sources -> (In s p <-> In s q).

(** A platform list that names no source behind a network request. *)
Definition offline (platforms : list string) : Prop :=
  ~ In "youtube" platforms /\ ~ In "reddit" platforms.

(** The contract of [Math.random()]: every draw is in [[0, 1)]. *)
Definition unit_draws (rt : runtime) : Prop :=
  forall i, (0 <=? random rt i)%float = true /\ (random rt i <? 1)%float = true.

(** The number that is the integer [z], for some [z] from [lo] to [hi]. *)
Definition integer_between (lo hi : Z) (v : jsval) : Prop :=
  exists z, v = JInt z /\ (lo <= z <= hi)%Z.

(** A row of a trend report with its figures in range. *)
Definition row_in_range (row : jsval) : Prop :=
  integer_between 10000 109999 (member_opt row "volume") /\
  integer_between (-50) 49 (member_opt row "growth").

Definition topic_of (row : jsval) : jsval := member_opt row "topic".

Definition sample_trend_args : IdeaGenerator.AnalyzeTrendsArgs :=
  {| IdeaGenerator.at_niche := "cooking";
     IdeaGenerator.at_platforms := ["twitter"; "google-trends"] |}.

End ReportSpec.

(** ** Further vocabulary: what the provider sent *)

Module PayloadSpec.

(** The provider text has a span between [open] and [close] that
    [JSON.parse] rejects with [e]. *)
Definition unparsable (rt : runtime) (open close : ascii) (text : string) (e : exn) : Prop :=
  exists m, greedy_match open close text = Some m /\ JSON_parse rt m = inl e.

(** The span of the provider text between [open] and [close] parses to [v]. *)
Definition parses_to (rt : runtime) (open close : ascii) (text : string) (v : jsval) : Prop :=
  exists m, greedy_match open close text = Some m /\ JSON_parse rt m = inr v.

(** [schema] accepts the argument object. *)
Definition accepted {A : Type} (schema : jsval -> issues + A) (v : jsval) : bool :=
  match schema v with
  | inr _ => true
  | inl _ => false
  end.

(** A generative tool: its call, its argument schema, and the brackets of
    the pattern its handler extracts the provider's JSON with. *)
Record generative_tool : Type := {
  g_call : jsval -> M envelope;
  g_accepts : jsval -> bool;
  g_open : ascii;
  g_close : ascii
}.

Definition ideas_tool : generative_tool :=
  {| g_call := IdeaGenerator.callTool "generate_viral_ideas";
     g_accepts := accepted IdeaGenerator.GenerateIdeasArgsSchema;
     g_open := "["; g_close := "]" |}.

Definition virality_tool : generative_tool :=
  {| g_call := IdeaGenerator.callTool "predict_virality";
     g_accepts := accepted IdeaGenerator.PredictViralityArgsSchema;
     g_open := "{"; g_close := "}" |}.

Definition script_tool : generative_tool :=
  {| g_call := ScriptToVideo.callTool "generate_video_script";
     g_accepts := accepted ScriptToVideo.GenerateScriptArgsSchema;
     g_open := "{"; g_close := "}" |}.

Definition storyboard_tool : generative_tool :=
  {| g_call := ScriptToVideo.callTool "generate_storyboard";
     g_accepts := accepted ScriptToVideo.GenerateStoryboardArgsSchema;
     g_open := "{"; g_close := "}" |}.

Definition seo_tool : generative_tool :=
  {| g_call := GrowthOptimizer.callTool "optimize_seo";
     g_accepts := accepted GrowthOptimizer.OptimizeSEOArgsSchema;
     g_open := "{"; g_close := "}" |}.

Definition thumbnail_tool : generative_tool :=
  {| g_call := GrowthOptimizer.callTool "generate_thumbnail_concepts";
     g_accepts := accepted GrowthOptimizer.GenerateThumbnailArgsSchema;
     g_open := "["; g_close := "]" |}.

Definition repurpose_tool : generative_tool :=
  {| g_call := GrowthOptimizer.callTool "repurpose_content";
     g_accepts := accepted GrowthOptimizer.RepurposeContentArgsSchema;
     g_open := "{"; g_close := "}" |}.

Definition abtest_tool : generative_tool :=
  {| g_call := GrowthOptimizer.callTool "run_ab_test";
     g_accepts := accepted GrowthOptimizer.RunABTestArgsSchema;
     g_open := "{"; g_close := "}" |}.

Definition generative_tools : list generative_tool :=
  [ideas_tool; virality_tool; script_tool; storyboard_tool;
   seo_tool; thumbnail_tool; repurpose_tool; abtest_tool].

(** The tools whose handler returns the parsed object as it is. *)
Definition verbatim_tools : list generative_tool :=
  [virality_tool; script_tool; storyboard_tool; seo_tool; abtest_tool].

(** The sample runtime with a provider that answers [text] and a parser
    that answers [parsed]. *)
Definition canned_runtime (text : string) (parsed : exn + jsval) : runtime := {|
  env := env sample_runtime;
  date_now := date_now sample_runtime;
  now_iso := now_iso sample_runtime;
  random_suffix := random_suffix sample_runtime;
  random := random sample_runtime;
  getHours := getHours sample_runtime;
  JSON_parse := fun _ => parsed;
  zod_datetime := zod_datetime sample_runtime;
  Number_toString := Number_toString sample_runtime;
  String_toLowerCase := String_toLowerCase sample_runtime;
  zod_message := zod_message sample_runtime;
  fs_writeFileSync := fs_writeFileSync sample_runtime;
  axios_get := axios_get sample_runtime;
  axios_post := axios_post sample_runtime;
  generateContent := fun _ => inr text
|}.

Definition garbled_text : string := "Sure! {title: oops [1, 2,] }".

Definition sample_repurpose_arguments : jsval :=
  JObj [("videoTranscript", JStr "Today we sharpen knives. First, the whetstone.");
        ("videoDuration", JInt 600);
        ("targetPlatforms", JArr [JStr "tiktok"])].

End PayloadSpec.

(** ** Further vocabulary: voiceovers and exports *)

Module MediaSpec.
Import ScriptToVideo.

(** The events of a call that reach outside the process, in order. *)
Definition effects (events : list event) : list event := filter external events.

(** The text-to-speech request of a voiceover call: the credential it
    needs, its endpoint, its body, and the header the credential is sent
    in. *)
Definition tts_credential (args : GenerateVoiceoverArgs) : string :=
  if String.eqb (vo_provider args) "elevenlabs" then "ELEVENLABS_API_KEY"
  else "HUGGINGFACE_API_KEY".

Definition tts_url (args : GenerateVoiceoverArgs) : string :=
  if String.eqb (vo_provider args) "elevenlabs"
  then "https://api.elevenlabs.io/v1/text-to-speech/" ++ voiceId (vo_voice args)
  else "https://api-inference.huggingface.co/models/facebook/fastspeech2-en-ljspeech".

Definition tts_body (args : GenerateVoiceoverArgs) : jsval :=
  if String.eqb (vo_provider args) "elevenlabs"
  then JObj [("text", JStr (vo_script args));
             ("model_id", JStr "eleven_monolingual_v1");
             ("voice_settings",
              JObj [("stability", JNum 0.5%float); ("similarity_boost", JNum 0.75%float)])]
  else JObj [("inputs", JStr (vo_script args))].

Definition tts_header (args : GenerateVoiceoverArgs) (key : string) : string :=
  if String.eqb (vo_provider args) "elevenlabs" then key else "Bearer " ++ key.

Definition voiceover_path (rt : runtime) (args : GenerateVoiceoverArgs) : string :=
  "/tmp/voiceover-" ++ trace_id rt ++ "." ++ vo_format args.

(** Where an export is written: the extension follows the format. *)
Definition project_path (rt : runtime) (args : ExportProjectArgs) : string :=
  "/tmp/project-" ++ trace_id rt ++ "." ++
  (if String.eqb (ep_format args) "fcpxml" then "fcpxml" else "xml").

(** Two export requests that agree on all that the handler reads. *)
Definition same_export (a b : ExportProjectArgs) : Prop :=
  ep_format a = ep_format b /\
  ep_voiceoverPath a = ep_voiceoverPath b /\
  prop (ep_storyboard a) "title" = prop (ep_storyboard b) "title".

Definition sample_voiceover_arguments : jsval :=
  JObj [("script", JStr "Welcome back to the channel. Today we sharpen knives.");
        ("provider", JStr "elevenlabs")].

Definition sample_voiceover_args : GenerateVoiceoverArgs :=
  {| vo_script := "Welcome back to the channel. Today we sharpen knives.";
     vo_voice := "neutral"; vo_provider := "elevenlabs"; vo_format := "mp3" |}.

(** A script with accented letters: 29 code units in 36 bytes. *)
Definition accented_script : string := "Crème brûlée: déjà prêt, Zoé!".

Definition accented_voiceover_arguments : jsval :=
  JObj [("script", JStr accented_script); ("provider", JStr "elevenlabs")].

Definition accented_voiceover_args : GenerateVoiceoverArgs :=
  {| vo_script := accented_script;
     vo_voice := "neutral"; vo_provider := "elevenlabs"; vo_format := "mp3" |}.

(** The sample runtime with a text-to-speech provider that answers
    [audio]. *)
Definition speaking_runtime (audio : string) : runtime := {|
  env := env sample_runtime;
  date_now := date_now sample_runtime;
  now_iso := now_iso sample_runtime;
  random_suffix := random_suffix sample_runtime;
  random := random sample_runtime;
  getHours := getHours sample_runtime;
  JSON_parse := JSON_parse sample_runtime;
  zod_datetime := zod_datetime sample_runtime;
  Number_toString := Number_toString sample_runtime;
  String_toLowerCase := String_toLowerCase sample_runtime;
  zod_message := zod_message sample_runtime;
  fs_writeFileSync := fs_writeFileSync sample_runtime;
  axios_get := axios_get sample_runtime;
  axios_post := fun _ _ => inr audio;
  generateContent := generateContent sample_runtime
|}.


Definition sample_export_args : ExportProjectArgs :=
  {| ep_storyboard := [("title", JStr "Knife skills"); ("shots", JArr [])];
     ep_voiceoverPath := Some "/tmp/voiceover-1.mp3";
     ep_bRollSuggestions := Some ["close-up of the blade"];
     ep_format := "davinci-xml" |}.

(** The same request with another storyboard body and no b-roll. *)
Definition bare_export_args : ExportProjectArgs :=
  {| ep_storyboard := [("shots", JArr [JStr "wide"]); ("title", JStr "Knife skills")];
     ep_voiceoverPath := Some "/tmp/voiceover-1.mp3";
     ep_bRollSuggestions := None;
     ep_format := "davinci-xml" |}.

End MediaSpec.

(** ** Further vocabulary: schedules without usable history *)

Module BaselineSpec.
Import GrowthOptimizer.

(** The request carries no usable history. *)
Definition without_history (args : OptimizeScheduleArgs) : Prop :=
  os_historicalPerformance args = None \/ os_historicalPerformance args = Some [].

(** Every sample of the history has a [postTime] that [Date] cannot read. *)
Definition unreadable_times (rt : runtime) (history : list Post) : Prop :=
  forall p, In p history -> getHours rt (postTime p) = None.

(** Two schedule requests that agree on all but the demographics. *)
Definition same_schedule_request (a b : OptimizeScheduleArgs) : Prop :=
  os_platform a = os_platform b /\
  os_timezone a = os_timezone b /\
  os_historicalPerformance a = os_historicalPerformance b.

Definition sample_baseline_arguments : jsval :=
  JObj [("platform", JStr "tiktok"); ("timezone", JStr "Europe/Paris")].

Definition sample_baseline_args : OptimizeScheduleArgs :=
  {| os_platform := "tiktok"; os_timezone := "Europe/Paris";
     os_audienceDemographics := None; os_historicalPerformance := None |}.

Definition profiled_baseline_args : OptimizeScheduleArgs :=
  {| os_platform := "tiktok"; os_timezone := "Europe/Paris";
     os_audienceDemographics := Some (JObj [("ageRange", JStr "18-24")]);
     os_historicalPerformance := None |}.

Definition undated_history : list Post :=
  [{| postTime := "yesterday evening"; views := 1200; engagement := 80 |};
   {| postTime := "last week"; views := 300; engagement := 95 |}].

Definition undated_args : OptimizeScheduleArgs :=
  {| os_platform := "youtube"; os_timezone := "UTC";
     os_audienceDemographics := None;
     os_historicalPerformance := Some undated_history |}.

End BaselineSpec.

(** ** Further vocabulary: the shape of a validated idea *)

Module IdeaShape.

(** The keys of a parsed idea, in the order of the schema. *)
Definition idea_keys : list string :=
  ["id"; "title"; "hook"; "platform"; "category"; "viralScore"; "trendingTopics";
   "targetAudience"; "thumbnailConcept"; "scriptOutline"; "estimatedViews"; "seo";
   "generatedAt"].

Definition keys_of (v : jsval) : list string :=
  match v with
  | JObj o => map fst o
  | _ => []
  end.

(** A string value whose length, in UTF-16 code units, is between [lo]
    and [hi]. *)
Definition text_between (lo hi : nat) (v : jsval) : Prop :=
  exists s, v = JStr s /\ lo <= js_length s <= hi.

(** A number value between [lo] and [hi]. *)
Definition number_between (lo hi : float) (v : jsval) : Prop :=
  exists x, v = JNum x /\ (lo <=? x)%float = true /\ (x <=? hi)%float = true.

(** A string value among [allowed]. *)
Definition one_of (allowed : list string) (v : jsval) : Prop :=
  exists s, v = JStr s /\ In s allowed.

(** What the schema promises of an idea. *)
Definition well_formed_idea (idea : jsval) : Prop :=
  keys_of idea = idea_keys /\
  text_between 10 100 (member_opt idea "title") /\
  text_between 10 200 (member_opt idea "hook") /\
  one_of Shared.platforms5 (member_opt idea "platform") /\
  one_of Shared.categories (member_opt idea "category") /\
  number_between 0 100 (member_opt idea "viralScore").

End IdeaShape.

(** ** Further vocabulary: what a call leaves behind *)

Module AuditSpec.

(** A log line of the call with trace id [tid]; other events pass. *)
Definition logged_under (tid : string) (ev : event) : Prop :=
  match ev with
  | Log t _ _ _ => t = tid
  | _ => True
  end.

(** What a call with [arguments] may do outside the process under [rt]:
    read the YouTube trending page; read
    [https://www.reddit.com/r/<niche>/hot.json] with the [niche] of the
    arguments spliced in as it is; ask the generative model
    [gemini-1.5-pro] with the Gemini key of the environment; send the
    text-to-speech request of the arguments (for ElevenLabs the endpoint
    ends with the [voice] of the arguments, spliced in as it is) with the
    key of the environment that the provider needs; and write the
    voiceover file or the project file of the call.  Log lines are handed
    to the logger. *)
Definition permitted (rt : runtime) (arguments : jsval) (ev : event) : Prop :=
  match ev with
  | Log _ _ _ _ => True
  | HttpGet url params =>
      (url = TrendSpec.youtube_url /\ params = [("bp", JStr "wgYCCAESAhAB")]) \/
      (exists niche,
         member_opt arguments "niche" = JStr niche /\
         url = TrendSpec.reddit_url niche /\ params = [("limit", JInt 10)])
  | HttpPost url body credential =>
      exists args key,
        ScriptToVideo.GenerateVoiceoverArgsSchema arguments = inr args /\
        env rt (MediaSpec.tts_credential args) = Some key /\
        url = MediaSpec.tts_url args /\
        body = MediaSpec.tts_body args /\
        credential = MediaSpec.tts_header args key
  | GenerateContent key model _ =>
      env rt "GEMINI_API_KEY" = Some key /\ model = "gemini-1.5-pro"
  | WriteFile path _ =>
      (exists args,
         ScriptToVideo.GenerateVoiceoverArgsSchema arguments = inr args /\
         path = MediaSpec.voiceover_path rt args) \/
      (exists args,
         ScriptToVideo.ExportProjectArgsSchema arguments = inr args /\
         path = MediaSpec.project_path rt args)
  end.

(** A trend request whose niche walks out of the subreddit path. *)
Definition wandering_arguments : jsval :=
  JObj [("niche", JStr "../user/me"); ("platforms", JArr [JStr "reddit"])].

(** Every event of [m] under [rt] satisfies [P]. *)
Definition always (P : event -> Prop) (rt : runtime) {A : Type} (m : M A) : Prop :=
  Forall P (snd (m rt)).

End AuditSpec.

(** ** Further vocabulary: a provider that is down *)

Module OutageSpec.

(** The provider rejects every prompt with [e]. *)
Definition provider_fails (rt : runtime) (e : exn) : Prop :=
  forall prompt, generateContent rt prompt = inl e.

Definition is_provider_call (ev : event) : bool :=
  match ev with
  | GenerateContent _ _ _ => true
  | _ => false
  end.

(** The requests a call made to the generative provider. *)
Definition provider_calls (events : list event) : list event :=
  filter is_provider_call events.

(** The call reported [e] after it had asked the provider once, with [key]
    and the model [gemini-1.5-pro]. *)
Definition asked_once (rt : runtime) (key : string) (e : exn)
    (out : (exn + envelope) * list event) : Prop :=
  fst out = inr (error_envelope rt (exn_message e)) /\
  exists prompt, provider_calls (snd out) = [GenerateContent key "gemini-1.5-pro" prompt].

(** The sample runtime with a provider that is down. *)
Definition outage_runtime : runtime := {|
  env := env sample_runtime;
  date_now := date_now sample_runtime;
  now_iso := now_iso sample_runtime;
  random_suffix := random_suffix sample_runtime;
  random := random sample_runtime;
  getHours := getHours sample_runtime;
  JSON_parse := JSON_parse sample_runtime;
  zod_datetime := zod_datetime sample_runtime;
  Number_toString := Number_toString sample_runtime;
  String_toLowerCase := String_toLowerCase sample_runtime;
  zod_message := zod_message sample_runtime;
  fs_writeFileSync := fs_writeFileSync sample_runtime;
  axios_get := axios_get sample_runtime;
  axios_post := axios_post sample_runtime;
  generateContent := fun _ => inl (RequestError "503 Service Unavailable")
|}.

End OutageSpec.

(** ** Further vocabulary: the validators by tool name *)

Module ValidatorSpec.
Import PayloadSpec.

(** The schema each dispatcher parses the arguments of a tool with. *)
Definition validates (tool : string) (arguments : jsval) : bool :=
  if String.eqb tool "generate_viral_ideas"
  then accepted IdeaGenerator.GenerateIdeasArgsSchema arguments
  else if String.eqb tool "analyze_trending_topics"
  then accepted IdeaGenerator.AnalyzeTrendsArgsSchema arguments
  else if String.eqb tool "predict_virality"
  then accepted IdeaGenerator.PredictViralityArgsSchema arguments
  else if String.eqb tool "generate_video_script"
  then accepted ScriptToVideo.GenerateScriptArgsSchema arguments
  else if String.eqb tool "generate_storyboard"
  then accepted ScriptToVideo.GenerateStoryboardArgsSchema arguments
  else if String.eqb tool "generate_voiceover"
  then accepted ScriptToVideo.GenerateVoiceoverArgsSchema arguments
  else if String.eqb tool "export_editing_project"
  then accepted ScriptToVideo.ExportProjectArgsSchema arguments
  else if String.eqb tool "optimize_seo"
  then accepted GrowthOptimizer.OptimizeSEOArgsSchema arguments
  else if String.eqb tool "generate_thumbnail_concepts"
  then accepted GrowthOptimizer.GenerateThumbnailArgsSchema arguments
  else if String.eqb tool "optimize_posting_schedule"
  then accepted GrowthOptimizer.OptimizeScheduleArgsSchema arguments
  else if String.eqb tool "repurpose_content"
  then accepted GrowthOptimizer.RepurposeContentArgsSchema arguments
  else if String.eqb tool "run_ab_test"
  then accepted GrowthOptimizer.RunABTestArgsSchema arguments
  else false.

(** The object without its key [k]. *)
Definition without (k : string) (o : list (string * jsval)) : list (string * jsval) :=
  filter (fun entry => negb (String.eqb (fst entry) k)) o.

End ValidatorSpec.
(** * Proofs *)

(** ** Doubles: order and the sign of a difference *)

Module FloatFacts.
Import FloatOrder.
Local Open Scope Z_scope.

(** A position on the line for every number but NaN: the comparison of two
    numbers is the comparison of their positions. *)

Lemma magnitude_bounds (m : positive) (e : Z) :
  Z.pos m < 2 ^ 53 -> -1074 <= e <= 971 -> 0 < magnitude m e < far.
Proof.
  intros Hm He. unfold magnitude, far.
  assert (H53 : 2 ^ 53 = 9007199254740992) by reflexivity.
  rewrite H53 in *. nia.
Qed.

Lemma magnitude_compare (m1 m2 : positive) (e1 e2 : Z) :
  Z.pos m1 < 2 ^ 53 -> Z.pos m2 < 2 ^ 53 ->
  match e1 ?= e2 with
  | Lt => Lt
  | Gt => Gt
  | Eq => Pos.compare_cont Eq m1 m2
  end = (magnitude m1 e1 ?= magnitude m2 e2).
Proof.
  intros H1 H2. unfold magnitude.
  assert (H53 : 2 ^ 53 = 9007199254740992) by reflexivity. rewrite H53 in *.
  change (Pos.compare_cont Eq m1 m2) with (Pos.compare m1 m2).
  rewrite Pos2Z.inj_compare.
  destruct (Z.compare_spec e1 e2) as [E|E|E]; symmetry.
  - subst. destruct (Z.compare_spec (Z.pos m1) (Z.pos m2)) as [F|F|F];
      [apply Z.compare_eq_iff | apply Z.compare_lt_iff | apply Z.compare_gt_iff]; lia.
  - apply Z.compare_lt_iff. nia.
  - apply Z.compare_gt_iff. nia.
Qed.

Ltac decide_compare :=
  unfold far in *;
  first [ apply Z.compare_gt_iff; lia | apply Z.compare_lt_iff; lia
        | apply Z.compare_eq_iff; lia ].

Lemma compare_position (x y : spec_float) :
  in_range x -> in_range y -> x <> S754_nan -> y <> S754_nan ->
  SFcompare x y = Some (position x ?= position y).
Proof.
  intros Hx Hy Nx Ny.
  destruct x as [sx|sx| |sx mx ex], y as [sy|sy| |sy my ey]; try congruence;
    cbn [SFcompare position in_range] in *;
    repeat match goal with
           | H : Z.pos ?m < 2 ^ 53 /\ _ |- _ =>
               let Hm := fresh "Hm" in
               let He := fresh "He" in
               destruct H as [Hm He]; pose proof (magnitude_bounds m _ Hm He)
           end.
  - reflexivity.
  - now destruct sy.
  - destruct sy; f_equal; symmetry; decide_compare.
  - now destruct sx.
  - now destruct sx, sy.
  - destruct sx, sy; f_equal; symmetry; decide_compare.
  - destruct sx; f_equal; symmetry; decide_compare.
  - destruct sx, sy; f_equal; symmetry; decide_compare.
  - destruct sx, sy; f_equal.
    + rewrite Z.compare_opp. rewrite <- (magnitude_compare my mx ey ex) by assumption.
      change (Pos.compare_cont Eq my mx) with (Pos.compare my mx).
      change (Pos.compare_cont Eq mx my) with (Pos.compare mx my).
      destruct (Z.compare_spec ex ey), (Z.compare_spec ey ex); try lia; try reflexivity.
      symmetry. apply Pos.compare_antisym.
    + symmetry. decide_compare.
    + symmetry. decide_compare.
    + now apply magnitude_compare.
Qed.

Lemma digits_bounds (m : positive) :
  2 ^ (Z.pos (digits2_pos m) - 1) <= Z.pos m < 2 ^ Z.pos (digits2_pos m).
Proof.
  induction m as [m IH|m IH|]; cbn [digits2_pos].
  - rewrite Pos2Z.inj_succ. replace (Z.succ (Z.pos (digits2_pos m)) - 1)
      with (Z.succ (Z.pos (digits2_pos m) - 1)) by lia.
    rewrite !Z.pow_succ_r by lia. lia.
  - rewrite Pos2Z.inj_succ. replace (Z.succ (Z.pos (digits2_pos m)) - 1)
      with (Z.succ (Z.pos (digits2_pos m) - 1)) by lia.
    rewrite !Z.pow_succ_r by lia. lia.
  - cbn. lia.
Qed.

Lemma valid_finite (s : bool) (m : positive) (e : Z) :
  valid_binary (S754_finite s m e) = true ->
  Z.pos (digits2_pos m) <= 53 /\ -1074 <= e <= 971 /\
  (-1074 < e -> Z.pos (digits2_pos m) = 53).
Proof.
  cbn [SpecFloat.valid_binary]. unfold bounded, canonical_mantissa, fexp, SpecFloat.emin.
  cbn [prec emax]. intro H. apply andb_true_iff in H. destruct H as [Hc Hb].
  apply Z.eqb_eq in Hc. apply Z.leb_le in Hb.
  unfold prec, emax in Hc, Hb. lia.
Qed.

Lemma valid_in_range (x : spec_float) : valid_binary x = true -> in_range x.
Proof.
  destruct x as [s|s| |s m e]; cbn [in_range]; trivial.
  intro H. destruct (valid_finite s m e H) as (Hd & He & _).
  split; [|exact He]. destruct (digits_bounds m) as [_ Hm].
  eapply Z.lt_le_trans; [exact Hm|]. apply Z.pow_le_mono_r; lia.
Qed.

(* rounding never changes the sign of a non-zero significand *)

Lemma shr_1_digits (mrs : shr_record) (p : positive) :
  shr_m mrs = Z.pos p -> 1 < Z.pos (digits2_pos p) ->
  exists q, shr_m (shr_1 mrs) = Z.pos q /\
            Z.pos (digits2_pos q) = Z.pos (digits2_pos p) - 1.
Proof.
  destruct mrs as [m r t]. cbn [shr_m]. intros -> Hd.
  destruct p as [p|p|]; cbn [shr_1 shr_m digits2_pos] in *.
  - exists p. split; [reflexivity|lia].
  - exists p. split; [reflexivity|lia].
  - lia.
Qed.

Lemma iter_shr_digits (n : positive) :
  forall (mrs : shr_record) (p : positive),
  shr_m mrs = Z.pos p -> Z.pos n < Z.pos (digits2_pos p) ->
  exists q, shr_m (iter_pos shr_1 n mrs) = Z.pos q /\
            Z.pos (digits2_pos q) = Z.pos (digits2_pos p) - Z.pos n.
Proof.
  induction n as [n IH|n IH|]; intros mrs p Hm Hd; cbn [iter_pos].
  - destruct (shr_1_digits mrs p Hm) as (q1 & H1 & D1); [lia|].
    destruct (IH _ q1 H1) as (q2 & H2 & D2); [lia|].
    destruct (IH _ q2 H2) as (q3 & H3 & D3); [lia|].
    exists q3. split; [exact H3|lia].
  - destruct (IH _ p Hm) as (q2 & H2 & D2); [lia|].
    destruct (IH _ q2 H2) as (q3 & H3 & D3); [lia|].
    exists q3. split; [exact H3|lia].
  - destruct (shr_1_digits mrs p Hm) as (q1 & H1 & D1); [lia|].
    exists q1. split; [exact H1|lia].
Qed.

Lemma shr_fexp_positive (p : positive) (e : Z) (l : location) :
  -1074 <= e ->
  exists q, shr_m (fst (shr_fexp prec emax (Z.pos p) e l)) = Z.pos q /\
            -1074 <= snd (shr_fexp prec emax (Z.pos p) e l).
Proof.
  intro He. unfold shr_fexp, fexp, SpecFloat.emin, Zdigits2, prec, emax.
  set (mrs := shr_record_of_loc (Z.pos p) l).
  assert (Hm : shr_m mrs = Z.pos p) by (destruct l as [|[ | | ]]; reflexivity).
  set (n := Z.max (Z.pos (digits2_pos p) + e - 53) (3 - 1024 - 53) - e).
  assert (Hn : n < Z.pos (digits2_pos p)) by (unfold n; lia).
  clearbody n mrs. destruct n as [|n|n]; cbn [shr fst snd].
  - exists p. split; [exact Hm|exact He].
  - destruct (iter_shr_digits n mrs p Hm Hn) as (q & Hq & _).
    exists q. split; [exact Hq|lia].
  - exists p. split; [exact Hm|exact He].
Qed.

Lemma round_nearest_even_positive (q : positive) (l : location) :
  exists q', round_nearest_even (Z.pos q) l = Z.pos q'.
Proof.
  destruct l as [|[ | | ]]; cbn [round_nearest_even];
    try destruct (Z.even (Z.pos q)); eexists; reflexivity.
Qed.

Lemma binary_round_aux_signed (s : bool) (p : positive) (e : Z) (l : location) :
  -1074 <= e -> signed s (binary_round_aux prec emax s (Z.pos p) e l).
Proof.
  intro He. unfold binary_round_aux.
  destruct (shr_fexp_positive p e l He) as (q & Hq & He').
  destruct (shr_fexp prec emax (Z.pos p) e l) as [mrs' e']. cbn [fst snd] in Hq, He'.
  rewrite Hq.
  destruct (round_nearest_even_positive q (loc_of_shr_record mrs')) as (q' & ->).
  destruct (shr_fexp_positive q' e' loc_Exact He') as (q2 & Hq2 & _).
  destruct (shr_fexp prec emax (Z.pos q') e' loc_Exact) as [mrs2 e2]. cbn [fst] in Hq2.
  rewrite Hq2. destruct (e2 <=? emax - prec); reflexivity.
Qed.

Lemma binary_round_signed (s : bool) (p : positive) (e : Z) :
  -1074 <= e -> signed s (binary_round prec emax s p e).
Proof.
  intro He. unfold binary_round, shl_align.
  assert (Hf : -1074 <= fexp prec emax (Z.pos (digits2_pos p) + e))
    by (unfold fexp, SpecFloat.emin, prec, emax; lia).
  destruct (fexp prec emax (Z.pos (digits2_pos p) + e) - e);
    apply binary_round_aux_signed; assumption.
Qed.

Lemma binary_normalize_sign (d e : Z) :
  -1074 <= e ->
  SFltb (S754_zero false) (binary_normalize prec emax d e false) = (0 <? d).
Proof.
  intro He. destruct d as [|p|p]; cbn [binary_normalize].
  - reflexivity.
  - pose proof (binary_round_signed false p e He) as H.
    destruct (binary_round prec emax false p e) as [t|t| |t m x]; cbn in H; try tauto;
      subst t; reflexivity.
  - pose proof (binary_round_signed true p e He) as H.
    destruct (binary_round prec emax true p e) as [t|t| |t m x]; cbn in H; try tauto;
      subst t; reflexivity.
Qed.

Lemma iter_xO (d m : positive) : Z.pos (Pos.iter xO m d) = Z.pos m * 2 ^ Z.pos d.
Proof.
  revert m. induction d as [|d IH] using Pos.peano_ind; intro m.
  - cbn [Pos.iter]. rewrite Pos2Z.inj_xO. lia.
  - rewrite Pos.iter_succ, Pos2Z.inj_xO, IH, Pos2Z.inj_succ, Z.pow_succ_r by lia. lia.
Qed.

Lemma shl_align_value (m : positive) (e ez : Z) :
  ez <= e -> Z.pos (fst (shl_align m e ez)) = Z.pos m * 2 ^ (e - ez).
Proof.
  intro H. unfold shl_align. destruct (ez - e) as [|d|d] eqn:E; cbn [fst].
  - replace (e - ez) with 0 by lia. lia.
  - lia.
  - rewrite iter_xO. replace (e - ez) with (Z.pos d) by lia. reflexivity.
Qed.

Lemma finite_mantissa (s : bool) (m : positive) (e : Z) :
  valid_binary (S754_finite s m e) = true ->
  Z.pos m < 2 ^ 53 /\ -1074 <= e <= 971 /\ (-1074 < e -> 2 ^ 52 <= Z.pos m).
Proof.
  intro H. destruct (valid_finite s m e H) as (Hd & He & Hn).
  destruct (digits_bounds m) as [Hlo Hhi]. repeat split; try lia.
  - eapply Z.lt_le_trans; [exact Hhi|]. apply Z.pow_le_mono_r; lia.
  - intro Hl. rewrite (Hn Hl) in Hlo. exact Hlo.
Qed.

Lemma aligned_difference_sign (sx sy : bool) (mx my : positive) (ex ey : Z) :
  valid_binary (S754_finite sx mx ex) = true ->
  valid_binary (S754_finite sy my ey) = true ->
  (0 <? cond_Zopp sy (Z.pos my * 2 ^ (ey - Z.min ex ey))
        - cond_Zopp sx (Z.pos mx * 2 ^ (ex - Z.min ex ey)))
  = (position (S754_finite sx mx ex) <? position (S754_finite sy my ey)).
Proof.
  intros Hx Hy.
  destruct (finite_mantissa _ _ _ Hx) as (Hmx & Hex & Hnx).
  destruct (finite_mantissa _ _ _ Hy) as (Hmy & Hey & Hny).
  assert (H53 : 2 ^ 53 = 9007199254740992) by reflexivity.
  assert (H52 : 2 ^ 52 = 4503599627370496) by reflexivity.
  rewrite H53 in *. rewrite H52 in *.
  cbn [position]. unfold magnitude. rewrite H53.
  destruct (Z.lt_trichotomy ex ey) as [Hlt|[Heq|Hgt]].
  - rewrite Z.min_l by lia. rewrite Z.sub_diag, Z.pow_0_r, Z.mul_1_r.
    assert (HK : 2 <= 2 ^ (ey - ex))
      by (change 2 with (2 ^ 1) at 1; apply Z.pow_le_mono_r; lia).
    set (K := 2 ^ (ey - ex)) in *. clearbody K.
    assert (Hb : Z.pos mx < Z.pos my * K) by nia.
    destruct sx, sy; cbn [cond_Zopp];
      destruct (Z.ltb_spec 0 (Z.pos my * K - Z.pos mx));
      destruct (Z.ltb_spec 0 (- (Z.pos my * K) - Z.pos mx));
      destruct (Z.ltb_spec 0 (Z.pos my * K - - Z.pos mx));
      destruct (Z.ltb_spec 0 (- (Z.pos my * K) - - Z.pos mx));
      try lia; symmetry;
      first [ apply Z.ltb_lt; lia | apply Z.ltb_ge; lia ].
  - subst ey. rewrite Z.min_id, Z.sub_diag, Z.pow_0_r, !Z.mul_1_r.
    destruct sx, sy; cbn [cond_Zopp];
      match goal with |- (0 <? ?d) = _ => destruct (Z.ltb_spec 0 d) end;
      symmetry; first [ apply Z.ltb_lt; lia | apply Z.ltb_ge; lia ].
  - rewrite Z.min_r by lia. rewrite Z.sub_diag, Z.pow_0_r, Z.mul_1_r.
    assert (HK : 2 <= 2 ^ (ex - ey))
      by (change 2 with (2 ^ 1) at 1; apply Z.pow_le_mono_r; lia).
    set (K := 2 ^ (ex - ey)) in *. clearbody K.
    assert (Hb : Z.pos my < Z.pos mx * K) by nia.
    destruct sx, sy; cbn [cond_Zopp];
      match goal with |- (0 <? ?d) = _ => destruct (Z.ltb_spec 0 d) end;
      symmetry; first [ apply Z.ltb_lt; lia | apply Z.ltb_ge; lia ].
Qed.

Lemma SFltb_position (x y : spec_float) :
  valid_binary x = true -> valid_binary y = true ->
  x <> S754_nan -> y <> S754_nan ->
  SFltb x y = (position x <? position y).
Proof.
  intros Hx Hy Nx Ny. unfold SFltb.
  rewrite (compare_position x y) by auto using valid_in_range.
  unfold Z.ltb. destruct (position x ?= position y); reflexivity.
Qed.

Lemma SFleb_position (x y : spec_float) :
  valid_binary x = true -> valid_binary y = true ->
  x <> S754_nan -> y <> S754_nan ->
  SFleb x y = (position x <=? position y).
Proof.
  intros Hx Hy Nx Ny. unfold SFleb.
  rewrite (compare_position x y) by auto using valid_in_range.
  unfold Z.leb. destruct (position x ?= position y); reflexivity.
Qed.

Lemma SFeqb_position (x y : spec_float) :
  valid_binary x = true -> valid_binary y = true ->
  x <> S754_nan -> y <> S754_nan ->
  SFeqb x y = (position x =? position y).
Proof.
  intros Hx Hy Nx Ny. unfold SFeqb.
  rewrite (compare_position x y) by auto using valid_in_range.
  rewrite Z.eqb_compare. destruct (position x ?= position y); reflexivity.
Qed.

Lemma SFsub_sign (x y : spec_float) :
  valid_binary x = true -> valid_binary y = true ->
  x <> S754_nan -> y <> S754_nan ->
  SFltb (S754_zero false) (SFsub prec emax y x) = SFltb x y.
Proof.
  intros Hx Hy Nx Ny.
  destruct x as [sx|sx| |sx mx ex]; [| |congruence|];
    (destruct y as [sy|sy| |sy my ey]; [| |congruence|]);
    try (destruct sx; try destruct sy; reflexivity);
    try (destruct sy; try destruct sx; reflexivity).
  rewrite (SFltb_position _ _ Hx Hy Nx Ny).
  rewrite <- (aligned_difference_sign sx sy mx my ex ey Hx Hy).
  cbn [SFsub].
  destruct (finite_mantissa _ _ _ Hx) as (_ & Hex & _).
  destruct (finite_mantissa _ _ _ Hy) as (_ & Hey & _).
  rewrite binary_normalize_sign by lia.
  rewrite !shl_align_value by lia.
  rewrite (Z.min_comm ey ex). reflexivity.
Qed.

Lemma nan_free_spec (x : float) : nan_free x -> Prim2SF x <> S754_nan.
Proof.
  unfold nan_free, PrimFloat.is_nan. rewrite eqb_spec. intros H E.
  rewrite E in H. discriminate H.
Qed.

Lemma ltb_rank (x y : float) :
  nan_free x -> nan_free y -> (x <? y)%float = (rank x <? rank y).
Proof.
  intros Hx Hy. rewrite ltb_spec. apply SFltb_position;
    auto using Prim2SF_valid, nan_free_spec.
Qed.

Lemma leb_rank (x y : float) :
  nan_free x -> nan_free y -> (x <=? y)%float = (rank x <=? rank y).
Proof.
  intros Hx Hy. rewrite leb_spec. apply SFleb_position;
    auto using Prim2SF_valid, nan_free_spec.
Qed.

Lemma eqb_rank (x y : float) :
  nan_free x -> nan_free y -> (x =? y)%float = (rank x =? rank y).
Proof.
  intros Hx Hy. rewrite eqb_spec. apply SFeqb_position;
    auto using Prim2SF_valid, nan_free_spec.
Qed.

Lemma sub_sign (x y : float) :
  nan_free x -> nan_free y -> (0 <? y - x)%float = (x <? y)%float.
Proof.
  intros Hx Hy. rewrite !ltb_spec, sub_spec.
  change (Prim2SF 0) with (S754_zero false).
  apply SFsub_sign; auto using Prim2SF_valid, nan_free_spec.
Qed.

Lemma binary_normalize_negative (d e : Z) :
  -1074 <= e ->
  SFltb (binary_normalize prec emax d e false) (S754_zero false) = (d <? 0).
Proof.
  intro He. destruct d as [|p|p]; cbn [binary_normalize].
  - reflexivity.
  - pose proof (binary_round_signed false p e He) as H.
    destruct (binary_round prec emax false p e) as [t|t| |t m x]; cbn in H; try tauto;
      subst t; reflexivity.
  - pose proof (binary_round_signed true p e He) as H.
    destruct (binary_round prec emax true p e) as [t|t| |t m x]; cbn in H; try tauto;
      subst t; reflexivity.
Qed.

Lemma SFsub_negative (x y : spec_float) :
  valid_binary x = true -> valid_binary y = true ->
  x <> S754_nan -> y <> S754_nan ->
  SFltb (SFsub prec emax y x) (S754_zero false) = SFltb y x.
Proof.
  intros Hx Hy Nx Ny.
  destruct x as [sx|sx| |sx mx ex]; [| |congruence|];
    (destruct y as [sy|sy| |sy my ey]; [| |congruence|]);
    try (destruct sx; try destruct sy; reflexivity);
    try (destruct sy; try destruct sx; reflexivity).
  rewrite (SFltb_position _ _ Hy Hx Ny Nx).
  rewrite <- (aligned_difference_sign sy sx my mx ey ex Hy Hx).
  cbn [SFsub].
  destruct (finite_mantissa _ _ _ Hx) as (_ & Hex & _).
  destruct (finite_mantissa _ _ _ Hy) as (_ & Hey & _).
  rewrite binary_normalize_negative by lia.
  rewrite !shl_align_value by lia.
  rewrite (Z.min_comm ey ex).
  match goal with |- (?a - ?b <? 0) = (0 <? ?b - ?a) =>
    destruct (Z.ltb_spec (a - b) 0), (Z.ltb_spec 0 (b - a)); try reflexivity; lia
  end.
Qed.

(** The comparison the sort makes of a difference is the comparison of its
    two terms. *)
Lemma sub_negative (x y : float) :
  nan_free x -> nan_free y -> (y - x <? 0)%float = (y <? x)%float.
Proof.
  intros Hx Hy. rewrite !ltb_spec, sub_spec.
  change (Prim2SF 0) with (S754_zero false).
  apply SFsub_negative; auto using Prim2SF_valid, nan_free_spec.
Qed.

End FloatFacts.

(** ** Doubles: the floor of a scaled draw *)

Module RoundingFacts.
Import FloatOrder FloatFacts.
Local Open Scope Z_scope.

(** One shift to the right halves the mantissa and remembers the bit that
    falls off. *)
Lemma shr_1_half (mrs : shr_record) :
  0 <= shr_m mrs ->
  shr_m (shr_1 mrs) = shr_m mrs / 2 /\
  (shr_r (shr_1 mrs) = true -> shr_m mrs mod 2 = 1).
Proof.
  destruct mrs as [m r s]. cbn [shr_m]. intro Hm.
  destruct m as [|p|p]; [| |lia].
  - cbn. split; [reflexivity | discriminate].
  - destruct p as [p|p|]; cbn [shr_1 shr_m shr_r].
    + split; [|intros _].
      * rewrite Pos2Z.inj_xI. apply Z.div_unique with (r := 1); lia.
      * rewrite Pos2Z.inj_xI. symmetry. apply Z.mod_unique with (q := Z.pos p); lia.
    + split; [|discriminate].
      rewrite Pos2Z.inj_xO. apply Z.div_unique with (r := 0); lia.
    + split; [reflexivity | intros _; reflexivity].
Qed.

Lemma shifted_step (M k : Z) (mrs : shr_record) :
  0 <= M -> 0 <= k -> shifted M k mrs -> shifted M (k + 1) (shr_1 mrs).
Proof.
  intros HM Hk [Hm _].
  assert (Hq : 0 <= shr_m mrs) by (rewrite Hm; apply Z.div_pos; [lia | apply Z.pow_pos_nonneg; lia]).
  destruct (shr_1_half mrs Hq) as [H1 H2].
  assert (Hp : 0 < 2 ^ k) by (apply Z.pow_pos_nonneg; lia).
  assert (Hpow : 2 ^ (k + 1) = 2 ^ k * 2) by (rewrite Z.pow_add_r by lia; reflexivity).
  split.
  - rewrite H1, Hm, Hpow. rewrite Z.div_div by lia. reflexivity.
  - intros _ Hr. specialize (H2 Hr). rewrite Hm in H2.
    replace (k + 1 - 1) with k by lia. rewrite Hpow.
    rewrite Z.rem_mul_r by lia.
    pose proof (Z.mod_pos_bound M (2 ^ k) Hp). nia.
Qed.

Lemma shifted_iter (p : positive) :
  forall (M k : Z) (mrs : shr_record),
  0 <= M -> 0 <= k -> shifted M k mrs ->
  shifted M (k + Z.pos p) (iter_pos shr_1 p mrs).
Proof.
  induction p as [p IH|p IH|]; intros M k mrs HM Hk H; cbn [iter_pos].
  - replace (k + Z.pos p~1) with (((k + 1) + Z.pos p) + Z.pos p) by lia.
    apply IH; [lia | lia |]. apply IH; [lia | lia |]. now apply shifted_step.
  - replace (k + Z.pos p~0) with ((k + Z.pos p) + Z.pos p) by lia.
    apply IH; [lia | lia |]. now apply IH.
  - now apply shifted_step.
Qed.

Lemma shr_exact (M E n : Z) :
  0 <= M ->
  let res := shr {| shr_m := M; shr_r := false; shr_s := false |} E n in
  snd res = E + Z.max n 0 /\
  shr_m (fst res) = M / 2 ^ Z.max n 0 /\
  (shr_r (fst res) = true -> 0 < n /\ 2 ^ (n - 1) <= M mod 2 ^ n).
Proof.
  intro HM. destruct n as [|p|p]; cbn [shr fst snd shr_m shr_r].
  - rewrite Z.max_r by lia. rewrite Z.pow_0_r, Z.div_1_r.
    split; [lia|]. split; [reflexivity | discriminate].
  - rewrite Z.max_l by lia.
    assert (H0 : shifted M 0 {| shr_m := M; shr_r := false; shr_s := false |}).
    { split; [cbn; now rewrite Z.div_1_r | lia]. }
    destruct (shifted_iter p M 0 _ HM (Z.le_refl 0) H0) as [Hm Hr].
    cbn [Z.add] in Hm, Hr. split; [reflexivity|]. split; [exact Hm|].
    intro Hb. split; [lia | apply Hr; [lia | exact Hb]].
  - rewrite Z.max_r by lia. rewrite Z.pow_0_r, Z.div_1_r.
    split; [lia|]. split; [reflexivity | discriminate].
Qed.

Lemma round_nearest_even_step (mrs : shr_record) :
  let m1 := round_nearest_even (shr_m mrs) (loc_of_shr_record mrs) in
  m1 = shr_m mrs \/ (m1 = shr_m mrs + 1 /\ shr_r mrs = true).
Proof.
  destruct mrs as [q [|] [|]]; cbn [round_nearest_even loc_of_shr_record shr_m shr_r];
    try (left; reflexivity); try (right; split; reflexivity).
  destruct (Z.even q); [left | right; split]; reflexivity.
Qed.

Lemma digits_weight (m : Z) :
  0 < m -> 2 ^ (Zdigits2 m - 1) <= m /\ 0 < Zdigits2 m.
Proof.
  destruct m as [|p|p]; try lia. intros _. cbn [Zdigits2].
  destruct (digits_bounds p). split; [assumption | lia].
Qed.

Lemma pow_lt_exponent (a b : Z) : 0 <= b -> 2 ^ a < 2 ^ b -> a < b.
Proof.
  intros Hb H. destruct (Z.lt_ge_cases a b) as [L|G]; [exact L|].
  assert (2 ^ b <= 2 ^ a) by (apply Z.pow_le_mono_r; lia). lia.
Qed.

Lemma weight_shift (m e k : Z) :
  0 <= k -> -2200 <= e -> weight (m * 2 ^ k) e = weight m (e + k).
Proof.
  intros Hk He. unfold weight.
  replace (e + k + 2200) with (k + (e + 2200)) by lia.
  rewrite (Z.pow_add_r 2 k (e + 2200)) by lia. ring.
Qed.

Lemma weight_mono (m m' e : Z) : -2200 <= e -> m <= m' -> weight m e <= weight m' e.
Proof.
  intros He H. unfold weight. apply Z.mul_le_mono_nonneg_r; [|exact H].
  apply Z.pow_nonneg. lia.
Qed.

Lemma weight_digits (m e : Z) :
  0 < m -> -2200 <= e -> 2 ^ (Zdigits2 m - 1 + e + 2200) <= weight m e.
Proof.
  intros Hm He. destruct (digits_weight m Hm) as [Hd Hp]. unfold weight.
  replace (Zdigits2 m - 1 + e + 2200) with ((Zdigits2 m - 1) + (e + 2200)) by lia.
  rewrite (Z.pow_add_r 2 (Zdigits2 m - 1) (e + 2200)) by lia.
  apply Z.mul_le_mono_nonneg_r; [apply Z.pow_nonneg; lia | exact Hd].
Qed.

(** Below a bound of at most 2^52 the exponent chosen by the format is
    negative. *)
Lemma fexp_negative (m e K : Z) :
  0 <= m -> -2200 <= e < 0 -> 1 <= K <= 2 ^ 52 ->
  weight m e < K * 2 ^ 2200 ->
  fexp prec emax (Zdigits2 m + e) < 0.
Proof.
  intros Hm He HK Hw. unfold fexp, SpecFloat.emin, prec, emax.
  apply Z.max_lub_lt; [|lia].
  destruct (Z.eq_dec m 0) as [->|Hn]; [cbn; lia|].
  assert (Hp : 0 < m) by lia.
  pose proof (weight_digits m e Hp (proj1 He)) as Hd.
  assert (Hb : K * 2 ^ 2200 <= 2 ^ (52 + 2200)).
  { rewrite (Z.pow_add_r 2 52 2200) by lia.
    apply Z.mul_le_mono_nonneg_r; [apply Z.pow_nonneg|]; lia. }
  assert (Hlt : Zdigits2 m - 1 + e + 2200 < 52 + 2200) by (apply pow_lt_exponent; lia).
  lia.
Qed.

(** The first rounding step: the rounded mantissa at its exponent weighs
    less than the bound when the exact product is below the bound by the
    [2^-53]th part of it. *)
Lemma first_round_below (M : positive) (E K : Z) :
  -2200 <= E < 0 -> 1 <= K <= 2 ^ 52 ->
  weight (Z.pos M) E <= K * 2 ^ 2200 - K * 2 ^ (2200 - 53) ->
  let res := shr_fexp prec emax (Z.pos M) E loc_Exact in
  let m1 := round_nearest_even (shr_m (fst res)) (loc_of_shr_record (fst res)) in
  0 <= m1 /\ -2200 <= snd res < 0 /\ weight m1 (snd res) < K * 2 ^ 2200.
Proof.
  intros HE HK HP. unfold shr_fexp. cbn [shr_record_of_loc].
  set (n := fexp prec emax (Zdigits2 (Z.pos M) + E) - E).
  destruct (shr_exact (Z.pos M) E n (Pos2Z.is_nonneg M)) as (He1 & Hq & Hr).
  set (res := shr {| shr_m := Z.pos M; shr_r := false; shr_s := false |} E n) in *.
  cbv zeta.
  assert (Hlow : 0 < K * 2 ^ (2200 - 53)).
  { apply Z.mul_pos_pos; [lia | apply Z.pow_pos_nonneg; lia]. }
  assert (HPlt : weight (Z.pos M) E < K * 2 ^ 2200) by lia.
  assert (Hneg : fexp prec emax (Zdigits2 (Z.pos M) + E) < 0).
  { apply (fexp_negative (Z.pos M) E K); try lia. }
  assert (He1neg : -2200 <= snd res < 0).
  { rewrite He1. unfold n. lia. }
  assert (Hk : 0 <= Z.max n 0) by lia.
  assert (Hpk : 0 < 2 ^ Z.max n 0) by (apply Z.pow_pos_nonneg; lia).
  assert (Hq0 : 0 <= shr_m (fst res)).
  { rewrite Hq. apply Z.div_pos; lia. }
  assert (Hqw : weight (shr_m (fst res)) (snd res) <= weight (Z.pos M) E).
  { rewrite He1, <- (weight_shift _ E (Z.max n 0)) by lia.
    apply weight_mono; [lia|]. rewrite Hq, Z.mul_comm. apply Z.mul_div_le. exact Hpk. }
  destruct (round_nearest_even_step (fst res)) as [Hm1|[Hm1 Hbit]]; rewrite Hm1.
  - split; [exact Hq0|]. split; [exact He1neg | lia].
  - split; [lia|]. split; [exact He1neg|].
    destruct (Hr Hbit) as [Hn Hrem].
    rewrite Z.max_l in * by lia.
    assert (Hp1 : 0 < 2 ^ (n - 1)) by (apply Z.pow_pos_nonneg; lia).
    assert (Hpn : 2 ^ n = 2 * 2 ^ (n - 1)).
    { replace n with (1 + (n - 1)) at 1 by lia.
      rewrite (Z.pow_add_r 2 1 (n - 1)) by lia. reflexivity. }
    assert (Hup : (shr_m (fst res) + 1) * 2 ^ n <= Z.pos M + 2 ^ (n - 1)).
    { rewrite Hq. pose proof (Z.div_mod (Z.pos M) (2 ^ n) ltac:(lia)) as Hdm. nia. }
    assert (Hw1 : weight (shr_m (fst res) + 1) (snd res)
                  <= weight (Z.pos M) E + weight (2 ^ (n - 1)) E).
    { rewrite He1, <- (weight_shift _ E n) by lia.
      eapply Z.le_trans; [apply weight_mono; [lia | exact Hup]|].
      unfold weight. lia. }
    assert (Hhalf : weight (2 ^ (n - 1)) E < K * 2 ^ (2200 - 53)).
    { replace (weight (2 ^ (n - 1)) E) with (weight 1 (E + (n - 1)))
        by (rewrite <- weight_shift by lia; f_equal; lia).
      unfold weight. rewrite Z.mul_1_l.
      assert (Hn' : E + (n - 1) = fexp prec emax (Zdigits2 (Z.pos M) + E) - 1)
        by (unfold n; lia).
      rewrite Hn'. unfold fexp, SpecFloat.emin, prec, emax in *.
      cbn [Zdigits2] in *.
      destruct (Z.max_spec (Z.pos (digits2_pos M) + E - 53) (3 - 1024 - 53)) as [[_ Hmx]|[_ Hmx]];
        rewrite Hmx.
      + eapply Z.lt_le_trans with (m := 2 ^ (2200 - 53)).
        * apply Z.pow_lt_mono_r; lia.
        * rewrite <- (Z.mul_1_l (2 ^ (2200 - 53))) at 1.
          apply Z.mul_le_mono_nonneg_r; [apply Z.pow_nonneg|]; lia.
      + pose proof (weight_digits (Z.pos M) E ltac:(lia) ltac:(lia)) as Hd.
        cbn [Zdigits2] in Hd.
        assert (Hsplit : 2 ^ (Z.pos (digits2_pos M) - 1 + E + 2200)
                         = 2 ^ (Z.pos (digits2_pos M) + E - 53 - 1 + 2200) * 2 ^ 53).
        { rewrite <- Z.pow_add_r by lia. f_equal. lia. }
        assert (Hk53 : K * 2 ^ 2200 = K * 2 ^ (2200 - 53) * 2 ^ 53).
        { rewrite <- Z.mul_assoc, <- Z.pow_add_r by lia. reflexivity. }
        assert (H53 : 0 < 2 ^ 53) by (apply Z.pow_pos_nonneg; lia).
        nia. }
    lia.
Qed.

(** A product that is below an integer bound by the [2^-53]th part of the
    bound rounds to a double whose floor is below the bound. *)
Lemma round_below (M : positive) (E K : Z) :
  -2200 <= E < 0 -> 1 <= K <= 2 ^ 52 ->
  weight (Z.pos M) E <= K * 2 ^ 2200 - K * 2 ^ (2200 - 53) ->
  match binary_round_aux prec emax false (Z.pos M) E loc_Exact with
  | S754_zero false => True
  | S754_finite false m' e' => e' < 0 /\ 0 <= Z.pos m' / 2 ^ (- e') < K
  | _ => False
  end.
Proof.
  intros HE HK HP.
  pose proof (first_round_below M E K HE HK HP) as H1. cbv zeta in H1.
  unfold binary_round_aux.
  destruct (shr_fexp prec emax (Z.pos M) E loc_Exact) as [mrs1 e1].
  cbn [fst snd] in H1.
  set (m1 := round_nearest_even (shr_m mrs1) (loc_of_shr_record mrs1)) in *.
  destruct H1 as (Hm1 & He1 & Hw1).
  unfold shr_fexp. cbn [shr_record_of_loc].
  set (n2 := fexp prec emax (Zdigits2 m1 + e1) - e1).
  destruct (shr_exact m1 e1 n2 Hm1) as (He2 & Hm2 & _).
  destruct (shr {| shr_m := m1; shr_r := false; shr_s := false |} e1 n2) as [mrs2 e2].
  cbn [fst snd] in He2, Hm2.
  assert (Hneg : fexp prec emax (Zdigits2 m1 + e1) < 0)
    by (apply (fexp_negative m1 e1 K); lia).
  assert (He2neg : -2200 <= e2 < 0) by (rewrite He2; unfold n2; lia).
  assert (Hk : 0 <= Z.max n2 0) by lia.
  assert (Hpk : 0 < 2 ^ Z.max n2 0) by (apply Z.pow_pos_nonneg; lia).
  assert (Hw2 : weight (shr_m mrs2) e2 < K * 2 ^ 2200).
  { eapply Z.le_lt_trans; [|exact Hw1].
    rewrite He2, <- (weight_shift _ e1 (Z.max n2 0)) by lia.
    apply weight_mono; [lia|]. rewrite Hm2, Z.mul_comm. apply Z.mul_div_le. exact Hpk. }
  assert (Hm2pos : 0 <= shr_m mrs2) by (rewrite Hm2; apply Z.div_pos; lia).
  destruct (shr_m mrs2) as [|p|p] eqn:Ep; [exact I| |lia].
  assert (Hfin : (e2 <=? emax - prec) = true) by (apply Z.leb_le; unfold emax, prec; lia).
  rewrite Hfin. split; [lia|].
  assert (Hpe : 0 < 2 ^ (- e2)) by (apply Z.pow_pos_nonneg; lia).
  split; [apply Z.div_pos; lia|].
  apply Z.div_lt_upper_bound; [exact Hpe|].
  unfold weight in Hw2.
  assert (Hsplit : 2 ^ 2200 = 2 ^ (- e2) * 2 ^ (e2 + 2200)).
  { rewrite <- Z.pow_add_r by lia. f_equal. lia. }
  assert (Hpos : 0 < 2 ^ (e2 + 2200)) by (apply Z.pow_pos_nonneg; lia).
  rewrite Hsplit in Hw2. nia.
Qed.

(** A draw of [Math.random()]: zero, or a positive double below one. *)
Lemma draw_shape (r : float) :
  (0 <=? r)%float = true -> (r <? 1)%float = true ->
  match Prim2SF r with
  | S754_zero _ => True
  | S754_finite false m e => -1074 <= e <= -53 /\ Z.pos m < 2 ^ 53
  | _ => False
  end.
Proof.
  rewrite leb_spec, ltb_spec. pose proof (Prim2SF_valid r) as Hv.
  change (Prim2SF 0) with (S754_zero false).
  change (Prim2SF 1) with (S754_finite false 4503599627370496 (-52)).
  destruct (Prim2SF r) as [s|s| |s m e] eqn:Er; intros H0 H1; try exact I;
    try discriminate H0; try (destruct s; discriminate).
  destruct s; [discriminate H0|].
  destruct (finite_mantissa _ _ _ Hv) as (Hm & He & Hn).
  rewrite SFltb_position in H1 by (trivial; discriminate).
  apply Z.ltb_lt in H1. cbn [position] in H1. unfold magnitude in H1.
  assert (H53 : 2 ^ 53 = 9007199254740992) by reflexivity.
  assert (H52 : 2 ^ 52 = 4503599627370496) by reflexivity.
  rewrite H53, H52 in *.
  split; [|exact Hm].
  destruct (Z.le_gt_cases e (-53)) as [L|G]; [lia|].
  specialize (Hn ltac:(lia)). nia.
Qed.

Lemma floor_of_scaled_draw (r K : float) (Kz : Z) (mk : positive) (ek : Z) :
  Prim2SF K = S754_finite false mk ek ->
  -1074 <= ek <= 0 -> Z.pos mk = Kz * 2 ^ (- ek) -> 1 <= Kz <= 2 ^ 52 ->
  (0 <=? r)%float = true -> (r <? 1)%float = true ->
  Math_floor (r * K) = (-0)%float \/
  exists z, 0 <= z < Kz /\ Math_floor (r * K) = Z2float z.
Proof.
  intros HK Hek Hmk HKz H0 H1.
  pose proof (draw_shape r H0 H1) as Hr.
  pose proof (mul_spec r K) as Hm. rewrite HK in Hm.
  pose proof (SF2Prim_Prim2SF (r * K)) as Hback.
  unfold Math_floor.
  destruct (Prim2SF r) as [s|s| |s m e]; try contradiction.
  - cbn in Hm. rewrite Hm in *. rewrite <- Hback.
    destruct s; [left; reflexivity | right; exists 0; split; [lia | reflexivity]].
  - destruct s; [contradiction|]. destruct Hr as (He & Hmm).
    change (SF64mul (S754_finite false m e) (S754_finite false mk ek))
      with (binary_round_aux prec emax false (Z.pos (m * mk)) (e + ek) loc_Exact) in Hm.
    pose proof (round_below (m * mk) (e + ek) Kz) as Hrb.
    rewrite <- Hm in Hrb. right.
    assert (Hw : weight (Z.pos (m * mk)) (e + ek)
                 <= Kz * 2 ^ 2200 - Kz * 2 ^ (2200 - 53)).
    { unfold weight. rewrite Pos2Z.inj_mul, Hmk.
      assert (Hs : 2 ^ (- ek) * 2 ^ (e + ek + 2200) = 2 ^ (e + 2200)).
      { rewrite <- Z.pow_add_r by lia. f_equal. lia. }
      replace (Z.pos m * (Kz * 2 ^ (- ek)) * 2 ^ (e + ek + 2200))
        with (Kz * (Z.pos m * (2 ^ (- ek) * 2 ^ (e + ek + 2200)))) by ring.
      rewrite Hs.
      assert (Hp : 2 ^ (e + 2200) <= 2 ^ (2200 - 53)) by (apply Z.pow_le_mono_r; lia).
      assert (Hq : 0 < 2 ^ (e + 2200)) by (apply Z.pow_pos_nonneg; lia).
      assert (Ht : 2 ^ 2200 = 2 ^ 53 * 2 ^ (2200 - 53)).
      { rewrite <- Z.pow_add_r by lia. reflexivity. }
      assert (Hu : Z.pos m * 2 ^ (e + 2200) <= (2 ^ 53 - 1) * 2 ^ (2200 - 53)) by nia.
      rewrite Ht. nia. }
    specialize (Hrb ltac:(lia) HKz Hw).
    destruct (Prim2SF (r * K)) as [s'|s'| |s' m' e']; try contradiction.
    + destruct s'; [contradiction|]. exists 0. split; [lia|]. now rewrite <- Hback.
    + destruct s'; [contradiction|]. destruct Hrb as (He' & Hz).
      destruct (Z.leb_spec 0 e'); [lia|].
      exists (Z.pos m' / 2 ^ (- e')). split; [exact Hz | reflexivity].
Qed.

Lemma all_from_spec (test : Z -> bool) (n : nat) :
  forall z0, all_from test n z0 = true ->
  forall z, z0 <= z < z0 + Z.of_nat n -> test z = true.
Proof.
  induction n as [|k IH]; intros z0 H z Hz; [lia|].
  cbn [all_from] in H. apply andb_true_iff in H. destruct H as [Hz0 Hrest].
  destruct (Z.eq_dec z z0) as [->|Hne]; [exact Hz0|].
  apply (IH (z0 + 1) Hrest). lia.
Qed.

(** Adding 10000 to an integer below 100000, and subtracting 50 from an
    integer below 100, is exact: checked value by value. *)
Lemma volume_offsets :
  all_from (fun z => PrimFloat.Leibniz.eqb (Z2float z + 10000)%float (Z2float (z + 10000)))
           (Z.to_nat 100000) 0 = true.
Proof. vm_compute. reflexivity. Qed.

Lemma growth_offsets :
  all_from (fun z => PrimFloat.Leibniz.eqb (Z2float z - 50)%float (Z2float (z - 50)))
           (Z.to_nat 100) 0 = true.
Proof. vm_compute. reflexivity. Qed.

Lemma volume_of_draw (r : float) :
  (0 <=? r)%float = true -> (r <? 1)%float = true ->
  exists z, 10000 <= z <= 109999 /\
            (Math_floor (r * 100000) + 10000)%float = Z2float z.
Proof.
  intros H0 H1.
  destruct (floor_of_scaled_draw r 100000 100000 6871947673600000 (-36))
    as [Hz|(z & Hz & Hf)]; trivial; try reflexivity; try lia.
  - rewrite Hz. exists 10000. split; [lia | reflexivity].
  - exists (z + 10000). split; [lia|]. rewrite Hf.
    apply FloatAxioms.Leibniz.eqb_spec.
    apply (all_from_spec _ _ _ volume_offsets z). rewrite Z2Nat.id; lia.
Qed.

Lemma growth_of_draw (r : float) :
  (0 <=? r)%float = true -> (r <? 1)%float = true ->
  exists z, -50 <= z <= 49 /\ (Math_floor (r * 100) - 50)%float = Z2float z.
Proof.
  intros H0 H1.
  destruct (floor_of_scaled_draw r 100 100 7036874417766400 (-46))
    as [Hz|(z & Hz & Hf)]; trivial; try reflexivity; try lia.
  - rewrite Hz. exists (-50). split; [lia | reflexivity].
  - exists (z - 50). split; [lia|]. rewrite Hf.
    apply FloatAxioms.Leibniz.eqb_spec.
    apply (all_from_spec _ _ _ growth_offsets z). rewrite Z2Nat.id; lia.
Qed.

End RoundingFacts.


(** ** The stable sort *)

Section SortFacts.
Context {A : Type} (cmp : A -> A -> float).

Lemma insert_sorted_perm (x : A) (l : list A) :
  Permutation (insert_sorted cmp x l) (x :: l).
Proof.
  induction l as [|y r IH]; simpl.
  - apply Permutation_refl.
  - destruct (cmp y x <? 0)%float.
    + eapply perm_trans; [apply perm_skip, IH | apply perm_swap].
    + apply Permutation_refl.
Qed.

Lemma js_sort_perm (l : list A) : Permutation (js_sort cmp l) l.
Proof.
  induction l as [|x r IH]; simpl.
  - constructor.
  - eapply perm_trans; [apply insert_sorted_perm | apply perm_skip, IH].
Qed.

Lemma js_sort_length (l : list A) : List.length (js_sort cmp l) = List.length l.
Proof. apply Permutation_length, js_sort_perm. Qed.


(** With a comparator that is the difference of a key, and keys that are
    numbers, the result is sorted by that key, largest first. *)
Variable key : A -> float.
Hypothesis cmp_key : forall a b, cmp a b = (key b - key a)%float.

Lemma cmp_negative (y x : A) :
  FloatOrder.nan_free (key y) -> FloatOrder.nan_free (key x) ->
  (cmp y x <? 0)%float = (FloatOrder.rank (key x) <? FloatOrder.rank (key y))%Z.
Proof.
  intros Hy Hx. rewrite cmp_key, (FloatFacts.sub_negative (key y) (key x) Hy Hx).
  now apply FloatFacts.ltb_rank.
Qed.




End SortFacts.

(** ** The per-hour buckets *)

Module ScheduleFacts.
Import GrowthOptimizer ScheduleSpec.

Lemma hour_eqb_eq (a b : Hour) : hour_eqb a b = true <-> a = b.
Proof.
  destruct a as [x|], b as [y|]; simpl; split; intro H;
    try discriminate; try reflexivity.
  - apply Nat.eqb_eq in H. now subst.
  - inversion H. apply Nat.eqb_refl.
Qed.

Lemma hour_eqb_refl (a : Hour) : hour_eqb a a = true.
Proof. now apply hour_eqb_eq. Qed.

Lemma hour_eqb_neq (a b : Hour) : hour_eqb a b = false <-> a <> b.
Proof.
  split.
  - intros H E. apply hour_eqb_eq in E. congruence.
  - intro H. destruct (hour_eqb a b) eqn:E; [|reflexivity].
    apply hour_eqb_eq in E. contradiction.
Qed.

Lemma hour_eqb_sym (a b : Hour) : hour_eqb a b = hour_eqb b a.
Proof.
  destruct (hour_eqb a b) eqn:E.
  - apply hour_eqb_eq in E. subst. symmetry. apply hour_eqb_refl.
  - apply hour_eqb_neq in E. symmetry. apply hour_eqb_neq. congruence.
Qed.

Lemma lookup_In_keys (h : Hour) (m : ByHour) :
  lookup h m <> None <-> In h (map fst m).
Proof.
  induction m as [|[k b] r IH]; simpl.
  - split; [congruence | tauto].
  - destruct (hour_eqb h k) eqn:E.
    + apply hour_eqb_eq in E. subst. split; [auto | congruence].
    + apply hour_eqb_neq in E. rewrite IH. split; [auto | intros [H|H]; [congruence | exact H]].
Qed.

Lemma lookup_None_keys (h : Hour) (m : ByHour) :
  lookup h m = None <-> ~ In h (map fst m).
Proof.
  rewrite <- lookup_In_keys. destruct (lookup h m) as [b|]; split; intro H.
  - discriminate.
  - exfalso. apply H. discriminate.
  - intro N. now apply N.
  - reflexivity.
Qed.

Lemma lookup_create (h h' : Hour) (b : Bucket) (m : ByHour) :
  lookup h m = None ->
  lookup h' (create h b m) = if hour_eqb h' h then Some b else lookup h' m.
Proof.
  induction m as [|[k c] r IH]; simpl; intro Hn.
  - destruct (hour_eqb h' h); reflexivity.
  - destruct (hour_eqb h k) eqn:Ehk; [discriminate|].
    destruct (hour_before h k) eqn:Hb; simpl.
    + destruct (hour_eqb h' h) eqn:E1; reflexivity.
    + destruct (hour_eqb h' k) eqn:E2.
      * apply hour_eqb_eq in E2. subst k.
        rewrite hour_eqb_sym in Ehk. now rewrite Ehk.
      * apply IH, Hn.
Qed.

Lemma keys_create (h : Hour) (b : Bucket) (m : ByHour) :
  Permutation (map fst (create h b m)) (h :: map fst m).
Proof.
  induction m as [|[k c] r IH]; simpl.
  - apply Permutation_refl.
  - destruct (hour_before h k); simpl.
    + apply Permutation_refl.
    + eapply perm_trans; [apply perm_skip, IH | apply perm_swap].
Qed.

Lemma lookup_update (h h' : Hour) (f : Bucket -> Bucket) (m : ByHour) :
  lookup h' (update h f m) =
  if hour_eqb h' h then option_map f (lookup h' m) else lookup h' m.
Proof.
  induction m as [|[k c] r IH]; simpl.
  - destruct (hour_eqb h' h); reflexivity.
  - destruct (hour_eqb h k) eqn:E; simpl.
    + apply hour_eqb_eq in E. subst k.
      destruct (hour_eqb h' h); reflexivity.
    + destruct (hour_eqb h' k) eqn:E2.
      * apply hour_eqb_eq in E2. subst k.
        rewrite hour_eqb_sym, E. reflexivity.
      * exact IH.
Qed.

Lemma keys_update (h : Hour) (f : Bucket -> Bucket) (m : ByHour) :
  map fst (update h f m) = map fst m.
Proof.
  induction m as [|[k c] r IH]; simpl.
  - reflexivity.
  - destruct (hour_eqb h k); simpl; [reflexivity | now rewrite IH].
Qed.


Lemma lookup_In (h : Hour) (b : Bucket) (m : ByHour) :
  lookup h m = Some b -> In (h, b) m.
Proof.
  induction m as [|[k c] r IH]; simpl; [discriminate|].
  destruct (hour_eqb h k) eqn:E; intro H.
  - apply hour_eqb_eq in E. inversion H; subst. now left.
  - right. now apply IH.
Qed.

Lemma lookup_record_post (rt : runtime) (m : ByHour) (p : Post) (h : Hour) :
  lookup h (record_post rt m p) =
  if hour_eqb h (hour_of rt p) then Some (add_post p (bucket_or_empty (lookup h m)))
  else lookup h m.
Proof.
  unfold record_post, hour_of. set (hp := getHours rt (postTime p)).
  rewrite lookup_update.
  destruct (hour_eqb h hp) eqn:E.
  - apply hour_eqb_eq in E. subst h.
    destruct (lookup hp m) as [b|] eqn:L.
    + now rewrite L.
    + rewrite (lookup_create _ _ _ _ L), hour_eqb_refl. reflexivity.
  - destruct (lookup hp m) as [b|] eqn:L; [reflexivity|].
    rewrite (lookup_create _ _ _ _ L), E. reflexivity.
Qed.

Lemma keys_record_post (rt : runtime) (m : ByHour) (p : Post) :
  NoDup (map fst m) -> NoDup (map fst (record_post rt m p)).
Proof.
  intro Hnd. unfold record_post. rewrite keys_update.
  destruct (lookup (getHours rt (postTime p)) m) eqn:L; [exact Hnd|].
  eapply Permutation_NoDup; [apply Permutation_sym, keys_create|].
  constructor; [|exact Hnd]. now apply lookup_None_keys.
Qed.

Lemma keys_fold_NoDup (rt : runtime) (l : list Post) (m : ByHour) :
  NoDup (map fst m) -> NoDup (map fst (fold_left (record_post rt) l m)).
Proof.
  revert m. induction l as [|p l IH]; simpl; intros m Hnd; [exact Hnd|].
  apply IH, keys_record_post, Hnd.
Qed.

Lemma lookup_fold (rt : runtime) (l : list Post) (m : ByHour) (h : Hour) :
  lookup h (fold_left (record_post rt) l m) =
  fold_left (fun o p => Some (add_post p (bucket_or_empty o)))
            (posts_at rt h l) (lookup h m).
Proof.
  revert m. induction l as [|p l IH]; simpl; intro m; [reflexivity|].
  rewrite IH, lookup_record_post, (hour_eqb_sym (hour_of rt p) h).
  destruct (hour_eqb h (hour_of rt p)); reflexivity.
Qed.

Lemma fold_some (ps : list Post) (b : Bucket) :
  fold_left (fun o p => Some (add_post p (bucket_or_empty o))) ps (Some b) =
  Some (fold_left (fun c p => add_post p c) ps b).
Proof.
  revert b. induction ps as [|p ps IH]; simpl; intro b; [reflexivity|].
  apply IH.
Qed.

Lemma count_map {B : Type} (f : B -> float) (l : list B) (c : float) :
  fold_left (fun c _ => (c + 1)%float) (map f l) c
  = fold_left (fun c _ => (c + 1)%float) l c.
Proof.
  revert c. induction l as [|x r IH]; simpl; intro c; [reflexivity | apply IH].
Qed.

Lemma fold_add_post (ps : list Post) (b : Bucket) :
  let r := fold_left (fun c p => add_post p c) ps b in
  total_views r = fold_left PrimFloat.add (map views ps) (total_views b) /\
  total_engagement r = fold_left PrimFloat.add (map engagement ps) (total_engagement b) /\
  count r = fold_left (fun c _ => (c + 1)%float) ps (count b).
Proof.
  revert b. induction ps as [|p ps IH]; simpl; intro b.
  - repeat split.
  - destruct (IH (add_post p b)) as (Hv & He & Hc). simpl in *.
    rewrite Hv, He, Hc. repeat split.
Qed.

Lemma posts_at_nonempty (rt : runtime) (l : list Post) (h : Hour) :
  posts_at rt h l <> [] <-> In h (map (hour_of rt) l).
Proof.
  unfold posts_at. induction l as [|p l IH]; simpl.
  - split; [congruence | tauto].
  - destruct (hour_eqb (hour_of rt p) h) eqn:E.
    + apply hour_eqb_eq in E. split; [auto | discriminate].
    + apply hour_eqb_neq in E. rewrite IH. tauto.
Qed.

Lemma bucket_of_hour (rt : runtime) (l : list Post) (h : Hour) :
  posts_at rt h l <> [] ->
  exists b, lookup h (performanceByHour rt l) = Some b /\
    total_views b = running_sum (map views (posts_at rt h l)) /\
    total_engagement b = running_sum (map engagement (posts_at rt h l)) /\
    count b = running_count (map views (posts_at rt h l)) /\
    count b = running_count (map engagement (posts_at rt h l)).
Proof.
  intro Hne. unfold performanceByHour. rewrite lookup_fold. simpl.
  destruct (posts_at rt h l) as [|p ps]; [congruence|]. simpl.
  rewrite fold_some. eexists. split; [reflexivity|].
  destruct (fold_add_post ps (add_post p empty_bucket)) as (Hv & He & Hc).
  simpl in *. rewrite Hv, He, Hc. unfold running_sum, running_count. simpl.
  rewrite !count_map. repeat split.
Qed.

Lemma bucket_absent (rt : runtime) (l : list Post) (h : Hour) :
  posts_at rt h l = [] -> lookup h (performanceByHour rt l) = None.
Proof.
  intro He. unfold performanceByHour. rewrite lookup_fold, He. reflexivity.
Qed.

Lemma keys_performance (rt : runtime) (l : list Post) (h : Hour) :
  In h (map fst (performanceByHour rt l)) <-> In h (map (hour_of rt) l).
Proof.
  rewrite <- lookup_In_keys, <- posts_at_nonempty. split; intros H E.
  - apply H. now apply bucket_absent.
  - destruct (bucket_of_hour rt l h H) as (b & Hb & _). congruence.
Qed.

Lemma keys_NoDup (rt : runtime) (l : list Post) :
  NoDup (map fst (performanceByHour rt l)).
Proof. apply keys_fold_NoDup. constructor. Qed.

Lemma keys_distinct (rt : runtime) (l : list Post) :
  Permutation (map fst (performanceByHour rt l)) (distinct_hours rt l).
Proof.
  apply NoDup_Permutation.
  - apply keys_NoDup.
  - apply NoDup_nodup.
  - intro h. unfold distinct_hours. rewrite nodup_In. apply keys_performance.
Qed.

Lemma hour_hourStat (m : ByHour) : map hour (map hourStat m) = map fst m.
Proof.
  induction m as [|[k b] r IH]; simpl; [reflexivity | now rewrite IH].
Qed.

Lemma ranked_hours_distinct (rt : runtime) (l : list Post) :
  Permutation (map hour (rankedHours rt l)) (distinct_hours rt l).
Proof.
  unfold rankedHours.
  eapply perm_trans; [apply Permutation_map, js_sort_perm|].
  rewrite hour_hourStat. apply keys_distinct.
Qed.

Lemma ranked_numbers (rt : runtime) (l : list Post) :
  means_are_numbers (rankedHours rt l) ->
  means_are_numbers (map hourStat (performanceByHour rt l)).
Proof.
  unfold means_are_numbers, rankedHours.
  apply Permutation_Forall, js_sort_perm.
Qed.



Lemma topHours_length (rt : runtime) (l : list Post) :
  List.length (topHours rt l) = Nat.min (List.length (distinct_hours rt l)) 3.
Proof.
  unfold topHours. rewrite length_firstn.
  rewrite <- (Permutation_length (ranked_hours_distinct rt l)), length_map.
  apply Nat.min_comm.
Qed.

End ScheduleFacts.

Module ScheduleTheorems.
Import GrowthOptimizer ScheduleSpec ScheduleFacts.

Lemma schedule_with_history (rt : runtime) (args : OptimizeScheduleArgs)
    (traceId : string) (history : list Post) :
  os_historicalPerformance args = Some history -> history <> [] ->
  exists doc events,
    optimizePostingSchedule args traceId rt = (inr doc, events) /\
    posting_times doc = map (fun s => JStr (formatTime s)) (topHours rt history) /\
    forallb (fun ev => negb (external ev)) events = true.
Proof.
  intros Hh Hne. unfold optimizePostingSchedule. rewrite Hh.
  destruct history as [|p ps]; [congruence|].
  unfold bind, logWithTrace, emit, ask, ret. simpl.
  eexists. eexists. split; [reflexivity|]. split; [|reflexivity].
  unfold posting_times. simpl. rewrite !map_map. reflexivity.
Qed.







(** C10: with a non-empty [historicalPerformance] whose samples fall into [k]
    distinct hours of day, [optimalPostingTimes] has exactly [min k 3]
    entries, all of them computed from the history (the baseline times of
    the platform are not used, so two platforms get the same times); a
    single sample yields exactly one posting time. *)
Theorem posting_schedule_entry_count (rt : runtime) (args : OptimizeScheduleArgs)
    (traceId : string) (history : list Post) :
  os_historicalPerformance args = Some history ->
  history <> [] ->
  exists doc events,
    optimizePostingSchedule args traceId rt = (inr doc, events) /\
    List.length (posting_times doc) = Nat.min (List.length (distinct_hours rt history)) 3 /\
    posting_times doc = map (fun s => JStr (formatTime s)) (topHours rt history) /\
    (forall args' traceId' doc' events',
       os_historicalPerformance args' = Some history ->
       optimizePostingSchedule args' traceId' rt = (inr doc', events') ->
       posting_times doc' = posting_times doc) /\
    (forall p, history = [p] -> List.length (posting_times doc) = 1).
Proof.
  intros Hh Hne.
  destruct (schedule_with_history rt args traceId history Hh Hne)
    as (doc & events & Hrun & Htimes & _).
  exists doc, events. split; [exact Hrun|].
  assert (Hlen : List.length (posting_times doc)
                 = Nat.min (List.length (distinct_hours rt history)) 3).
  { rewrite Htimes, length_map. apply topHours_length. }
  split; [exact Hlen|]. split; [exact Htimes|]. split.
  - intros args' traceId' doc' events' Hh' Hrun'.
    destruct (schedule_with_history rt args' traceId' history Hh' Hne)
      as (d & e & Hr & Ht & _).
    rewrite Hr in Hrun'. inversion Hrun'; subst. now rewrite Ht, Htimes.
  - intros p Hp. rewrite Hlen. subst history. reflexivity.
Qed.

Lemma posting_schedule_entry_count_witness :
  os_historicalPerformance sample_schedule_args = Some example_history /\
  example_history <> [] /\
  exists doc events,
    optimizePostingSchedule sample_schedule_args "t-1" sample_runtime = (inr doc, events) /\
    List.length (posting_times doc) = 2.
Proof.
  split; [reflexivity|]. split; [discriminate|].
  destruct (posting_schedule_entry_count sample_runtime sample_schedule_args
              "t-1" example_history eq_refl ltac:(discriminate))
    as (doc & events & Hrun & Hlen & _).
  exists doc, events. split; [exact Hrun|].
  rewrite Hlen. reflexivity.
Defined.

End ScheduleTheorems.

(** ** First-seen deduplication *)

Section DedupFacts.

Lemma includes_In (x : string) (l : list string) : includes x l = true <-> In x l.
Proof.
  unfold includes. rewrite existsb_exists. split.
  - intros (y & Hy & E). apply String.eqb_eq in E. now subst.
  - intro H. exists x. split; [exact H | apply String.eqb_refl].
Qed.

Lemma includes_false (x : string) (l : list string) : includes x l = false <-> ~ In x l.
Proof.
  rewrite <- includes_In. destruct (includes x l); split; congruence.
Qed.

Lemma dedup_from_In (seen l : list string) (x : string) :
  In x (dedup_from seen l) <-> In x l /\ ~ In x seen.
Proof.
  revert seen. induction l as [|y r IH]; simpl; intro seen.
  - tauto.
  - destruct (includes y seen) eqn:E.
    + apply includes_In in E. rewrite IH. split.
      * intros [H1 H2]. auto.
      * intros [[H|H] H2]; [subst; contradiction | auto].
    + apply includes_false in E. simpl. rewrite IH. simpl. split.
      * intros [H|[H1 H2]]; [subst; auto | split; [auto | tauto]].
      * intros [[H|H] H2]; [auto|].
        destruct (string_dec y x); [auto | right; split; [exact H|]].
        intros [F|F]; contradiction.
Qed.

Lemma dedup_from_NoDup (seen l : list string) : NoDup (dedup_from seen l).
Proof.
  revert seen. induction l as [|y r IH]; simpl; intro seen.
  - constructor.
  - destruct (includes y seen); [apply IH|].
    constructor; [|apply IH].
    rewrite dedup_from_In. simpl. tauto.
Qed.

Lemma dedup_In (l : list string) (x : string) : In x (dedup l) <-> In x l.
Proof. unfold dedup. rewrite dedup_from_In. simpl. tauto. Qed.

Lemma dedup_NoDup (l : list string) : NoDup (dedup l).
Proof. apply dedup_from_NoDup. Qed.

(** First-seen order: what comes before [x] in the result is the
    deduplication of what comes before the first [x] in the input. *)
Lemma dedup_from_first_seen (seen l1 l2 : list string) (x : string) :
  ~ In x l1 -> ~ In x seen ->
  exists rest, dedup_from seen (l1 ++ x :: l2) = (dedup_from seen l1 ++ x :: rest)%list.
Proof.
  revert seen. induction l1 as [|y r IH]; simpl; intros seen Hx Hs.
  - apply includes_false in Hs. rewrite Hs. eexists. reflexivity.
  - destruct (includes y seen).
    + apply IH; tauto.
    + destruct (IH (y :: seen)) as (rest & E).
      * tauto.
      * simpl. intros [F|F]; [apply Hx; auto | contradiction].
      * exists rest. simpl. now rewrite E.
Qed.

Lemma dedup_first_seen (l1 l2 : list string) (x : string) :
  ~ In x l1 ->
  exists rest, dedup (l1 ++ x :: l2) = (dedup l1 ++ x :: rest)%list.
Proof. intro H. apply dedup_from_first_seen; [exact H | simpl; tauto]. Qed.

End DedupFacts.

(** ** The trend scraper, source by source *)

Module TrendFacts.
Import IdeaGenerator TrendSpec.

Lemma bindL_ok {S A B : Type} (m : Loc S A) (k : A -> Loc S B) s rt a s' t :
  m s rt = (inr a, s', t) ->
  bindL m k s rt = (let '(r, s'', t') := k a s' rt in (r, s'', (t ++ t')%list)).
Proof. intro H. unfold bindL. now rewrite H. Qed.

Lemma forEach_pushTitle (items : list jsval) (s : list string) (rt : runtime) :
  forEachL pushTitle items s rt =
  match reddit_titles rt items with
  | Succeeded ts => (inr tt, (s ++ ts)%list, [])
  | Failed ts e => (inl e, (s ++ ts)%list, [])
  end.
Proof.
  revert s. induction items as [|post rest IH]; intro s; simpl.
  - now rewrite app_nil_r.
  - unfold bindL at 1. unfold pushTitle at 1.
    unfold bindL, liftL, lift, ask, whenL, push, modify, retL.
    destruct (member post "data") as [e|data]; [now rewrite app_nil_r|].
    destruct (member data "title") as [e|title]; [simpl; now rewrite app_nil_r|].
    destruct (truthy title).
    + destruct (call_toLowerCase rt title) as [e|lowered]; [simpl; now rewrite app_nil_r|].
      simpl. rewrite IH.
      destruct (reddit_titles rt rest) as [ts|ts e]; simpl;
        now rewrite <- app_assoc.
    + simpl. rewrite IH. destruct (reddit_titles rt rest); reflexivity.
Qed.

Lemma youtube_block (niche traceId : string) (s : list string) (rt : runtime) :
  youtubeTrends niche traceId s rt =
  (inr tt, (s ++ pushed_by (youtube_outcome rt niche))%list,
   source_events rt niche traceId "youtube").
Proof.
  unfold youtubeTrends, try_catchL, bindL, liftL, axiosGet, bind, emit, ask, lift,
    logWithTrace, push, modify, source_events, youtube_outcome, youtube_url, failure_log.
  simpl.
  destruct (axios_get rt "https://www.youtube.com/feed/trending") as [e|r]; simpl.
  - now rewrite app_nil_r.
  - reflexivity.
Qed.

Lemma reddit_block (niche traceId : string) (s : list string) (rt : runtime) :
  redditTrends niche traceId s rt =
  (inr tt, (s ++ pushed_by (reddit_outcome rt niche))%list,
   source_events rt niche traceId "reddit").
Proof.
  unfold redditTrends, try_catchL, source_events, reddit_outcome, reddit_url, failure_log.
  remember ("https://www.reddit.com/r/" ++ niche ++ "/hot.json") as url eqn:Hu. clear Hu.
  simpl String.eqb. cbv iota.
  unfold bindL at 1. unfold liftL at 1. unfold axiosGet, bind, emit, ask, lift.
  destruct (axios_get rt url) as [e|response]; simpl.
  - now rewrite app_nil_r.
  - unfold reddit_posts, bindL, liftL, lift, logWithTrace, emit.
    destruct (array_items _ _) as [e|items]; simpl.
    + now rewrite app_nil_r.
    + rewrite forEach_pushTitle.
      destruct (reddit_titles rt items) as [ts|ts e]; reflexivity.
Qed.

Lemma when_block (c : bool) (m : Loc (list string) unit) (s add : list string)
    (rt : runtime) (t : list event) :
  (forall s', m s' rt = (inr tt, (s' ++ add)%list, t)) ->
  whenL c m s rt = (inr tt, (s ++ if c then add else [])%list, if c then t else []).
Proof.
  intro H. unfold whenL. destruct c; [apply H | now rewrite app_nil_r].
Qed.

Lemma scrape_run (rt : runtime) (niche : string) (platforms : list string)
    (traceId : string) :
  scrapeTrendingTopics niche platforms traceId rt =
  (inr (dedup (all_pushed rt niche platforms)),
   flat_map (source_events rt niche traceId) (requested platforms)).
Proof.
  unfold scrapeTrendingTopics, with_local.
  unfold bindL.
  rewrite (when_block _ _ _ _ _ _ (fun s => youtube_block niche traceId s rt)).
  rewrite (when_block _ (twitterTrends niche) _
             ["#" ++ niche; niche ++ " tips"; niche ++ " secrets"] rt []
             (fun s => eq_refl)).
  rewrite (when_block _ _ _ _ _ _ (fun s => reddit_block niche traceId s rt)).
  rewrite (when_block _ (googleTrends niche) _
             ["how to " ++ niche; niche ++ " for beginners"; niche ++ " vs";
              niche ++ " mistakes"] rt [] (fun s => eq_refl)).
  unfold readL, retL, all_pushed, requested, sources. cbn [filter].
  destruct (includes "youtube" platforms), (includes "twitter" platforms),
    (includes "reddit" platforms), (includes "google-trends" platforms);
    cbn [filter flat_map]; cbn [source_events source_outcome String.eqb Ascii.eqb Bool.eqb];
    cbn [pushed_by app]; rewrite ?app_nil_r, <- ?app_assoc; reflexivity.
Qed.

Lemma requested_sources (platforms : list string) (s : string) :
  In s (requested platforms) ->
  s = "youtube" \/ s = "twitter" \/ s = "reddit" \/ s = "google-trends".
Proof.
  unfold requested. rewrite filter_In. simpl. intros [H _].
  intuition (subst; auto).
Qed.

Lemma failure_is_logged (rt : runtime) (niche traceId s : string)
    (ts : list string) (e : exn) :
  source_outcome rt niche s = Failed ts e ->
  In (failure_log traceId s e) (source_events rt niche traceId s).
Proof.
  unfold source_outcome, source_events.
  destruct (String.eqb s "youtube") eqn:Ey.
  - intro H. rewrite H. simpl. auto.
  - destruct (String.eqb s "twitter"); [discriminate|].
    destruct (String.eqb s "reddit").
    + intro H. rewrite H. simpl. auto.
    + destruct (String.eqb s "google-trends"); discriminate.
Qed.

Lemma flat_map_agree {A B : Type} (f g : A -> list B) (l : list A) :
  (forall a, In a l -> f a = g a) -> flat_map f l = flat_map g l.
Proof.
  induction l as [|a l IH]; simpl; intro H; [reflexivity|].
  rewrite (H a (or_introl eq_refl)), IH; [reflexivity|].
  intros b Hb. apply H. now right.
Qed.

Lemma clean_pushed_obtained (rt : runtime) (niche : string) (platforms : list string) :
  clean_failures rt niche platforms ->
  all_pushed rt niche platforms = all_obtained rt niche platforms.
Proof.
  intro Hc. apply flat_map_agree. intros s Hs.
  destruct (source_outcome rt niche s) as [ts|ts e] eqn:E; [reflexivity|].
  simpl. apply (Hc s ts e Hs E).
Qed.

End TrendFacts.

Module TrendTheorems.
Import IdeaGenerator TrendSpec TrendFacts.

(** C7, as stated, fails: with Reddit the only requested source and a Reddit
    answer whose second post is malformed, the Reddit block fails (and logs
    it) after the first title was pushed, and that title is returned although
    no source succeeded. *)
Lemma scraper_keeps_topics_of_failed_source :
  ~ (forall rt niche platforms traceId,
       fst (scrapeTrendingTopics niche platforms traceId rt)
       = inr (dedup (all_obtained rt niche platforms))).
Proof.
  intro H. specialize (H half_broken_runtime "cooking" ["reddit"] "t-1").
  rewrite scrape_run in H. vm_compute in H. discriminate.
Qed.

(** C7, amended: the scraper never raises; a requested source that fails
    leaves a warning in the log and the sources after it are still visited;
    the returned list is the first-seen-order deduplication of every topic
    pushed by the requested sources, hence contains every topic of every
    source that succeeded, and it is exactly the deduplicated union of the
    succeeding sources' topics whenever no source failed after it had
    already pushed topics. *)
Theorem scraper_resilient (rt : runtime) (niche : string) (platforms : list string)
    (traceId : string) :
  exists trends events,
    scrapeTrendingTopics niche platforms traceId rt = (inr trends, events) /\
    (forall s ts e, In s (requested platforms) ->
       source_outcome rt niche s = Failed ts e ->
       In (failure_log traceId s e) events) /\
    (forall s, In s (requested platforms) ->
       incl (source_events rt niche traceId s) events /\
       incl (pushed_by (source_outcome rt niche s)) trends) /\
    trends = dedup (all_pushed rt niche platforms) /\
    NoDup trends /\
    (forall before x after,
       all_pushed rt niche platforms = (before ++ x :: after)%list ->
       ~ In x before ->
       exists rest, trends = (dedup before ++ x :: rest)%list) /\
    (clean_failures rt niche platforms ->
       trends = dedup (all_obtained rt niche platforms)).
Proof.
  exists (dedup (all_pushed rt niche platforms)),
         (flat_map (source_events rt niche traceId) (requested platforms)).
  split; [apply scrape_run|].
  split.
  { intros s ts e Hs Ho. apply in_flat_map. exists s. split; [exact Hs|].
    now apply failure_is_logged with (ts := ts). }
  split.
  { intros s Hs. split.
    - intros ev Hev. apply in_flat_map. now exists s.
    - intros t Ht. apply dedup_In. unfold all_pushed. apply in_flat_map. now exists s. }
  split; [reflexivity|].
  split; [apply dedup_NoDup|].
  split.
  { intros before x after E Hx. rewrite E. now apply dedup_first_seen. }
  intro Hc. now rewrite (clean_pushed_obtained _ _ _ Hc).
Qed.

End TrendTheorems.

(** ** Validation and credentials come first *)

Module ContractTheorems.

(** Unfolding of the effect layer, down to the runtime's answers. *)
Ltac expose :=
  cbv [bind ret throw emit ask lift getenv logWithTrace geminiGenerate jsonParse
       try_catch axiosPost axiosGet writeFileSync createTraceId parse].

Ltac enter_call :=
  cbv [IdeaGenerator.callTool ScriptToVideo.callTool GrowthOptimizer.callTool];
  expose; simpl (String.eqb _ _); cbv iota.

(** A call whose arguments the schema rejects. *)
Ltac refuse_invalid :=
  let rt := fresh "rt" in
  let arguments := fresh "arguments" in
  let violations := fresh "violations" in
  let H := fresh "H" in
  intros rt arguments violations H; unfold refused; enter_call; rewrite H;
  split; reflexivity.

(** A call whose handler finds its credential missing. *)
Ltac refuse_keyless handler :=
  let rt := fresh "rt" in
  let arguments := fresh "arguments" in
  let args := fresh "args" in
  let He := fresh "He" in
  let Hs := fresh "Hs" in
  let Hp := fresh "Hp" in
  intros rt arguments args He Hs Hp;
  eexists; split;
  [| unfold refused; enter_call; rewrite Hs; cbv beta iota;
     unfold handler; expose;
     try (rewrite Hp; simpl (String.eqb _ _); cbv beta iota);
     rewrite He; split; reflexivity ];
  reflexivity.

(** Case analysis on what each field validator of a schema answers. *)
Ltac check_fields :=
  cbv [args_object ap pure field];
  repeat match goal with
         | |- context [match ?p (prop ?o ?k) with Some _ => _ | None => _ end] =>
             destruct (p (prop o k)) eqn:?
         end;
  cbn [fst snd app].

Lemma count_out_of_range (x : float) :
  (x <? 10)%float = true \/ (50 <? x)%float = true ->
  refine (refine (refine z_number z_int) (z_min 10%float)) (z_max 50%float) (JNum x) = None.
Proof.
  intro Hx. unfold refine, opt_bind, z_number, z_int, z_min, z_max.
  destruct (PrimFloat.is_nan x); [reflexivity|].
  destruct (Number_isInteger x); [|reflexivity].
  destruct (x <? 10)%float eqn:E1; [reflexivity|].
  destruct (50 <? x)%float eqn:E2; [reflexivity|].
  destruct Hx; discriminate.
Qed.

Lemma ideas_schema_count (o : list (string * jsval)) (x : float) :
  prop o "count" = JNum x -> (x <? 10)%float = true \/ (50 <? x)%float = true ->
  exists e, IdeaGenerator.GenerateIdeasArgsSchema (JObj o) = inl e.
Proof.
  intros Hc Hx. unfold IdeaGenerator.GenerateIdeasArgsSchema.
  cbv [args_object ap pure field]. rewrite Hc, (count_out_of_range x Hx).
  check_fields; eexists; reflexivity.
Qed.

Lemma ideas_schema_platform (o : list (string * jsval)) :
  z_enum ["youtube"; "tiktok"; "instagram-reels"; "youtube-shorts"; "all"]
         (prop o "platform") = None ->
  exists e, IdeaGenerator.GenerateIdeasArgsSchema (JObj o) = inl e.
Proof.
  intro Hp. unfold IdeaGenerator.GenerateIdeasArgsSchema.
  cbv [args_object ap pure field]. rewrite Hp.
  check_fields; eexists; reflexivity.
Qed.

Lemma ideas_schema_required (o : list (string * jsval)) :
  prop o "niche" = JUndefined \/ prop o "platform" = JUndefined
    \/ prop o "count" = JUndefined ->
  exists e, IdeaGenerator.GenerateIdeasArgsSchema (JObj o) = inl e.
Proof.
  intro H. unfold IdeaGenerator.GenerateIdeasArgsSchema.
  cbv [args_object ap pure field].
  destruct H as [H|[H|H]]; rewrite H;
    match goal with
    | |- context [match ?p JUndefined with Some _ => _ | None => _ end] =>
        let v := eval vm_compute in (p JUndefined) in
        change (p JUndefined) with v
    end;
    check_fields; eexists; reflexivity.
Qed.

Lemma ideas_call_validates :
  validates_first "GenerateIdeasArgsSchema" IdeaGenerator.GenerateIdeasArgsSchema
    (IdeaGenerator.callTool "generate_viral_ideas").
Proof. refuse_invalid. Qed.

(** C5: a call whose arguments violate the tool's argument schema is
    answered by an error envelope, and no event of the call reaches outside
    the process: no provider, trend source or TTS request and no file write.
    This holds for the twelve tools of the three adapters; for
    [generate_viral_ideas] a [count] outside [10, 50], a [platform] outside
    the declared enum and a missing required field are such violations. *)
Theorem invalid_arguments_are_refused :
  validates_first "GenerateIdeasArgsSchema" IdeaGenerator.GenerateIdeasArgsSchema
    (IdeaGenerator.callTool "generate_viral_ideas") /\
  validates_first "AnalyzeTrendsArgsSchema" IdeaGenerator.AnalyzeTrendsArgsSchema
    (IdeaGenerator.callTool "analyze_trending_topics") /\
  validates_first "PredictViralityArgsSchema" IdeaGenerator.PredictViralityArgsSchema
    (IdeaGenerator.callTool "predict_virality") /\
  validates_first "GenerateScriptArgsSchema" ScriptToVideo.GenerateScriptArgsSchema
    (ScriptToVideo.callTool "generate_video_script") /\
  validates_first "GenerateStoryboardArgsSchema" ScriptToVideo.GenerateStoryboardArgsSchema
    (ScriptToVideo.callTool "generate_storyboard") /\
  validates_first "GenerateVoiceoverArgsSchema" ScriptToVideo.GenerateVoiceoverArgsSchema
    (ScriptToVideo.callTool "generate_voiceover") /\
  validates_first "ExportProjectArgsSchema" ScriptToVideo.ExportProjectArgsSchema
    (ScriptToVideo.callTool "export_editing_project") /\
  validates_first "OptimizeSEOArgsSchema" GrowthOptimizer.OptimizeSEOArgsSchema
    (GrowthOptimizer.callTool "optimize_seo") /\
  validates_first "GenerateThumbnailArgsSchema" GrowthOptimizer.GenerateThumbnailArgsSchema
    (GrowthOptimizer.callTool "generate_thumbnail_concepts") /\
  validates_first "OptimizeScheduleArgsSchema" GrowthOptimizer.OptimizeScheduleArgsSchema
    (GrowthOptimizer.callTool "optimize_posting_schedule") /\
  validates_first "RepurposeContentArgsSchema" GrowthOptimizer.RepurposeContentArgsSchema
    (GrowthOptimizer.callTool "repurpose_content") /\
  validates_first "RunABTestArgsSchema" GrowthOptimizer.RunABTestArgsSchema
    (GrowthOptimizer.callTool "run_ab_test") /\
  (forall rt o,
     (exists x, prop o "count" = JNum x /\
                ((x <? 10)%float = true \/ (50 <? x)%float = true)) \/
     z_enum ["youtube"; "tiktok"; "instagram-reels"; "youtube-shorts"; "all"]
            (prop o "platform") = None \/
     prop o "niche" = JUndefined \/ prop o "platform" = JUndefined \/
     prop o "count" = JUndefined ->
     exists message,
       refused rt message (IdeaGenerator.callTool "generate_viral_ideas" (JObj o) rt)).
Proof.
  repeat (split; [refuse_invalid|]).
  intros rt o H.
  assert (He : exists e, IdeaGenerator.GenerateIdeasArgsSchema (JObj o) = inl e).
  { destruct H as [(x & Hc & Hx)|[H|H]].
    - now apply ideas_schema_count with (x := x).
    - now apply ideas_schema_platform.
    - now apply ideas_schema_required. }
  destruct He as (violations & He).
  exists (zod_message rt "GenerateIdeasArgsSchema" violations).
  now apply ideas_call_validates.
Qed.

Lemma invalid_arguments_are_refused_witness :
  refused keyless_runtime
    (zod_message keyless_runtime "GenerateIdeasArgsSchema" [("count", JInt 9)])
    (IdeaGenerator.callTool "generate_viral_ideas"
       (JObj [("niche", JStr "cooking"); ("platform", JStr "tiktok");
              ("count", JInt 9)])
       keyless_runtime).
Proof.
  apply (proj1 invalid_arguments_are_refused keyless_runtime _ [("count", JInt 9)]).
  reflexivity.
Defined.

(** C6: a call whose handler needs a credential that the environment does
    not have is answered by an error envelope whose message starts with the
    name of the credential followed by [not found], and no event of the call
    reaches outside the process.  The eight generative handlers need
    [GEMINI_API_KEY]; [generate_voiceover] needs [ELEVENLABS_API_KEY] or
    [HUGGINGFACE_API_KEY], according to the provider selected. *)
Theorem missing_credential_fails_closed :
  needs_credential "GEMINI_API_KEY" IdeaGenerator.GenerateIdeasArgsSchema
    (fun _ => True) (IdeaGenerator.callTool "generate_viral_ideas") /\
  needs_credential "GEMINI_API_KEY" IdeaGenerator.PredictViralityArgsSchema
    (fun _ => True) (IdeaGenerator.callTool "predict_virality") /\
  needs_credential "GEMINI_API_KEY" ScriptToVideo.GenerateScriptArgsSchema
    (fun _ => True) (ScriptToVideo.callTool "generate_video_script") /\
  needs_credential "GEMINI_API_KEY" ScriptToVideo.GenerateStoryboardArgsSchema
    (fun _ => True) (ScriptToVideo.callTool "generate_storyboard") /\
  needs_credential "GEMINI_API_KEY" GrowthOptimizer.OptimizeSEOArgsSchema
    (fun _ => True) (GrowthOptimizer.callTool "optimize_seo") /\
  needs_credential "GEMINI_API_KEY" GrowthOptimizer.GenerateThumbnailArgsSchema
    (fun _ => True) (GrowthOptimizer.callTool "generate_thumbnail_concepts") /\
  needs_credential "GEMINI_API_KEY" GrowthOptimizer.RepurposeContentArgsSchema
    (fun _ => True) (GrowthOptimizer.callTool "repurpose_content") /\
  needs_credential "GEMINI_API_KEY" GrowthOptimizer.RunABTestArgsSchema
    (fun _ => True) (GrowthOptimizer.callTool "run_ab_test") /\
  needs_credential "ELEVENLABS_API_KEY" ScriptToVideo.GenerateVoiceoverArgsSchema
    (fun args => ScriptToVideo.vo_provider args = "elevenlabs")
    (ScriptToVideo.callTool "generate_voiceover") /\
  needs_credential "HUGGINGFACE_API_KEY" ScriptToVideo.GenerateVoiceoverArgsSchema
    (fun args => ScriptToVideo.vo_provider args = "huggingface")
    (ScriptToVideo.callTool "generate_voiceover").
Proof.
  split; [refuse_keyless IdeaGenerator.generateViralIdeas|].
  split; [refuse_keyless IdeaGenerator.predictVirality|].
  split; [refuse_keyless ScriptToVideo.generateVideoScript|].
  split; [refuse_keyless ScriptToVideo.generateStoryboard|].
  split; [refuse_keyless GrowthOptimizer.optimizeSEO|].
  split; [refuse_keyless GrowthOptimizer.generateThumbnailConcepts|].
  split; [refuse_keyless GrowthOptimizer.repurposeContent|].
  split; [refuse_keyless GrowthOptimizer.runABTest|].
  split; refuse_keyless ScriptToVideo.generateVoiceover.
Qed.

Lemma missing_credential_fails_closed_witness :
  configuration_error keyless_runtime "GEMINI_API_KEY"
    (IdeaGenerator.callTool "generate_viral_ideas" sample_idea_arguments keyless_runtime) /\
  configuration_error keyless_runtime "ELEVENLABS_API_KEY"
    (ScriptToVideo.callTool "generate_voiceover"
       (JObj [("script", JStr "Hello"); ("provider", JStr "elevenlabs")])
       keyless_runtime).
Proof.
  split.
  - eapply (proj1 missing_credential_fails_closed); [reflexivity | reflexivity | exact I].
  - eapply (proj1 (proj2 (proj2 (proj2 (proj2 (proj2 (proj2 (proj2 (proj2
              missing_credential_fails_closed)))))))));
      [reflexivity | reflexivity | reflexivity].
Defined.

End ContractTheorems.

(** ** Extraction of the JSON fragment *)

Module ExtractionFacts.

Lemma upto_last_none (close : ascii) (s : string) :
  upto_last close s = None <-> has_char close s = false.
Proof.
  induction s as [|c r IH]; simpl.
  - tauto.
  - destruct (upto_last close r) eqn:E.
    + split; [discriminate|]. intro H. apply orb_false_iff in H. destruct H as [_ H].
      apply IH in H. discriminate.
    + rewrite Ascii.eqb_sym. destruct (Ascii.eqb close c); simpl.
      * split; discriminate.
      * split; intros _; [now apply IH | reflexivity].
Qed.

Lemma has_char_app (c : ascii) (s1 s2 : string) :
  has_char c (s1 ++ s2) = has_char c s1 || has_char c s2.
Proof.
  induction s1 as [|d r IH]; simpl; [reflexivity|].
  now rewrite IH, orb_assoc.
Qed.

Lemma has_char_split (c : ascii) (s : string) :
  has_char c s = true -> exists pre post, s = pre ++ String c post /\ has_char c pre = false.
Proof.
  induction s as [|d r IH]; simpl; [discriminate|].
  destruct (Ascii.eqb c d) eqn:E; simpl.
  - intros _. apply Ascii.eqb_eq in E. subst d. exists "", r. split; reflexivity.
  - intro H. destruct (IH H) as (pre & post & -> & Hp).
    exists (String d pre), post. split; [reflexivity|]. simpl. now rewrite E.
Qed.

Lemma greedy_match_none (open close : ascii) (s : string) :
  greedy_match open close s = None <-> ~ bracketed open close s.
Proof.
  split.
  - intros H (before & inside & after & E). subst s.
    induction before as [|c r IH]; simpl in H.
    + rewrite Ascii.eqb_refl in H.
      destruct (upto_last close (inside ++ String close after)) eqn:U; [discriminate|].
      apply upto_last_none in U. rewrite has_char_app in U. simpl in U.
      rewrite Ascii.eqb_refl in U. simpl in U. rewrite orb_true_r in U. discriminate.
    + destruct (Ascii.eqb c open) eqn:E.
      * destruct (upto_last close (r ++ String open (inside ++ String close after))) eqn:U;
          [discriminate|].
        apply upto_last_none in U. rewrite !has_char_app in U. simpl in U.
        rewrite has_char_app in U. simpl in U.
        rewrite Ascii.eqb_refl in U. simpl in U.
        rewrite !orb_true_r in U. discriminate.
      * now apply IH.
  - intro H. induction s as [|c r IH]; simpl; [reflexivity|].
    destruct (Ascii.eqb c open) eqn:E.
    + apply Ascii.eqb_eq in E. subst c.
      destruct (upto_last close r) eqn:U; [|reflexivity].
      exfalso. apply H.
      assert (Hc : has_char close r = true).
      { destruct (has_char close r) eqn:F; [reflexivity|].
        apply upto_last_none in F. congruence. }
      destruct (has_char_split _ _ Hc) as (pre & post & -> & _).
      exists "", pre, post. reflexivity.
    + apply IH. intros (before & inside & after & ->). apply H.
      exists (String c before), inside, after. reflexivity.
Qed.

Lemma no_open_no_match (open close : ascii) (s : string) :
  has_char open s = false -> greedy_match open close s = None.
Proof.
  induction s as [|c r IH]; simpl; [reflexivity|].
  intro H. apply orb_false_iff in H. destruct H as [H1 H2].
  rewrite Ascii.eqb_sym in H1. rewrite H1. now apply IH.
Qed.

End ExtractionFacts.

(** ** Strict and lenient handlers *)

Module GenerativeFacts.
Import ContractTheorems ExtractionFacts.

Lemma credential_truthy (rt : runtime) (credential key : string) :
  has_credential rt credential key ->
  env rt credential = Some key /\ negb (truthy_str (Some key)) = false.
Proof.
  intros [He Hk]. split; [exact He|]. simpl.
  apply String.eqb_neq in Hk. now rewrite Hk.
Qed.

(** Entering a handler whose credential is there. *)
Ltac with_key Hkey :=
  let He := fresh "He" in
  let Ht := fresh "Ht" in
  destruct (credential_truthy _ _ _ Hkey) as [He Ht];
  rewrite He, Ht; cbv beta iota.

Lemma z_enum_In (allowed : list string) (v : jsval) (s : string) :
  z_enum allowed v = Some s -> In s allowed.
Proof.
  unfold z_enum. destruct v; try discriminate.
  destruct (includes s0 allowed) eqn:E; [|discriminate].
  intro H. inversion H; subst. now apply includes_In.
Qed.

Lemma script_schema_platform arguments args :
  ScriptToVideo.GenerateScriptArgsSchema arguments = inr args ->
  exists spec,
    ScriptToVideo.platformSpecs (ScriptToVideo.idea_platform (ScriptToVideo.gs_idea args))
    = Some spec.
Proof.
  unfold ScriptToVideo.GenerateScriptArgsSchema, args_object, ap, pure, field.
  destruct arguments as [| | | | | |o]; try discriminate.
  destruct (ScriptToVideo.ideaSchema (prop o "idea")) as [idea|] eqn:Ei; [|cbn [fst snd app]; discriminate].
  destruct (z_default _ _ (prop o "tone")); [|cbn [fst snd app]; discriminate].
  destruct (z_default _ _ (prop o "includeVoiceover")); [|cbn [fst snd app]; discriminate].
  destruct (z_default _ _ (prop o "includeBRoll")); [|cbn [fst snd app]; discriminate].
  cbn [fst snd app]. intro H. inversion H; subst; clear H. simpl.
  unfold ScriptToVideo.ideaSchema, z_object, opt_bind in Ei.
  destruct (prop o "idea") as [| | | | | |i]; try discriminate.
  destruct (z_string (prop i "title")); [|cbn [fst snd app]; discriminate].
  destruct (z_string (prop i "hook")); [|cbn [fst snd app]; discriminate].
  destruct (z_enum _ (prop i "platform")) as [p|] eqn:Ep; [|cbn [fst snd app]; discriminate].
  destruct (z_number (prop i "duration")); [|cbn [fst snd app]; discriminate].
  destruct (z_optional _ (prop i "outline")); [|cbn [fst snd app]; discriminate].
  inversion Ei; subst; clear Ei. simpl.
  apply z_enum_In in Ep. simpl in Ep.
  destruct Ep as [<-|[<-|[<-|[<-|[]]]]]; eexists; reflexivity.
Qed.

Lemma seo_schema_platform arguments args :
  GrowthOptimizer.OptimizeSEOArgsSchema arguments = inr args ->
  exists rules, GrowthOptimizer.platformRules (GrowthOptimizer.seo_platform args) = Some rules.
Proof.
  unfold GrowthOptimizer.OptimizeSEOArgsSchema, args_object, ap, pure, field.
  destruct arguments as [| | | | | |o]; try discriminate.
  destruct (z_string (prop o "title")); [|cbn [fst snd app]; discriminate].
  destruct (z_string (prop o "description")); [|cbn [fst snd app]; discriminate].
  destruct (z_enum _ (prop o "platform")) as [p|] eqn:Ep; [|cbn [fst snd app]; discriminate].
  destruct (z_string (prop o "niche")); [|cbn [fst snd app]; discriminate].
  destruct (z_optional _ (prop o "targetAudience")); [|cbn [fst snd app]; discriminate].
  cbn [fst snd app]. intro H. inversion H; subst; clear H. simpl.
  apply z_enum_In in Ep. simpl in Ep.
  destruct Ep as [<-|[<-|[<-|[]]]]; eexists; reflexivity.
Qed.

Lemma script_strict (rt : runtime) (key text : string) arguments args :
  has_credential rt "GEMINI_API_KEY" key ->
  provider_answers rt text ->
  match_object text = None ->
  ScriptToVideo.GenerateScriptArgsSchema arguments = inr args ->
  exists events,
    ScriptToVideo.callTool "generate_video_script" arguments rt
    = (inr (error_envelope rt "Failed to extract JSON from AI response"), events).
Proof.
  intros Hkey Hp Hm Hs. unfold error_envelope.
  destruct (script_schema_platform _ _ Hs) as (spec & Hspec).
  enter_call. rewrite Hs. cbv beta iota.
  unfold ScriptToVideo.generateVideoScript. expose. with_key Hkey.
  rewrite Hspec, Hp, Hm. eexists. reflexivity.
Qed.

Lemma storyboard_lenient (rt : runtime) (key text : string) arguments args :
  has_credential rt "GEMINI_API_KEY" key ->
  provider_answers rt text ->
  match_object text = None ->
  ScriptToVideo.GenerateStoryboardArgsSchema arguments = inr args ->
  exists events,
    ScriptToVideo.callTool "generate_storyboard" arguments rt
    = (inr (success (JObj [("shots", JArr [])])), events).
Proof.
  intros Hkey Hp Hm Hs.
  enter_call. rewrite Hs. cbv beta iota.
  unfold ScriptToVideo.generateStoryboard. expose. with_key Hkey.
  rewrite Hp, Hm. eexists. reflexivity.
Qed.

Section Lenient.
Variables (rt : runtime) (key text : string).
Hypothesis Hkey : has_credential rt "GEMINI_API_KEY" key.
Hypothesis Hp : provider_answers rt text.
Hypothesis Hobj : match_object text = None.
Hypothesis Harr : match_array text = None.

Lemma ideas_default arguments args :
  IdeaGenerator.GenerateIdeasArgsSchema arguments = inr args ->
  answers (IdeaGenerator.callTool "generate_viral_ideas" arguments rt)
          (IdeaSpec.ideas_document []).
Proof.
  intro Hs. unfold answers. enter_call. rewrite Hs. cbv beta iota.
  unfold IdeaGenerator.generateViralIdeas. expose. with_key Hkey.
  rewrite TrendFacts.scrape_run, Hp, Harr. reflexivity.
Qed.

Lemma virality_default arguments args :
  IdeaGenerator.PredictViralityArgsSchema arguments = inr args ->
  answers (IdeaGenerator.callTool "predict_virality" arguments rt)
          (JObj [("overallScore", JInt 50)]).
Proof.
  intro Hs. unfold answers. enter_call. rewrite Hs. cbv beta iota.
  unfold IdeaGenerator.predictVirality. expose. with_key Hkey.
  rewrite Hp, Hobj. reflexivity.
Qed.

Lemma seo_default arguments args :
  GrowthOptimizer.OptimizeSEOArgsSchema arguments = inr args ->
  answers (GrowthOptimizer.callTool "optimize_seo" arguments rt) (JObj []).
Proof.
  intro Hs. unfold answers.
  destruct (seo_schema_platform _ _ Hs) as (rules & Hr).
  enter_call. rewrite Hs. cbv beta iota.
  unfold GrowthOptimizer.optimizeSEO. expose. with_key Hkey.
  rewrite Hr, Hp, Hobj. reflexivity.
Qed.

Lemma thumbnails_default arguments args :
  GrowthOptimizer.GenerateThumbnailArgsSchema arguments = inr args ->
  answers (GrowthOptimizer.callTool "generate_thumbnail_concepts" arguments rt)
    (JObj [("concepts", JArr []);
           ("abTestRecommendation", JStr "Test top 2 concepts for 48 hours, keep winner");
           ("toolSuggestions",
            strs ["Canva"; "Photoshop"; "Figma"; "Midjourney (for AI generation)"])]).
Proof.
  intro Hs. unfold answers. enter_call. rewrite Hs. cbv beta iota.
  unfold GrowthOptimizer.generateThumbnailConcepts. expose. with_key Hkey.
  rewrite Hp, Harr. reflexivity.
Qed.

Lemma repurpose_default arguments args :
  GrowthOptimizer.RepurposeContentArgsSchema arguments = inr args ->
  answers (GrowthOptimizer.callTool "repurpose_content" arguments rt)
          (JObj [("clips", JArr [])]).
Proof.
  intro Hs. unfold answers. enter_call. rewrite Hs. cbv beta iota.
  unfold GrowthOptimizer.repurposeContent. expose. with_key Hkey.
  rewrite Hp, Hobj. reflexivity.
Qed.

Lemma abtest_default arguments args :
  GrowthOptimizer.RunABTestArgsSchema arguments = inr args ->
  answers (GrowthOptimizer.callTool "run_ab_test" arguments rt)
          (JObj [("variants", JArr [])]).
Proof.
  intro Hs. unfold answers. enter_call. rewrite Hs. cbv beta iota.
  unfold GrowthOptimizer.runABTest. expose. with_key Hkey.
  rewrite Hp, Hobj. reflexivity.
Qed.

End Lenient.

End GenerativeFacts.

Module GenerativeTheorems.
Import ContractTheorems ExtractionFacts GenerativeFacts.

Lemma sample_runtime_credential :
  has_credential sample_runtime "GEMINI_API_KEY" "key-for-GEMINI_API_KEY".
Proof. split; [reflexivity | discriminate]. Qed.

Lemma sample_runtime_prose : provider_answers sample_runtime sample_prose.
Proof. intro prompt. reflexivity. Qed.

Lemma sample_prose_unbracketed : ~ bracketed "{" "}" sample_prose.
Proof. apply greedy_match_none. reflexivity. Qed.

(** C2, as stated, fails for [generate_storyboard]: with a provider text
    that has no JSON object in it the call is answered by a success
    envelope, not by an error envelope. *)
Lemma storyboard_is_not_strict :
  ~ (forall rt key text arguments args,
       has_credential rt "GEMINI_API_KEY" key ->
       provider_answers rt text ->
       ~ bracketed "{" "}" text ->
       ScriptToVideo.GenerateStoryboardArgsSchema arguments = inr args ->
       exists message,
         fst (ScriptToVideo.callTool "generate_storyboard" arguments rt)
         = inr (error_envelope rt message)).
Proof.
  intro H.
  destruct (H sample_runtime "key-for-GEMINI_API_KEY" sample_prose
              sample_storyboard_arguments
              {| ScriptToVideo.sb_script := "Open on the skyline. Cut to the kitchen.";
                 ScriptToVideo.sb_platform := "tiktok";
                 ScriptToVideo.sb_visualStyle := "hybrid" |}
              sample_runtime_credential sample_runtime_prose
              sample_prose_unbracketed eq_refl)
    as (message & Hm).
  vm_compute in Hm. discriminate.
Qed.

(** C2, amended: when the provider text has no substring matching the JSON
    object pattern, [generate_video_script] is answered by an error
    envelope whose message is [Failed to extract JSON from AI response],
    and [generate_storyboard] is answered by a success envelope carrying
    its default [{ shots: [] }]. *)
Theorem extraction_failure_policy (rt : runtime) (key text : string) :
  has_credential rt "GEMINI_API_KEY" key ->
  provider_answers rt text ->
  ~ bracketed "{" "}" text ->
  (forall arguments args,
     ScriptToVideo.GenerateScriptArgsSchema arguments = inr args ->
     fst (ScriptToVideo.callTool "generate_video_script" arguments rt)
     = inr (error_envelope rt "Failed to extract JSON from AI response")) /\
  (forall arguments args,
     ScriptToVideo.GenerateStoryboardArgsSchema arguments = inr args ->
     answers (ScriptToVideo.callTool "generate_storyboard" arguments rt)
             (JObj [("shots", JArr [])])).
Proof.
  intros Hkey Hp Hn. apply greedy_match_none in Hn. split; intros arguments args Hs.
  - destruct (script_strict rt key text arguments args Hkey Hp Hn Hs) as (events & ->).
    reflexivity.
  - destruct (storyboard_lenient rt key text arguments args Hkey Hp Hn Hs) as (events & E).
    unfold answers. now rewrite E.
Qed.

Lemma extraction_failure_policy_witness :
  has_credential sample_runtime "GEMINI_API_KEY" "key-for-GEMINI_API_KEY" /\
  provider_answers sample_runtime sample_prose /\
  ~ bracketed "{" "}" sample_prose /\
  fst (ScriptToVideo.callTool "generate_video_script" sample_script_arguments sample_runtime)
  = inr (error_envelope sample_runtime "Failed to extract JSON from AI response").
Proof.
  split; [exact sample_runtime_credential|].
  split; [exact sample_runtime_prose|].
  split; [exact sample_prose_unbracketed|].
  eapply (proj1 (extraction_failure_policy sample_runtime _ sample_prose
                   sample_runtime_credential sample_runtime_prose
                   sample_prose_unbracketed)).
  reflexivity.
Defined.

(** C4: when the provider text contains neither [{] nor [[], each of the six
    lenient handlers is answered by a success envelope carrying its default:
    no ideas and a count of 0, an overall score of 50, no clips, the empty
    object, no concepts, no variants. *)
Theorem lenient_handlers_default (rt : runtime) (key text : string) :
  has_credential rt "GEMINI_API_KEY" key ->
  provider_answers rt text ->
  has_char "{" text = false ->
  has_char "[" text = false ->
  (forall arguments args,
     IdeaGenerator.GenerateIdeasArgsSchema arguments = inr args ->
     answers (IdeaGenerator.callTool "generate_viral_ideas" arguments rt)
             (JObj [("ideas", JArr []); ("count", JInt 0)])) /\
  (forall arguments args,
     IdeaGenerator.PredictViralityArgsSchema arguments = inr args ->
     answers (IdeaGenerator.callTool "predict_virality" arguments rt)
             (JObj [("overallScore", JInt 50)])) /\
  (forall arguments args,
     GrowthOptimizer.RepurposeContentArgsSchema arguments = inr args ->
     answers (GrowthOptimizer.callTool "repurpose_content" arguments rt)
             (JObj [("clips", JArr [])])) /\
  (forall arguments args,
     GrowthOptimizer.OptimizeSEOArgsSchema arguments = inr args ->
     answers (GrowthOptimizer.callTool "optimize_seo" arguments rt) (JObj [])) /\
  (forall arguments args,
     GrowthOptimizer.GenerateThumbnailArgsSchema arguments = inr args ->
     answers (GrowthOptimizer.callTool "generate_thumbnail_concepts" arguments rt)
       (JObj [("concepts", JArr []);
              ("abTestRecommendation",
               JStr "Test top 2 concepts for 48 hours, keep winner");
              ("toolSuggestions",
               strs ["Canva"; "Photoshop"; "Figma"; "Midjourney (for AI generation)"])])) /\
  (forall arguments args,
     GrowthOptimizer.RunABTestArgsSchema arguments = inr args ->
     answers (GrowthOptimizer.callTool "run_ab_test" arguments rt)
             (JObj [("variants", JArr [])])).
Proof.
  intros Hkey Hp Ho Ha.
  apply (no_open_no_match _ "}"%char) in Ho. apply (no_open_no_match _ "]"%char) in Ha.
  fold match_object in Ho. fold match_array in Ha.
  split; [intros; eapply ideas_default; eassumption|].
  split; [intros; eapply virality_default; eassumption|].
  split; [intros; eapply repurpose_default; eassumption|].
  split; [intros; eapply seo_default; eassumption|].
  split; [intros; eapply thumbnails_default; eassumption|].
  intros; eapply abtest_default; eassumption.
Qed.

Lemma lenient_handlers_default_witness :
  has_char "{" sample_prose = false /\
  has_char "[" sample_prose = false /\
  answers (IdeaGenerator.callTool "predict_virality" sample_virality_arguments
             sample_runtime)
          (JObj [("overallScore", JInt 50)]).
Proof.
  split; [reflexivity|]. split; [reflexivity|].
  eapply (proj1 (proj2 (lenient_handlers_default sample_runtime _ sample_prose
                          sample_runtime_credential sample_runtime_prose
                          eq_refl eq_refl))).
  reflexivity.
Defined.

End GenerativeTheorems.

(** ** Idea generation *)

Module IdeaFacts.
Import ContractTheorems ExtractionFacts GenerativeFacts IdeaGenerator IdeaSpec.

Lemma parsed_idea_truthy (rt : runtime) (idea v : jsval) :
  Shared.ViralIdeaSchema rt idea = Some v -> truthy v = true.
Proof.
  unfold Shared.ViralIdeaSchema, z_object. destruct idea; try discriminate.
  unfold opt_bind.
  repeat match goal with
         | |- match ?p with Some _ => _ | None => None end = Some _ -> _ =>
             destruct p; [|discriminate]
         end.
  intro H. inversion H. reflexivity.
Qed.

(** The value the [map] callback returns for one element. *)
Lemma validate_all (rt : runtime) (traceId : string) (items : list jsval) :
  mapM (fun idea =>
          try_catch (parseIdea idea)
            (fun error =>
               bind (logWithTrace traceId "warn" "Invalid idea skipped"
                       [("error", err_js error)])
                    (fun _ => ret JNull)))
       items rt
  = (inr (map (fun idea => match Shared.ViralIdeaSchema rt idea with
                           | Some v => v
                           | None => JNull
                           end) items),
     flat_map (fun idea => match Shared.ViralIdeaSchema rt idea with
                           | Some _ => []
                           | None => [Log traceId "warn" "Invalid idea skipped"
                                        [("error", JStr (zod_message rt "ViralIdeaSchema" [("", idea)]))]]
                           end) items).
Proof.
  induction items as [|idea rest IH]; [reflexivity|].
  cbn [mapM map flat_map]. unfold bind at 1. unfold bind at 2. rewrite IH.
  unfold try_catch, parseIdea. expose.
  destruct (Shared.ViralIdeaSchema rt idea) as [v|]; simpl;
    rewrite ?app_nil_r; reflexivity.
Qed.

Lemma filter_truthy_survivors (rt : runtime) (items : list jsval) :
  filter truthy (map (fun idea => match Shared.ViralIdeaSchema rt idea with
                                  | Some v => v
                                  | None => JNull
                                  end) items)
  = survivors rt items.
Proof.
  unfold survivors. induction items as [|idea rest IH]; [reflexivity|].
  cbn [map filter flat_map].
  destruct (Shared.ViralIdeaSchema rt idea) as [v|] eqn:E.
  - rewrite (parsed_idea_truthy _ _ _ E), IH. reflexivity.
  - simpl. exact IH.
Qed.

Lemma survivors_count (rt : runtime) (items : list jsval) :
  List.length (survivors rt items) + List.length (rejected rt items) = List.length items.
Proof.
  unfold survivors, rejected, fails_validation.
  induction items as [|idea rest IH]; [reflexivity|].
  cbn [flat_map filter]. destruct (Shared.ViralIdeaSchema rt idea); simpl; lia.
Qed.

Lemma survivors_In (rt : runtime) (items : list jsval) (v : jsval) :
  In v (survivors rt items) <->
  exists idea, In idea items /\ Shared.ViralIdeaSchema rt idea = Some v.
Proof.
  unfold survivors. rewrite in_flat_map. split; intros (idea & Hi & H); exists idea;
    (split; [exact Hi|]).
  - destruct (Shared.ViralIdeaSchema rt idea); simpl in H; [|contradiction].
    destruct H as [<-|[]]. reflexivity.
  - rewrite H. now left.
Qed.

Lemma skip_logs_count (rt : runtime) (traceId : string) (items : list jsval) :
  List.length (filter is_skip_log
     (flat_map (fun idea => match Shared.ViralIdeaSchema rt idea with
                           | Some _ => []
                           | None => [Log traceId "warn" "Invalid idea skipped"
                                        [("error", JStr (zod_message rt "ViralIdeaSchema" [("", idea)]))]]
                           end) items))
  = List.length (rejected rt items).
Proof.
  unfold rejected, fails_validation. induction items as [|idea rest IH]; [reflexivity|].
  cbn [flat_map filter].
  destruct (Shared.ViralIdeaSchema rt idea); simpl; [exact IH | now rewrite IH].
Qed.

Lemma source_events_no_skip (rt : runtime) (niche traceId : string) (l : list string) :
  filter is_skip_log (flat_map (TrendSpec.source_events rt niche traceId) l) = [].
Proof.
  induction l as [|s r IH]; [reflexivity|].
  cbn [flat_map]. rewrite filter_app, IH, app_nil_r.
  unfold TrendSpec.source_events, TrendSpec.failure_log.
  destruct (String.eqb s "youtube").
  - destruct (TrendSpec.youtube_outcome rt niche); reflexivity.
  - destruct (String.eqb s "reddit"); [|reflexivity].
    destruct (TrendSpec.reddit_outcome rt niche); reflexivity.
Qed.

Lemma ideas_run (rt : runtime) (key text matched : string) (ideas : list jsval)
    arguments args :
  has_credential rt "GEMINI_API_KEY" key ->
  provider_answers rt text ->
  match_array text = Some matched ->
  JSON_parse rt matched = inr (JArr ideas) ->
  GenerateIdeasArgsSchema arguments = inr args ->
  exists events,
    callTool "generate_viral_ideas" arguments rt
    = (inr (success (ideas_document (survivors rt ideas))), events) /\
    List.length (filter is_skip_log events) = List.length (rejected rt ideas).
Proof.
  intros Hkey Hp Hm Hj Hs. enter_call. rewrite Hs. cbv beta iota.
  unfold generateViralIdeas. expose. with_key Hkey.
  rewrite TrendFacts.scrape_run, Hp, Hm, Hj. cbv beta iota.
  cbn [array_items].
  pose proof (validate_all rt (trace_id rt) ideas) as V.
  unfold trace_id in V. revert V. expose. intro V. rewrite V.
  rewrite filter_truthy_survivors.
  eexists. split; [reflexivity|].
  rewrite !app_nil_r. cbn [app]. rewrite filter_app, source_events_no_skip.
  cbn [app filter is_skip_log String.eqb Ascii.eqb Bool.eqb andb].
  rewrite filter_app. cbn [filter is_skip_log String.eqb Ascii.eqb Bool.eqb andb].
  rewrite app_nil_r. apply skip_logs_count.
Qed.

Lemma trend_window_unread (a1 a2 : GenerateIdeasArgs) (traceId : string) :
  gi_niche a1 = gi_niche a2 -> gi_platform a1 = gi_platform a2 ->
  gi_count a1 = gi_count a2 ->
  generateViralIdeas a1 traceId = generateViralIdeas a2 traceId.
Proof.
  destruct a1 as [n1 p1 c1 w1], a2 as [n2 p2 c2 w2]. simpl.
  intros -> -> ->. reflexivity.
Qed.

Lemma schema_reads (o : list (string * jsval)) (args : GenerateIdeasArgs) :
  GenerateIdeasArgsSchema (JObj o) = inr args ->
  z_string (prop o "niche") = Some (gi_niche args) /\
  z_enum ["youtube"; "tiktok"; "instagram-reels"; "youtube-shorts"; "all"]
         (prop o "platform") = Some (gi_platform args) /\
  refine (refine (refine z_number z_int) (z_min 10%float)) (z_max 50%float) (prop o "count")
    = Some (gi_count args) /\
  z_default "7d" (z_enum ["24h"; "7d"; "30d"]) (prop o "trendWindow")
    = Some (gi_trendWindow args).
Proof.
  unfold GenerateIdeasArgsSchema, args_object, ap, pure, field.
  destruct (z_string (prop o "niche")); [|cbn [fst snd app]; discriminate].
  destruct (z_enum _ (prop o "platform")); [|cbn [fst snd app]; discriminate].
  destruct (refine _ _ (prop o "count")); [|cbn [fst snd app]; discriminate].
  destruct (z_default _ _ (prop o "trendWindow")); [|cbn [fst snd app]; discriminate].
  cbn [fst snd app]. intro H. inversion H; subst. simpl. repeat split.
Qed.

Lemma capability_of_scrape (rt : runtime) (niche traceId : string) :
  filter capability
    (flat_map (TrendSpec.source_events rt niche traceId)
       (TrendSpec.requested ["youtube"; "reddit"; "google-trends"]))
  = [HttpGet TrendSpec.youtube_url [("bp", JStr "wgYCCAESAhAB")];
     HttpGet (TrendSpec.reddit_url niche) [("limit", JInt 10)]].
Proof.
  change (TrendSpec.requested ["youtube"; "reddit"; "google-trends"])
    with ["youtube"; "reddit"; "google-trends"].
  cbn [flat_map]. unfold TrendSpec.source_events, TrendSpec.failure_log.
  simpl (String.eqb _ _). cbv iota.
  destruct (TrendSpec.youtube_outcome rt niche), (TrendSpec.reddit_outcome rt niche);
    reflexivity.
Qed.

Lemma validation_logs_only (rt : runtime) (traceId : string) (items : list jsval) :
  filter capability
    (flat_map (fun idea => match Shared.ViralIdeaSchema rt idea with
                           | Some _ => []
                           | None => [Log traceId "warn" "Invalid idea skipped"
                                        [("error", JStr (zod_message rt "ViralIdeaSchema" [("", idea)]))]]
                           end) items) = [].
Proof.
  induction items as [|idea rest IH]; [reflexivity|].
  cbn [flat_map]. rewrite filter_app, IH.
  destruct (Shared.ViralIdeaSchema rt idea); reflexivity.
Qed.

Lemma ideas_requests (rt : runtime) (key : string) (args : GenerateIdeasArgs)
    (traceId : string) :
  has_credential rt "GEMINI_API_KEY" key ->
  filter capability (snd (generateViralIdeas args traceId rt))
  = [HttpGet TrendSpec.youtube_url [("bp", JStr "wgYCCAESAhAB")];
     HttpGet (TrendSpec.reddit_url (gi_niche args)) [("limit", JInt 10)];
     GenerateContent key "gemini-1.5-pro"
       (userPrompt rt args
          (dedup (TrendSpec.all_pushed rt (gi_niche args)
                    ["youtube"; "reddit"; "google-trends"])) ++
        newline ++ newline ++
        systemPrompt rt args
          (dedup (TrendSpec.all_pushed rt (gi_niche args)
                    ["youtube"; "reddit"; "google-trends"])))].
Proof.
  intro Hkey.
  pose proof (fun items => validate_all rt traceId items) as V.
  revert V. unfold generateViralIdeas. expose. intro V. with_key Hkey.
  rewrite TrendFacts.scrape_run.
  assert (Fin : forall tail,
    filter capability tail = [] ->
    filter capability
      (flat_map (TrendSpec.source_events rt (gi_niche args) traceId)
         (TrendSpec.requested ["youtube"; "reddit"; "google-trends"]) ++
       [Log traceId "info" "Generating viral ideas"
          [("niche", JStr (gi_niche args)); ("count", JNum (gi_count args))];
        GenerateContent key "gemini-1.5-pro"
          (userPrompt rt args
             (dedup (TrendSpec.all_pushed rt (gi_niche args)
                       ["youtube"; "reddit"; "google-trends"])) ++
           newline ++ newline ++
           systemPrompt rt args
             (dedup (TrendSpec.all_pushed rt (gi_niche args)
                       ["youtube"; "reddit"; "google-trends"])))] ++ tail)
    = [HttpGet TrendSpec.youtube_url [("bp", JStr "wgYCCAESAhAB")];
       HttpGet (TrendSpec.reddit_url (gi_niche args)) [("limit", JInt 10)];
       GenerateContent key "gemini-1.5-pro"
         (userPrompt rt args
             (dedup (TrendSpec.all_pushed rt (gi_niche args)
                       ["youtube"; "reddit"; "google-trends"])) ++
           newline ++ newline ++
           systemPrompt rt args
             (dedup (TrendSpec.all_pushed rt (gi_niche args)
                       ["youtube"; "reddit"; "google-trends"])))]).
  { intros tail Htail. rewrite !filter_app, capability_of_scrape, Htail. reflexivity. }
  destruct (generateContent rt _) as [e|text]; cbn [snd fst app].
  - rewrite <- (Fin [] eq_refl). rewrite ?app_nil_r. reflexivity.
  - destruct (match_array text) as [matched|].
    + destruct (JSON_parse rt matched) as [e|ideas]; cbn [snd fst app].
      * rewrite <- (Fin [] eq_refl). rewrite ?app_nil_r. reflexivity.
      * destruct (array_items ideas "ideas.map") as [e|items]; cbn [snd fst app].
        -- rewrite <- (Fin [] eq_refl). rewrite ?app_nil_r. reflexivity.
        -- rewrite V. cbn [snd fst app]. rewrite ?app_nil_r.
           erewrite <- Fin; [reflexivity|].
           rewrite filter_app, validation_logs_only. reflexivity.
    + cbn [array_items mapM snd fst app flat_map filter map].
      rewrite ?app_nil_r.
      erewrite <- Fin; [reflexivity|]. reflexivity.
Qed.

End IdeaFacts.

Module IdeaTheorems.
Import ContractTheorems GenerativeFacts IdeaGenerator IdeaSpec IdeaFacts.

(** C3: when the array extracted from the provider's answer has [n]
    elements of which [m] fail [ViralIdeaSchema], [generate_viral_ideas] is
    answered by a success envelope whose ideas are the parsed elements that
    pass, in order, and whose [count] is their number [n - m]; each failing
    element leaves one warning in the log and none of them makes the call
    fail.  With 5 elements of which 2 fail the count is 3. *)
Theorem invalid_ideas_are_dropped (rt : runtime) (key text matched : string)
    (ideas : list jsval) (arguments : jsval) (args : GenerateIdeasArgs) :
  has_credential rt "GEMINI_API_KEY" key ->
  provider_answers rt text ->
  match_array text = Some matched ->
  JSON_parse rt matched = inr (JArr ideas) ->
  GenerateIdeasArgsSchema arguments = inr args ->
  exists events,
    callTool "generate_viral_ideas" arguments rt
    = (inr (success (ideas_document (survivors rt ideas))), events) /\
    List.length (survivors rt ideas)
    = List.length ideas - List.length (rejected rt ideas) /\
    (forall v, In v (survivors rt ideas) <->
               exists idea, In idea ideas /\ Shared.ViralIdeaSchema rt idea = Some v) /\
    List.length (filter is_skip_log events) = List.length (rejected rt ideas) /\
    (List.length ideas = 5 -> List.length (rejected rt ideas) = 2 ->
     member_opt (ideas_document (survivors rt ideas)) "count" = JInt 3).
Proof.
  intros Hkey Hp Hm Hj Hs.
  destruct (ideas_run rt key text matched ideas arguments args Hkey Hp Hm Hj Hs)
    as (events & Hrun & Hlog).
  exists events. split; [exact Hrun|].
  pose proof (survivors_count rt ideas) as Hc.
  split; [lia|]. split; [apply survivors_In|]. split; [exact Hlog|].
  intros H5 H2. unfold ideas_document, member_opt. simpl.
  replace (List.length (survivors rt ideas)) with 3 by lia. reflexivity.
Qed.

Lemma invalid_ideas_are_dropped_witness :
  has_credential ideas_runtime "GEMINI_API_KEY" "key-for-GEMINI_API_KEY" /\
  provider_answers ideas_runtime sample_array_text /\
  match_array sample_array_text = Some "[five ideas]" /\
  exists events,
    callTool "generate_viral_ideas" sample_idea_arguments ideas_runtime
    = (inr (success (ideas_document (survivors ideas_runtime five_ideas))), events) /\
    List.length (survivors ideas_runtime five_ideas) = 3.
Proof.
  assert (Hk : has_credential ideas_runtime "GEMINI_API_KEY" "key-for-GEMINI_API_KEY")
    by (split; [reflexivity | discriminate]).
  assert (Hp : provider_answers ideas_runtime sample_array_text)
    by (intro prompt; reflexivity).
  split; [exact Hk|]. split; [exact Hp|]. split; [reflexivity|].
  destruct (invalid_ideas_are_dropped ideas_runtime _ sample_array_text
              "[five ideas]" five_ideas sample_idea_arguments
              {| gi_niche := "cooking"; gi_platform := "tiktok"; gi_count := 12;
                 gi_trendWindow := "7d" |}
              Hk Hp eq_refl eq_refl eq_refl)
    as (events & Hrun & _).
  exists events. split; [exact Hrun | reflexivity].
Defined.

(** C9: [trendWindow] is validated and defaulted and then never read: two
    argument objects that the schema accepts and that agree on [niche],
    [platform] and [count] get the same reply and the same events, and the
    handler does the same on two argument records that differ in
    [trendWindow] only.  The requests of the handler are those of the
    YouTube and Reddit sources of the fixed list [youtube, reddit,
    google-trends], whatever the arguments, followed by the provider call. *)
Theorem trend_window_is_ignored (rt : runtime) :
  (forall o1 o2 a1 a2,
     GenerateIdeasArgsSchema (JObj o1) = inr a1 ->
     GenerateIdeasArgsSchema (JObj o2) = inr a2 ->
     prop o1 "niche" = prop o2 "niche" ->
     prop o1 "platform" = prop o2 "platform" ->
     prop o1 "count" = prop o2 "count" ->
     callTool "generate_viral_ideas" (JObj o1) rt
     = callTool "generate_viral_ideas" (JObj o2) rt) /\
  (forall a1 a2 traceId,
     gi_niche a1 = gi_niche a2 -> gi_platform a1 = gi_platform a2 ->
     gi_count a1 = gi_count a2 ->
     generateViralIdeas a1 traceId rt = generateViralIdeas a2 traceId rt) /\
  (forall o args,
     GenerateIdeasArgsSchema (JObj o) = inr args ->
     In (gi_trendWindow args) ["24h"; "7d"; "30d"] /\
     (prop o "trendWindow" = JUndefined -> gi_trendWindow args = "7d")) /\
  (forall args traceId key,
     has_credential rt "GEMINI_API_KEY" key ->
     let trends := dedup (TrendSpec.all_pushed rt (gi_niche args)
                            ["youtube"; "reddit"; "google-trends"]) in
     filter capability (snd (generateViralIdeas args traceId rt))
     = [HttpGet TrendSpec.youtube_url [("bp", JStr "wgYCCAESAhAB")];
        HttpGet (TrendSpec.reddit_url (gi_niche args)) [("limit", JInt 10)];
        GenerateContent key "gemini-1.5-pro"
          (userPrompt rt args trends ++ newline ++ newline ++
           systemPrompt rt args trends)]).
Proof.
  split.
  { intros o1 o2 a1 a2 H1 H2 Hn Hp Hc.
    assert (E : forall traceId, generateViralIdeas a1 traceId = generateViralIdeas a2 traceId).
    { destruct (schema_reads o1 a1 H1) as (N1 & P1 & C1 & _).
      destruct (schema_reads o2 a2 H2) as (N2 & P2 & C2 & _).
      rewrite Hn in N1. rewrite Hp in P1. rewrite Hc in C1.
      intro traceId. apply trend_window_unread; congruence. }
    unfold callTool. simpl (String.eqb _ _). cbv iota. unfold parse.
    rewrite H1, H2. cbv [bind ret lift createTraceId ask try_catch].
    rewrite E. reflexivity. }
  split.
  { intros a1 a2 traceId Hn Hp Hc. now rewrite (trend_window_unread a1 a2 traceId). }
  split.
  { intros o args Hs. destruct (schema_reads o args Hs) as (_ & _ & _ & W).
    split.
    - unfold z_default in W. destruct (prop o "trendWindow"); try discriminate;
        [inversion W; simpl; auto | apply z_enum_In in W; exact W].
    - intro Hu. rewrite Hu in W. simpl in W. now inversion W. }
  intros args traceId key Hkey. cbv zeta.
  exact (ideas_requests rt key args traceId Hkey).
Qed.

End IdeaTheorems.

(** ** Extraction, ranking and buckets: further facts *)

Module ExtractionSpan.
Import ExtractionFacts.

Lemma append_assoc (a b c : string) : (a ++ b) ++ c = a ++ b ++ c.
Proof. induction a as [|x r IH]; simpl; [reflexivity | now rewrite IH]. Qed.

Lemma upto_last_some (close : ascii) (s t : string) :
  upto_last close s = Some t ->
  exists inside after,
    s = t ++ after /\ t = inside ++ String close "" /\ has_char close after = false.
Proof.
  revert t. induction s as [|c r IH]; simpl; intros t H; [discriminate|].
  destruct (upto_last close r) as [u|] eqn:U.
  - inversion H; subst. destruct (IH u eq_refl) as (inside & after & -> & -> & Ha).
    exists (String c inside), after. repeat split. exact Ha.
  - destruct (Ascii.eqb c close) eqn:E; [|discriminate].
    inversion H; subst. apply Ascii.eqb_eq in E. subst c.
    exists "", r. repeat split. now apply upto_last_none.
Qed.

Lemma upto_last_complete (close : ascii) (inside after : string) :
  has_char close after = false ->
  upto_last close (inside ++ String close after) = Some (inside ++ String close "").
Proof.
  intro Ha. induction inside as [|c r IH]; simpl.
  - apply upto_last_none in Ha. rewrite Ha, Ascii.eqb_refl. reflexivity.
  - now rewrite IH.
Qed.

Lemma greedy_match_some (open close : ascii) (text m : string) :
  greedy_match open close text = Some m ->
  exists before inside after,
    text = before ++ m ++ after /\
    m = String open (inside ++ String close "") /\
    has_char open before = false /\ has_char close after = false.
Proof.
  induction text as [|c r IH]; simpl; intro H; [discriminate|].
  destruct (Ascii.eqb c open) eqn:E.
  - apply Ascii.eqb_eq in E. subst c.
    destruct (upto_last close r) as [t|] eqn:U; [|discriminate].
    inversion H; subst.
    destruct (upto_last_some _ _ _ U) as (inside & after & -> & -> & Ha).
    exists "", inside, after. repeat split. exact Ha.
  - destruct (IH H) as (before & inside & after & -> & -> & Hb & Ha).
    exists (String c before), inside, after. repeat split; [|exact Ha].
    simpl. rewrite Ascii.eqb_sym, E. exact Hb.
Qed.

Lemma greedy_match_complete (open close : ascii) (before inside after : string) :
  has_char open before = false -> has_char close after = false ->
  greedy_match open close (before ++ String open (inside ++ String close after))
  = Some (String open (inside ++ String close "")).
Proof.
  intros Hb Ha. induction before as [|c r IH]; simpl.
  - rewrite Ascii.eqb_refl, (upto_last_complete _ _ _ Ha). reflexivity.
  - simpl in Hb. apply orb_false_iff in Hb. destruct Hb as [H1 H2].
    rewrite Ascii.eqb_sym, H1. now apply IH.
Qed.

(** X1: the extraction patterns match from the first opening character to
    the last closing character: [greedy_match] returns [m] exactly when the
    text is [before ++ m ++ after] with [m] starting with the opening and
    ending with the closing character, no opening character in [before]
    and no closing character in [after]. *)
Theorem extraction_spans_first_to_last (open close : ascii) (text m : string) :
  greedy_match open close text = Some m <->
  exists before inside after,
    text = before ++ m ++ after /\
    m = String open (inside ++ String close "") /\
    has_char open before = false /\ has_char close after = false.
Proof.
  split; [apply greedy_match_some|].
  intros (before & inside & after & -> & -> & Hb & Ha).
  simpl. rewrite append_assoc. simpl.
  now apply greedy_match_complete.
Qed.

End ExtractionSpan.

Section Stable.

Context {A : Type} (cmp : A -> A -> float) (key : A -> float) (before : A -> A -> Prop).
Hypothesis cmp_key : forall a b, cmp a b = (key b - key a)%float.

Lemma precedes_rank (a b : A) :
  FloatOrder.nan_free (key a) -> FloatOrder.nan_free (key b) ->
  precedes key before a b -> (FloatOrder.rank (key b) <= FloatOrder.rank (key a))%Z.
Proof.
  intros Ha Hb [H|[H _]].
  - rewrite (FloatFacts.ltb_rank _ _ Hb Ha) in H. apply Z.ltb_lt in H. lia.
  - rewrite (FloatFacts.eqb_rank _ _ Ha Hb) in H. apply Z.eqb_eq in H. lia.
Qed.

Lemma rank_precedes (a b : A) :
  FloatOrder.nan_free (key a) -> FloatOrder.nan_free (key b) ->
  (FloatOrder.rank (key b) <= FloatOrder.rank (key a))%Z -> before a b ->
  precedes key before a b.
Proof.
  intros Ha Hb Hle Hbef.
  destruct (Z.eq_dec (FloatOrder.rank (key a)) (FloatOrder.rank (key b))) as [E|N].
  - right. split; [|exact Hbef].
    rewrite (FloatFacts.eqb_rank _ _ Ha Hb). now apply Z.eqb_eq.
  - left. rewrite (FloatFacts.ltb_rank _ _ Hb Ha). apply Z.ltb_lt. lia.
Qed.

Lemma insert_sorted_stable (x : A) (s : list A) :
  FloatOrder.nan_free (key x) -> Forall (fun a => FloatOrder.nan_free (key a)) s ->
  StronglySorted (precedes key before) s -> Forall (before x) s ->
  StronglySorted (precedes key before) (insert_sorted cmp x s).
Proof.
  intro Hx. induction s as [|y r IH]; simpl; intros Hn Hs Hb.
  - repeat constructor.
  - inversion Hs as [|? ? Hr Hall]; subst. inversion Hb as [|? ? Hxy Hxr]; subst.
    inversion Hn as [|? ? Hy Hnr]; subst.
    rewrite (cmp_negative cmp key cmp_key y x Hy Hx).
    destruct (Z.ltb_spec (FloatOrder.rank (key x)) (FloatOrder.rank (key y))) as [Hlt|Hge].
    + constructor; [now apply IH|].
      eapply Permutation_Forall; [apply Permutation_sym, insert_sorted_perm|].
      constructor; [|exact Hall].
      left. rewrite (FloatFacts.ltb_rank _ _ Hx Hy). now apply Z.ltb_lt.
    + constructor; [exact Hs|]. constructor; [now apply rank_precedes|].
      rewrite Forall_forall in *. intros z Hz.
      specialize (Hall z Hz). specialize (Hnr z Hz). cbv beta in Hnr.
      apply rank_precedes; trivial; [|now apply Hxr].
      apply precedes_rank in Hall; trivial. lia.
Qed.

Lemma js_sort_stable (l : list A) :
  Forall (fun a => FloatOrder.nan_free (key a)) l ->
  StronglySorted before l -> StronglySorted (precedes key before) (js_sort cmp l).
Proof.
  induction l as [|x r IH]; simpl; intros Hn Hs.
  - constructor.
  - inversion Hs as [|? ? Hr Hall]; subst. inversion Hn as [|? ? Hx Hnr]; subst.
    apply insert_sorted_stable; [exact Hx | | now apply IH |].
    + eapply Permutation_Forall; [apply Permutation_sym, js_sort_perm | exact Hnr].
    + eapply Permutation_Forall; [apply Permutation_sym, js_sort_perm | exact Hall].
Qed.
End Stable.

Lemma sorted_map {A B : Type} (f : A -> B) (R : B -> B -> Prop) (l : list A) :
  StronglySorted R (map f l) -> StronglySorted (fun a b => R (f a) (f b)) l.
Proof.
  induction l as [|x r IH]; simpl; intro H; [constructor|].
  inversion H as [|? ? Hr Hall]; subst. constructor; [now apply IH|].
  rewrite Forall_forall in *. intros y Hy. apply Hall. now apply in_map.
Qed.


Module RankingFacts.
Import GrowthOptimizer ScheduleSpec ScheduleFacts RankingSpec.

Lemma hour_before_trans (a b c : Hour) :
  hour_before a b = true -> hour_before b c = true -> hour_before a c = true.
Proof.
  destruct a as [x|], b as [y|], c as [z|]; simpl; try discriminate; try reflexivity.
  rewrite !Nat.ltb_lt. lia.
Qed.

Lemma hour_before_total (a b : Hour) :
  hour_before a b = false -> hour_eqb a b = false -> hour_before b a = true.
Proof.
  destruct a as [x|], b as [y|]; simpl; try discriminate; try reflexivity.
  rewrite Nat.ltb_ge, Nat.eqb_neq, Nat.ltb_lt. lia.
Qed.

Lemma create_keys_In (h : Hour) (b : Bucket) (m : ByHour) (k : Hour) :
  In k (map fst (create h b m)) <-> k = h \/ In k (map fst m).
Proof.
  split; intro H.
  - apply (Permutation_in _ (keys_create h b m)) in H. simpl in H. intuition.
  - apply (Permutation_in _ (Permutation_sym (keys_create h b m))). simpl. intuition.
Qed.

Lemma create_ascending (h : Hour) (b : Bucket) (m : ByHour) :
  lookup h m = None -> keys_ascending (map fst m) ->
  keys_ascending (map fst (create h b m)).
Proof.
  unfold keys_ascending. induction m as [|[k c] r IH]; simpl; intros Hn Hs.
  - repeat constructor.
  - destruct (hour_eqb h k) eqn:E; [discriminate|].
    inversion Hs as [|? ? Hr Hall]; subst.
    destruct (hour_before h k) eqn:Hb; simpl.
    + constructor; [exact Hs|]. constructor; [exact Hb|].
      eapply Forall_impl; [|exact Hall]. intros x Hx. simpl in Hx.
      eapply hour_before_trans; eassumption.
    + constructor; [apply IH; assumption|].
      apply Forall_forall. intros x Hx. apply create_keys_In in Hx.
      destruct Hx as [->|Hx].
      * now apply hour_before_total.
      * rewrite Forall_forall in Hall. now apply Hall.
Qed.

Lemma record_post_ascending (rt : runtime) (m : ByHour) (p : Post) :
  keys_ascending (map fst m) -> keys_ascending (map fst (record_post rt m p)).
Proof.
  intro Hs. unfold record_post. rewrite keys_update.
  destruct (lookup (getHours rt (postTime p)) m) eqn:L; [exact Hs|].
  now apply create_ascending.
Qed.

Lemma performance_ascending (rt : runtime) (history : list Post) :
  keys_ascending (map fst (performanceByHour rt history)).
Proof.
  unfold performanceByHour.
  assert (G : forall l m, keys_ascending (map fst m) ->
                          keys_ascending (map fst (fold_left (record_post rt) l m))).
  { induction l as [|p l IH]; simpl; intros m Hm; [exact Hm|].
    apply IH, record_post_ascending, Hm. }
  apply G. constructor.
Qed.

Lemma bucket_at (rt : runtime) (history : list Post) (h : Hour) :
  lookup h (performanceByHour rt history)
  = match posts_at rt h history with
    | [] => None
    | p :: ps => Some (bucket_of (p :: ps))
    end.
Proof.
  destruct (posts_at rt h history) as [|p ps] eqn:E.
  - now apply bucket_absent.
  - destruct (bucket_of_hour rt history h) as (b & Hb & Hv & He & Hc & _).
    { rewrite E. discriminate. }
    rewrite Hb, E in *. f_equal. destruct b as [v e c]. unfold bucket_of.
    cbn [total_views total_engagement count] in Hv, He, Hc. now subst.
Qed.

Lemma posts_at_skip (rt : runtime) (p : Post) (l : list Post) (keys : list Hour) :
  ~ In (hour_of rt p) keys ->
  flat_map (fun h => posts_at rt h (p :: l)) keys
  = flat_map (fun h => posts_at rt h l) keys.
Proof.
  induction keys as [|k ks IH]; intro Hn; [reflexivity|].
  cbn [flat_map]. rewrite IH by (intro F; apply Hn; now right).
  unfold posts_at at 1. cbn [filter].
  destruct (hour_eqb (hour_of rt p) k) eqn:E; [|reflexivity].
  apply hour_eqb_eq in E. exfalso. apply Hn. now left.
Qed.

Lemma posts_at_take (rt : runtime) (p : Post) (l : list Post) (keys : list Hour) :
  NoDup keys -> In (hour_of rt p) keys ->
  Permutation (flat_map (fun h => posts_at rt h (p :: l)) keys)
              (p :: flat_map (fun h => posts_at rt h l) keys).
Proof.
  induction keys as [|k ks IH]; intros Hnd Hin; [contradiction|].
  inversion Hnd as [|? ? Hk Hks]; subst. cbn [flat_map].
  unfold posts_at at 1. cbn [filter].
  destruct (hour_eqb (hour_of rt p) k) eqn:E.
  - apply hour_eqb_eq in E. subst k. rewrite (posts_at_skip rt p l ks Hk).
    apply Permutation_refl.
  - apply hour_eqb_neq in E. destruct Hin as [Hin|Hin]; [congruence|].
    eapply perm_trans; [apply Permutation_app_head, (IH Hks Hin)|].
    apply Permutation_sym, Permutation_middle.
Qed.

Lemma posts_at_partition (rt : runtime) (l : list Post) (keys : list Hour) :
  NoDup keys -> (forall p, In p l -> In (hour_of rt p) keys) ->
  Permutation (flat_map (fun h => posts_at rt h l) keys) l.
Proof.
  intro Hnd. induction l as [|p l IH]; intro Hcov.
  - replace (flat_map (fun h => posts_at rt h []) keys) with (@nil Post);
      [constructor|].
    clear. induction keys as [|k ks IH]; [reflexivity | exact IH].
  - eapply perm_trans; [apply posts_at_take; [exact Hnd | apply Hcov; now left]|].
    apply perm_skip, IH. intros q Hq. apply Hcov. now right.
Qed.

(** X2: when every mean engagement is a number, the ranking of the
    posting-schedule optimizer breaks ties by hour: of two ranked buckets
    the earlier one has the higher mean engagement, or the same mean
    engagement and the earlier hour of day, the bucket of unparsable
    timestamps coming after every hour. *)
Theorem ranking_breaks_ties_by_hour (rt : runtime) (history : list Post) :
  means_are_numbers (rankedHours rt history) ->
  StronglySorted ranks_before (rankedHours rt history) /\
  keys_ascending (map fst (performanceByHour rt history)).
Proof.
  intro Hn. split; [|apply performance_ascending].
  apply ranked_numbers in Hn. unfold rankedHours, ranks_before.
  apply js_sort_stable.
  - intros a b. reflexivity.
  - exact Hn.
  - apply sorted_map with (f := hour) (R := fun a b => hour_before a b = true).
    rewrite hour_hourStat. apply performance_ascending.
Qed.

Lemma ranking_breaks_ties_by_hour_witness :
  means_are_numbers (rankedHours sample_runtime tied_history) /\
  StronglySorted ranks_before (rankedHours sample_runtime tied_history) /\
  map hour (rankedHours sample_runtime tied_history) = [Some 9; Some 14; Some 8].
Proof.
  assert (Hn : means_are_numbers (rankedHours sample_runtime tied_history)).
  { vm_compute. repeat constructor. }
  split; [exact Hn|]. split; [|reflexivity].
  exact (proj1 (ranking_breaks_ties_by_hour sample_runtime tied_history Hn)).
Defined.

(** X3: the buckets lose and invent nothing: the bucket of an hour holds
    the running sums of the views and of the engagement of the samples
    posted at that hour, taken in their order, and their running count; an
    hour without samples has no bucket; and the samples of all buckets are
    the samples of the history, each of them once. *)
Theorem buckets_conserve_samples (rt : runtime) (history : list Post) :
  (forall h, lookup h (performanceByHour rt history)
             = match posts_at rt h history with
               | [] => None
               | p :: ps => Some (bucket_of (p :: ps))
               end) /\
  Permutation (bucketed rt history) history.
Proof.
  split; [intro h; apply bucket_at|].
  unfold bucketed. apply posts_at_partition; [apply keys_NoDup|].
  intros p Hp. apply keys_performance. now apply in_map.
Qed.

End RankingFacts.

(** ** The tool registries and the dispatchers *)

Module RegistryTheorems.
Import Registry.

(** Unfolding of the effect layer of a dispatcher. *)
Ltac run :=
  cbv [bind ret throw emit ask lift logWithTrace try_catch createTraceId parse].

Ltac dispatch :=
  cbv [IdeaGenerator.callTool ScriptToVideo.callTool GrowthOptimizer.callTool].

Ltac schemas :=
  cbv [IdeaGenerator.GenerateIdeasArgsSchema IdeaGenerator.AnalyzeTrendsArgsSchema
       IdeaGenerator.PredictViralityArgsSchema
       ScriptToVideo.GenerateScriptArgsSchema ScriptToVideo.GenerateStoryboardArgsSchema
       ScriptToVideo.GenerateVoiceoverArgsSchema ScriptToVideo.ExportProjectArgsSchema
       GrowthOptimizer.OptimizeSEOArgsSchema GrowthOptimizer.GenerateThumbnailArgsSchema
       GrowthOptimizer.OptimizeScheduleArgsSchema GrowthOptimizer.RepurposeContentArgsSchema
       GrowthOptimizer.RunABTestArgsSchema args_object ap pure field].

Lemma not_in_cons (x a : string) (l : list string) :
  ~ In x (a :: l) -> String.eqb x a = false /\ ~ In x l.
Proof.
  intros H. split.
  - apply String.eqb_neq. intros ->. apply H. now left.
  - intros Hin. apply H. now right.
Qed.

Ltac split_names H :=
  repeat match type of H with
         | ~ In _ (_ :: _) =>
             let E := fresh "E" in
             apply not_in_cons in H; destruct H as [E H]
         end.

(** X4. A dispatcher answers [Unknown tool: <name>], as an error envelope
    and without touching anything outside the process, exactly for the
    names that its own registry does not list: every listed tool is
    dispatched, and no unlisted name is. *)
Theorem unknown_tool_iff_unregistered (s : server) (tool : string) :
  In s servers ->
  ((forall arguments rt, refused rt ("Unknown tool: " ++ tool) (call s tool arguments rt))
   <-> ~ In tool (map name (tools s))).
Proof.
  intros [<-|[<-|[<-|[]]]]; cbn [tools call ideaServer scriptServer growthServer];
    (split;
     [ intros H Hin; vm_compute in Hin;
       repeat (destruct Hin as [<-|Hin];
               [ destruct (H JUndefined sample_runtime) as [F _];
                 vm_compute in F; discriminate |]);
       exact Hin
     | intros Hn arguments rt;
       cbn [map name IDEA_GENERATOR_TOOLS SCRIPT_TO_VIDEO_TOOLS GROWTH_OPTIMIZER_TOOLS] in Hn;
       split_names Hn; unfold refused; dispatch;
       repeat match goal with
              | E : String.eqb tool _ = false |- _ => rewrite E; clear E
              end;
       run; split; reflexivity ]).
Qed.

Lemma unknown_tool_iff_unregistered_witness :
  In ideaServer servers /\
  refused sample_runtime "Unknown tool: delete_everything"
    (call ideaServer "delete_everything" JNull sample_runtime).
Proof.
  split; [now left|].
  apply (proj2 (unknown_tool_iff_unregistered ideaServer "delete_everything"
                  (or_introl eq_refl))).
  cbn [map name tools ideaServer IDEA_GENERATOR_TOOLS].
  intros [H|[H|[H|[]]]]; discriminate.
Defined.

(** A call of a listed tool with an argument object that lacks the key
    read by [H]. *)
Ltac refuse_missing o H :=
  dispatch; run; simpl (String.eqb _ _); cbv iota; schemas;
  rewrite H;
  match goal with
  | |- context [match ?p JUndefined with Some _ => _ | None => _ end] =>
      let v := eval vm_compute in (p JUndefined) in
      change (p JUndefined) with v
  end;
  repeat match goal with
         | |- context [match ?p (prop o ?k) with Some _ => _ | None => _ end] =>
             destruct (p (prop o k))
         end;
  cbn [fst snd app];
  eexists; split; reflexivity.

(** X5. Every field that a tool descriptor lists under [required] is
    required by the validator of that tool: a call whose argument object
    lacks such a field is answered by an error envelope, and nothing outside
    the process is touched. *)
Theorem required_fields_are_enforced (s : server) (t : Tool) (k : string)
    (o : list (string * jsval)) (rt : runtime) :
  In s servers -> In t (tools s) -> In k (required_fields t) ->
  prop o k = JUndefined ->
  exists message, refused rt message (call s (name t) (JObj o) rt).
Proof.
  intros Hs Ht Hk Hu. unfold refused.
  destruct Hs as [<-|[<-|[<-|[]]]];
    cbn [tools call ideaServer scriptServer growthServer] in *;
    unfold IDEA_GENERATOR_TOOLS, SCRIPT_TO_VIDEO_TOOLS, GROWTH_OPTIMIZER_TOOLS in Ht;
    repeat (destruct Ht as [<-|Ht];
            [ vm_compute in Hk;
              repeat (destruct Hk as [<-|Hk]; [cbn [name]; refuse_missing o Hu|]);
              contradiction |]);
    contradiction.
Qed.

Lemma required_fields_are_enforced_witness :
  exists message,
    refused sample_runtime message
      (call ideaServer "generate_viral_ideas"
         (JObj [("niche", JStr "cooking"); ("platform", JStr "tiktok")])
         sample_runtime).
Proof.
  apply (required_fields_are_enforced ideaServer
           (nth 0 IDEA_GENERATOR_TOOLS
              {| name := EmptyString; description := EmptyString; inputSchema := JNull |})
           "count").
  - now left.
  - now left.
  - vm_compute. right. right. now left.
  - reflexivity.
Defined.

(** The validator reads the same arguments with or without the entry. *)
Ltac same_arguments Hu :=
  dispatch; simpl (String.eqb _ _); cbv iota;
  match goal with
  | |- context [parse ?n ?schema (JObj ((?k, ?d) :: ?o))] =>
      let E := fresh "E" in
      assert (E : schema (JObj ((k, d) :: o)) = schema (JObj o))
        by (unfold schema; cbv [args_object field]; cbn [prop assoc];
            simpl (String.eqb _ _); cbv iota; fold (prop o); rewrite ?Hu; reflexivity);
      unfold parse; rewrite E; reflexivity
  end.

(** X6. Every [default] that a tool descriptor declares is the default of
    the validator: a call that omits the argument runs exactly as the call
    that passes the declared default, reply and events alike. *)
Theorem omitted_argument_takes_declared_default (s : server) (t : Tool)
    (k : string) (d : jsval) (o : list (string * jsval)) (rt : runtime) :
  In s servers -> In t (tools s) -> In (k, d) (declared_defaults t) ->
  prop o k = JUndefined ->
  call s (name t) (JObj ((k, d) :: o)) rt = call s (name t) (JObj o) rt.
Proof.
  intros Hs Ht Hk Hu.
  destruct Hs as [<-|[<-|[<-|[]]]];
    cbn [tools call ideaServer scriptServer growthServer] in *;
    unfold IDEA_GENERATOR_TOOLS, SCRIPT_TO_VIDEO_TOOLS, GROWTH_OPTIMIZER_TOOLS in Ht;
    repeat (destruct Ht as [<-|Ht];
            [ vm_compute in Hk;
              repeat (destruct Hk as [Hk|Hk];
                      [injection Hk as <- <-; cbn [name]; same_arguments Hu|]);
              contradiction |]);
    contradiction.
Qed.

Lemma omitted_argument_takes_declared_default_witness :
  call growthServer "run_ab_test"
    (JObj [("variants", JInt 3); ("element", JStr "title");
           ("original", JStr "Sourdough in a day"); ("platform", JStr "youtube")])
    sample_runtime
  = call growthServer "run_ab_test"
      (JObj [("element", JStr "title"); ("original", JStr "Sourdough in a day");
             ("platform", JStr "youtube")])
      sample_runtime /\
  GrowthOptimizer.RunABTestArgsSchema
    (JObj [("element", JStr "title"); ("original", JStr "Sourdough in a day");
           ("platform", JStr "youtube")])
  = inr {| GrowthOptimizer.ab_element := "title";
           GrowthOptimizer.ab_original := "Sourdough in a day";
           GrowthOptimizer.ab_variants := 3;
           GrowthOptimizer.ab_platform := "youtube" |} /\
  fst (call growthServer "run_ab_test"
         (JObj [("element", JStr "title"); ("original", JStr "Sourdough in a day");
                ("platform", JStr "youtube")])
         sample_runtime)
  = inr (success (JObj [("variants", JArr [])])).
Proof.
  split; [|split; reflexivity].
  apply (omitted_argument_takes_declared_default growthServer
           (nth 4 GROWTH_OPTIMIZER_TOOLS
              {| name := EmptyString; description := EmptyString; inputSchema := JNull |})
           "variants" (JInt 3)).
  - right. right. now left.
  - do 4 right. now left.
  - vm_compute. now left.
  - reflexivity.
Defined.

Lemma bind_ask {A B : Type} (f : runtime -> A) (k : A -> M B) (rt : runtime) :
  bind (ask f) k rt = k (f rt) rt.
Proof. cbv [bind ask]. destruct (k (f rt) rt); reflexivity. Qed.

Lemma pipeline_outcome {A B : Type} (parsed : M A) (handler : A -> M B)
    (reply : B -> envelope) (rt : runtime) :
  (forall result, exists d, reply result = success d) ->
  let out := (bind parsed (fun args => bind (handler args)
                 (fun result => ret (reply result)))) rt in
  (exists e, fst out = inl e) \/ (exists d, fst out = inr (success d)).
Proof.
  intros Hreply.
  cbv [bind ret]. destruct (parsed rt) as [[e|a] t]; [left; eexists; reflexivity|].
  destruct (handler a rt) as [[e|b] u]; cbn; [left; eexists; reflexivity|right].
  destruct (Hreply b) as [d ->]. eexists; reflexivity.
Qed.

Lemma catch_all (body : M envelope) (rt : runtime) :
  ((exists e, fst (body rt) = inl e) \/ (exists d, fst (body rt) = inr (success d))) ->
  let out := try_catch body
               (fun error =>
                  bind (logWithTrace (trace_id rt) "error" "Tool execution failed"
                          [("error", err_js error)])
                       (fun _ => ret (failure error (trace_id rt)))) rt in
  (exists doc, fst out = inr (success doc)) \/
  (exists message before,
      fst out = inr (error_envelope rt message) /\
      snd out = (before ++ [Log (trace_id rt) "error" "Tool execution failed"
                              [("error", JStr message)]])%list).
Proof.
  cbv [try_catch bind logWithTrace emit ret].
  destruct (body rt) as [[e|v] t]; cbn [fst snd]; intros [[e' H]|[d H]];
    try discriminate.
  - right. exists (exn_message e), t. split; reflexivity.
  - left. exists d. exact H.
Qed.

(** X7. A dispatcher never throws, whatever the tool name, the arguments
    and the answers of the outside world: it replies either with a success
    envelope or with the error envelope of some message under the trace id
    of the call, and in the second case the last thing it did was to log
    that message as [Tool execution failed] under the same trace id. *)
Theorem dispatcher_always_replies (s : server) (tool : string) (arguments : jsval)
    (rt : runtime) :
  In s servers ->
  let out := call s tool arguments rt in
  (exists doc, fst out = inr (success doc)) \/
  (exists message before,
      fst out = inr (error_envelope rt message) /\
      snd out = (before ++ [Log (trace_id rt) "error" "Tool execution failed"
                              [("error", JStr message)]])%list).
Proof.
  intros [<-|[<-|[<-|[]]]]; cbn [call ideaServer scriptServer growthServer];
    dispatch; unfold createTraceId; rewrite bind_ask; apply catch_all;
    repeat match goal with
           | |- context [if String.eqb tool ?n then _ else _] =>
               destruct (String.eqb tool n)
           end;
    first [ apply pipeline_outcome; intros; eexists; reflexivity
          | left; eexists; reflexivity ].
Qed.

Lemma dispatcher_always_replies_witness :
  let out := call scriptServer "generate_video_script" JNull sample_runtime in
  (exists doc, fst out = inr (success doc)) \/
  (exists message before,
      fst out = inr (error_envelope sample_runtime message) /\
      snd out = (before ++ [Log (trace_id sample_runtime) "error" "Tool execution failed"
                              [("error", JStr message)]])%list).
Proof.
  apply (dispatcher_always_replies scriptServer "generate_video_script" JNull
           sample_runtime).
  right. now left.
Defined.

End RegistryTheorems.

(** ** Running a tool call *)

Module CallFacts.
Import PayloadSpec.

(** Unfolding of the effect layer, down to the runtime's answers. *)
Ltac run :=
  cbv [bind ret throw emit ask lift getenv logWithTrace geminiGenerate jsonParse
       try_catch axiosPost axiosGet writeFileSync createTraceId parse].

(** Entering the handler of a call whose arguments the schema accepts. *)
Ltac enter Hs :=
  cbv [IdeaGenerator.callTool ScriptToVideo.callTool GrowthOptimizer.callTool];
  run; simpl (String.eqb _ _); cbv iota; rewrite Hs; cbv beta iota.

Lemma key_is_truthy (rt : runtime) (credential key : string) :
  has_credential rt credential key ->
  env rt credential = Some key /\ negb (truthy_str (Some key)) = false.
Proof.
  intros [He Hk]. split; [exact He|]. simpl.
  apply String.eqb_neq in Hk. now rewrite Hk.
Qed.

(** Passing the credential check of a handler. *)
Ltac keyed Hkey :=
  let He := fresh "He" in
  let Ht := fresh "Ht" in
  destruct (key_is_truthy _ _ _ Hkey) as [He Ht];
  rewrite He, Ht; cbv beta iota.

Lemma accepted_inr {A : Type} (schema : jsval -> issues + A) (v : jsval) :
  accepted schema v = true -> exists args, schema v = inr args.
Proof. unfold accepted. destruct (schema v) as [e|a]; [discriminate|]. now exists a. Qed.

Lemma enum_value (allowed : list string) (v : jsval) (s : string) :
  z_enum allowed v = Some s -> v = JStr s /\ In s allowed.
Proof.
  unfold z_enum. destruct v; try discriminate.
  destruct (includes s0 allowed) eqn:E; [|discriminate].
  intro H. inversion H; subst. split; [reflexivity | now apply includes_In].
Qed.

Lemma canned_credential (text : string) (parsed : exn + jsval) :
  has_credential (canned_runtime text parsed) "GEMINI_API_KEY" "key-for-GEMINI_API_KEY".
Proof. split; [reflexivity | discriminate]. Qed.

End CallFacts.

(** ** The trend scraper and the trend report *)

Module ReportTheorems.
Import IdeaGenerator TrendSpec TrendFacts ReportSpec.

Lemma requested_same (p q : list string) :
  same_sources p q -> requested p = requested q.
Proof.
  intro H. unfold requested. apply filter_ext_in. intros s Hs.
  specialize (H s Hs).
  destruct (includes s p) eqn:Ep, (includes s q) eqn:Eq; try reflexivity.
  - apply includes_In in Ep. apply H in Ep. apply includes_In in Ep. congruence.
  - apply includes_In in Eq. apply H in Eq. apply includes_In in Eq. congruence.
Qed.

(** X8. The scraper reads of its platform list only which of the four
    sources it names: two lists that name the same sources (in any order,
    with any repetitions, with any other names besides) give the same
    topics and the same requests and log lines, the sources being visited
    in the scraper's own order. *)
Theorem scraper_reads_membership_only (rt : runtime) (niche traceId : string)
    (p q : list string) :
  same_sources p q ->
  scrapeTrendingTopics niche p traceId rt = scrapeTrendingTopics niche q traceId rt.
Proof.
  intro H. rewrite !scrape_run. unfold all_pushed. now rewrite (requested_same p q H).
Qed.

Lemma scraper_reads_membership_only_witness :
  scrapeTrendingTopics "cooking" ["reddit"; "tiktok"; "youtube"; "reddit"] "t-1"
    sample_runtime
  = scrapeTrendingTopics "cooking" ["youtube"; "reddit"] "t-1" sample_runtime.
Proof.
  apply (scraper_reads_membership_only sample_runtime "cooking" "t-1"
           ["reddit"; "tiktok"; "youtube"; "reddit"] ["youtube"; "reddit"]).
  intros s Hs. simpl in Hs.
  destruct Hs as [<-|[<-|[<-|[<-|[]]]]]; simpl; split; intros H;
    repeat (destruct H as [H|H]; [try discriminate H; auto|]); try contradiction.
Defined.

(** X9. A platform list without [youtube] and [reddit] costs no request
    and leaves no log line, and its topics do not depend on the outside
    world: they are the same under every runtime. *)
Theorem offline_sources_need_no_network (rt rt' : runtime) (niche traceId : string)
    (platforms : list string) :
  offline platforms ->
  snd (scrapeTrendingTopics niche platforms traceId rt) = [] /\
  scrapeTrendingTopics niche platforms traceId rt
  = scrapeTrendingTopics niche platforms traceId rt'.
Proof.
  intros [Hy Hr]. rewrite !scrape_run. cbn [snd]. unfold all_pushed, requested, sources.
  cbn [filter].
  destruct (includes "youtube" platforms) eqn:Ey; [apply includes_In in Ey; contradiction|].
  destruct (includes "reddit" platforms) eqn:Er; [apply includes_In in Er; contradiction|].
  destruct (includes "twitter" platforms), (includes "google-trends" platforms);
    split; reflexivity.
Qed.

Lemma offline_sources_need_no_network_witness :
  snd (scrapeTrendingTopics "cooking" ["twitter"; "tiktok"] "t-1" sample_runtime) = [].
Proof.
  apply (offline_sources_need_no_network sample_runtime sample_runtime "cooking" "t-1"
           ["twitter"; "tiktok"]).
  split; simpl; intros [H|[H|[]]]; discriminate.
Defined.

Lemma trendRows_topics (rt : runtime) (trends : list string) (i : nat) :
  map topic_of (trendRows rt i trends) = map JStr trends.
Proof.
  revert i. induction trends as [|t r IH]; intro i; [reflexivity|].
  cbn [trendRows map]. now rewrite IH.
Qed.

Lemma trendRows_in_range (rt : runtime) (trends : list string) (i : nat) :
  unit_draws rt -> Forall row_in_range (trendRows rt i trends).
Proof.
  intro Hd. revert i. induction trends as [|t r IH]; intro i; constructor.
  - unfold row_in_range, integer_between, random_int. cbn [member_opt member prop assoc].
    simpl (String.eqb _ _). cbv iota. split.
    + destruct (Hd i) as [H0 H1].
      destruct (RoundingFacts.volume_of_draw (random rt i) H0 H1) as (z & Hz & ->).
      exists z. split; [reflexivity | exact Hz].
    + destruct (Hd (S i)) as [H0 H1].
      destruct (RoundingFacts.growth_of_draw (random rt (S i)) H0 H1) as (z & Hz & ->).
      exists z. split; [reflexivity | exact Hz].
  - apply IH.
Qed.

(** X10. With draws of [Math.random()] in [[0, 1)], a trend analysis never
    fails and adds nothing to what the scraper did: its report has one row
    per scraped topic, in the scraper's order, every [volume] an integer
    from 10000 to 109999 and every [growth] an integer from -50 to 49, the
    products, floors, sum and difference being those of double arithmetic,
    and [topTrends] holds the first ten topics. *)
Theorem trend_report_within_bounds (rt : runtime) (args : AnalyzeTrendsArgs)
    (traceId : string) :
  unit_draws rt ->
  exists doc rows topics,
    fst (scrapeTrendingTopics (at_niche args) (at_platforms args) traceId rt)
    = inr topics /\
    analyzeTrends args traceId rt
    = (inr doc,
       snd (scrapeTrendingTopics (at_niche args) (at_platforms args) traceId rt)) /\
    member_opt doc "trends" = JArr rows /\
    map topic_of rows = map JStr topics /\
    Forall row_in_range rows /\
    member_opt doc "topTrends" = strs (firstn 10 topics).
Proof.
  intro Hd. unfold analyzeTrends. cbv [bind ask ret].
  rewrite scrape_run. cbn [fst snd].
  eexists. eexists. eexists. split; [reflexivity|].
  split; [now rewrite !app_nil_r|].
  split; [reflexivity|].
  split; [apply trendRows_topics|].
  split; [now apply trendRows_in_range | reflexivity].
Qed.

Lemma trend_report_within_bounds_witness :
  exists doc rows,
    fst (analyzeTrends sample_trend_args "t-1" sample_runtime) = inr doc /\
    member_opt doc "trends" = JArr rows /\
    Forall row_in_range rows.
Proof.
  destruct (trend_report_within_bounds sample_runtime sample_trend_args "t-1")
    as (doc & rows & topics & _ & Hrun & Hrows & _ & Hrange & _).
  - intro i. split; reflexivity.
  - exists doc, rows. rewrite Hrun. auto.
Defined.

End ReportTheorems.

(** ** What the generative handlers make of the provider's JSON *)

Module PayloadFacts.
Import PayloadSpec CallFacts.

Section Malformed.
Variables (rt : runtime) (key text : string) (eo ea : exn).
Hypothesis Hkey : has_credential rt "GEMINI_API_KEY" key.
Hypothesis Hp : provider_answers rt text.
Hypothesis Hobj : unparsable rt "{" "}" text eo.
Hypothesis Harr : unparsable rt "[" "]" text ea.

Ltac fails_with H :=
  let m := fresh "m" in
  let Hm := fresh "Hm" in
  let Hj := fresh "Hj" in
  destruct H as (m & Hm & Hj);
  unfold match_object, match_array; rewrite Hp, Hm, Hj; reflexivity.

Lemma ideas_malformed arguments args :
  IdeaGenerator.GenerateIdeasArgsSchema arguments = inr args ->
  fst (IdeaGenerator.callTool "generate_viral_ideas" arguments rt)
  = inr (error_envelope rt (exn_message ea)).
Proof.
  intro Hs. enter Hs. unfold IdeaGenerator.generateViralIdeas. run. keyed Hkey.
  rewrite TrendFacts.scrape_run. fails_with Harr.
Qed.

Lemma virality_malformed arguments args :
  IdeaGenerator.PredictViralityArgsSchema arguments = inr args ->
  fst (IdeaGenerator.callTool "predict_virality" arguments rt)
  = inr (error_envelope rt (exn_message eo)).
Proof.
  intro Hs. enter Hs. unfold IdeaGenerator.predictVirality. run. keyed Hkey.
  fails_with Hobj.
Qed.

Lemma script_malformed arguments args :
  ScriptToVideo.GenerateScriptArgsSchema arguments = inr args ->
  fst (ScriptToVideo.callTool "generate_video_script" arguments rt)
  = inr (error_envelope rt (exn_message eo)).
Proof.
  intro Hs. destruct (GenerativeFacts.script_schema_platform _ _ Hs) as (spec & Hspec).
  enter Hs. unfold ScriptToVideo.generateVideoScript. run. keyed Hkey.
  rewrite Hspec. fails_with Hobj.
Qed.

Lemma storyboard_malformed arguments args :
  ScriptToVideo.GenerateStoryboardArgsSchema arguments = inr args ->
  fst (ScriptToVideo.callTool "generate_storyboard" arguments rt)
  = inr (error_envelope rt (exn_message eo)).
Proof.
  intro Hs. enter Hs. unfold ScriptToVideo.generateStoryboard. run. keyed Hkey.
  fails_with Hobj.
Qed.

Lemma seo_malformed arguments args :
  GrowthOptimizer.OptimizeSEOArgsSchema arguments = inr args ->
  fst (GrowthOptimizer.callTool "optimize_seo" arguments rt)
  = inr (error_envelope rt (exn_message eo)).
Proof.
  intro Hs. destruct (GenerativeFacts.seo_schema_platform _ _ Hs) as (rules & Hr).
  enter Hs. unfold GrowthOptimizer.optimizeSEO. run. keyed Hkey.
  rewrite Hr. fails_with Hobj.
Qed.

Lemma thumbnails_malformed arguments args :
  GrowthOptimizer.GenerateThumbnailArgsSchema arguments = inr args ->
  fst (GrowthOptimizer.callTool "generate_thumbnail_concepts" arguments rt)
  = inr (error_envelope rt (exn_message ea)).
Proof.
  intro Hs. enter Hs. unfold GrowthOptimizer.generateThumbnailConcepts. run. keyed Hkey.
  fails_with Harr.
Qed.

Lemma repurpose_malformed arguments args :
  GrowthOptimizer.RepurposeContentArgsSchema arguments = inr args ->
  fst (GrowthOptimizer.callTool "repurpose_content" arguments rt)
  = inr (error_envelope rt (exn_message eo)).
Proof.
  intro Hs. enter Hs. unfold GrowthOptimizer.repurposeContent. run. keyed Hkey.
  fails_with Hobj.
Qed.

Lemma abtest_malformed arguments args :
  GrowthOptimizer.RunABTestArgsSchema arguments = inr args ->
  fst (GrowthOptimizer.callTool "run_ab_test" arguments rt)
  = inr (error_envelope rt (exn_message eo)).
Proof.
  intro Hs. enter Hs. unfold GrowthOptimizer.runABTest. run. keyed Hkey.
  fails_with Hobj.
Qed.

End Malformed.

Section Verbatim.
Variables (rt : runtime) (key text : string) (o : list (string * jsval)).
Hypothesis Hkey : has_credential rt "GEMINI_API_KEY" key.
Hypothesis Hp : provider_answers rt text.
Hypothesis Hobj : parses_to rt "{" "}" text (JObj o).

Ltac parsed :=
  let m := fresh "m" in
  let Hm := fresh "Hm" in
  let Hj := fresh "Hj" in
  destruct Hobj as (m & Hm & Hj);
  unfold match_object; rewrite Hp, Hm, Hj; reflexivity.

Lemma virality_verbatim arguments args :
  IdeaGenerator.PredictViralityArgsSchema arguments = inr args ->
  answers (IdeaGenerator.callTool "predict_virality" arguments rt) (JObj o).
Proof.
  intro Hs. unfold answers. enter Hs. unfold IdeaGenerator.predictVirality. run.
  keyed Hkey. parsed.
Qed.

Lemma script_verbatim arguments args :
  ScriptToVideo.GenerateScriptArgsSchema arguments = inr args ->
  answers (ScriptToVideo.callTool "generate_video_script" arguments rt) (JObj o).
Proof.
  intro Hs. destruct (GenerativeFacts.script_schema_platform _ _ Hs) as (spec & Hspec).
  unfold answers. enter Hs. unfold ScriptToVideo.generateVideoScript. run. keyed Hkey.
  rewrite Hspec. parsed.
Qed.

Lemma storyboard_verbatim arguments args :
  ScriptToVideo.GenerateStoryboardArgsSchema arguments = inr args ->
  answers (ScriptToVideo.callTool "generate_storyboard" arguments rt) (JObj o).
Proof.
  intro Hs. unfold answers. enter Hs. unfold ScriptToVideo.generateStoryboard. run.
  keyed Hkey. parsed.
Qed.

Lemma seo_verbatim arguments args :
  GrowthOptimizer.OptimizeSEOArgsSchema arguments = inr args ->
  answers (GrowthOptimizer.callTool "optimize_seo" arguments rt) (JObj o).
Proof.
  intro Hs. destruct (GenerativeFacts.seo_schema_platform _ _ Hs) as (rules & Hr).
  unfold answers. enter Hs. unfold GrowthOptimizer.optimizeSEO. run. keyed Hkey.
  rewrite Hr. parsed.
Qed.

Lemma abtest_verbatim arguments args :
  GrowthOptimizer.RunABTestArgsSchema arguments = inr args ->
  answers (GrowthOptimizer.callTool "run_ab_test" arguments rt) (JObj o).
Proof.
  intro Hs. unfold answers. enter Hs. unfold GrowthOptimizer.runABTest. run.
  keyed Hkey. parsed.
Qed.

End Verbatim.

End PayloadFacts.

Module PayloadTheorems.
Import PayloadSpec CallFacts PayloadFacts.

(** X11. The lenient defaults do not cover malformed JSON: in each of the
    eight generative tools, when the provider text has a span that the
    tool's pattern matches and [JSON.parse] rejects, the call is answered
    by the error envelope that carries the parser's message. *)
Theorem malformed_json_is_reported (t : generative_tool) (rt : runtime)
    (key text : string) (e : exn) (arguments : jsval) :
  In t generative_tools ->
  has_credential rt "GEMINI_API_KEY" key ->
  provider_answers rt text ->
  g_accepts t arguments = true ->
  unparsable rt (g_open t) (g_close t) text e ->
  fst (g_call t arguments rt) = inr (error_envelope rt (exn_message e)).
Proof.
  intros Ht Hkey Hp Ha Hu.
  repeat (destruct Ht as [<-|Ht];
          [ apply accepted_inr in Ha; destruct Ha as (args & Hs);
            cbn [g_call g_open g_close ideas_tool virality_tool script_tool storyboard_tool
                 seo_tool thumbnail_tool repurpose_tool abtest_tool] in *;
            first [ eapply ideas_malformed; eassumption
                  | eapply virality_malformed; eassumption
                  | eapply script_malformed; eassumption
                  | eapply storyboard_malformed; eassumption
                  | eapply seo_malformed; eassumption
                  | eapply thumbnails_malformed; eassumption
                  | eapply repurpose_malformed; eassumption
                  | eapply abtest_malformed; eassumption ] |]).
  contradiction.
Qed.

Lemma malformed_json_is_reported_witness :
  fst (g_call storyboard_tool sample_storyboard_arguments
         (canned_runtime garbled_text (inl (SyntaxError "Unexpected token t in JSON"))))
  = inr (error_envelope
           (canned_runtime garbled_text (inl (SyntaxError "Unexpected token t in JSON")))
           "Unexpected token t in JSON").
Proof.
  apply (malformed_json_is_reported storyboard_tool _ "key-for-GEMINI_API_KEY"
           garbled_text (SyntaxError "Unexpected token t in JSON")).
  - do 3 right. now left.
  - apply canned_credential.
  - intro prompt. reflexivity.
  - reflexivity.
  - eexists. split; reflexivity.
Defined.

(** X12. Five tools return the provider's object as it is: whatever object
    the matched span parses to becomes the document of the success
    envelope of [predict_virality], [generate_video_script],
    [generate_storyboard], [optimize_seo] and [run_ab_test], no field of it
    being required, checked or bounded. *)
Theorem provider_object_is_returned_unchecked (t : generative_tool) (rt : runtime)
    (key text : string) (o : list (string * jsval)) (arguments : jsval) :
  In t verbatim_tools ->
  has_credential rt "GEMINI_API_KEY" key ->
  provider_answers rt text ->
  g_accepts t arguments = true ->
  parses_to rt "{" "}" text (JObj o) ->
  answers (g_call t arguments rt) (JObj o).
Proof.
  intros Ht Hkey Hp Ha Hu.
  repeat (destruct Ht as [<-|Ht];
          [ apply accepted_inr in Ha; destruct Ha as (args & Hs);
            cbn [g_call g_open g_close virality_tool script_tool storyboard_tool
                 seo_tool abtest_tool] in *;
            first [ eapply virality_verbatim; eassumption
                  | eapply script_verbatim; eassumption
                  | eapply storyboard_verbatim; eassumption
                  | eapply seo_verbatim; eassumption
                  | eapply abtest_verbatim; eassumption ] |]).
  contradiction.
Qed.

Lemma provider_object_is_returned_unchecked_witness :
  answers (g_call virality_tool sample_virality_arguments
             (canned_runtime "{score}" (inr (JObj [("overallScore", JInt 4200)]))))
          (JObj [("overallScore", JInt 4200)]).
Proof.
  apply (provider_object_is_returned_unchecked virality_tool _ "key-for-GEMINI_API_KEY"
           "{score}").
  - now left.
  - apply canned_credential.
  - intro prompt. reflexivity.
  - reflexivity.
  - eexists. split; reflexivity.
Defined.

(** X13. [repurpose_content] reads [clips.length] of the provider's object
    without a guard: when the object has no [clips], the call is answered
    by the error envelope of the [TypeError], not by the object and not by
    the default. *)
Theorem repurposed_clips_are_dereferenced (rt : runtime) (key text : string)
    (o : list (string * jsval)) (arguments : jsval) :
  has_credential rt "GEMINI_API_KEY" key ->
  provider_answers rt text ->
  g_accepts repurpose_tool arguments = true ->
  parses_to rt "{" "}" text (JObj o) ->
  prop o "clips" = JUndefined ->
  fst (g_call repurpose_tool arguments rt)
  = inr (error_envelope rt "Cannot read properties of undefined (reading 'length')").
Proof.
  intros Hkey Hp Ha (m & Hm & Hj) Hc.
  apply accepted_inr in Ha. destruct Ha as (args & Hs).
  cbn [g_call repurpose_tool]. enter Hs. unfold GrowthOptimizer.repurposeContent. run.
  keyed Hkey. unfold match_object. rewrite Hp, Hm, Hj. cbn [member].
  rewrite Hc. reflexivity.
Qed.

Lemma repurposed_clips_are_dereferenced_witness :
  fst (g_call repurpose_tool sample_repurpose_arguments
         (canned_runtime "{plan}" (inr (JObj [("totalClips", JInt 0)]))))
  = inr (error_envelope (canned_runtime "{plan}" (inr (JObj [("totalClips", JInt 0)])))
           "Cannot read properties of undefined (reading 'length')").
Proof.
  apply (repurposed_clips_are_dereferenced _ "key-for-GEMINI_API_KEY" "{plan}"
           [("totalClips", JInt 0)]).
  - apply canned_credential.
  - intro prompt. reflexivity.
  - reflexivity.
  - eexists. split; reflexivity.
  - reflexivity.
Defined.

End PayloadTheorems.

(** ** Voiceovers and exports *)

Module MediaTheorems.
Import ScriptToVideo MediaSpec CallFacts.

(** X14. A voiceover whose provider answers is written where the reply
    says: with accepted arguments, the credential of the chosen provider
    and an answer [audio] to the text-to-speech request, the only things
    the call does outside the process are that request (the ElevenLabs key
    sent as it is, the HuggingFace key as a bearer token) and then one
    write of [audio] to [/tmp/voiceover-<traceId>.<format>].  When the
    write goes through the call succeeds and the reply reports that path,
    the provider, and a duration of one second per fifteen UTF-16 code
    units of script, rounded down; when the write fails the call is
    answered by the error envelope of that failure. *)
Theorem voiceover_is_written_where_reported (rt : runtime) (arguments : jsval)
    (args : GenerateVoiceoverArgs) (key audio : string) :
  GenerateVoiceoverArgsSchema arguments = inr args ->
  has_credential rt (tts_credential args) key ->
  axios_post rt (tts_url args) (tts_body args) = inr audio ->
  let out := callTool "generate_voiceover" arguments rt in
  effects (snd out)
  = [HttpPost (tts_url args) (tts_body args) (tts_header args key);
     WriteFile (voiceover_path rt args) audio] /\
  match fs_writeFileSync rt (voiceover_path rt args) audio with
  | inr _ =>
      exists doc,
        fst out = inr (success doc) /\
        member_opt doc "audioPath" = JStr (voiceover_path rt args) /\
        member_opt doc "provider" = JStr (vo_provider args) /\
        member_opt doc "duration" = JNat (js_length (vo_script args) / 15)
  | inl e => fst out = inr (error_envelope rt (exn_message e))
  end.
Proof.
  intros Hs Hkey Hpost.
  destruct (key_is_truthy _ _ _ Hkey) as [He Ht].
  unfold tts_credential, tts_url, tts_body, tts_header, voiceover_path, trace_id in *.
  assert (Hprov : vo_provider args = "elevenlabs" \/ vo_provider args = "huggingface").
  { revert Hs. unfold GenerateVoiceoverArgsSchema, args_object, ap, pure, field.
    destruct arguments as [| | | | | |o]; try discriminate.
    destruct (z_string (prop o "script")); [|cbn [fst snd app]; discriminate].
    destruct (z_default _ _ (prop o "voice")); [|cbn [fst snd app]; discriminate].
    destruct (z_default _ _ (prop o "provider")) as [p|] eqn:Ep;
      [|cbn [fst snd app]; discriminate].
    destruct (z_default _ _ (prop o "format")); [|cbn [fst snd app]; discriminate].
    cbn [fst snd app]. intro H. inversion H; subst; clear H. cbn [vo_provider].
    unfold z_default in Ep. destruct (prop o "provider"); try discriminate;
      try (inversion Ep; subst; now right).
    apply enum_value in Ep. destruct Ep as [_ Ep]. simpl in Ep. intuition. }
  cbv zeta. enter Hs. unfold generateVoiceover. run.
  destruct Hprov as [E|E]; rewrite E in *; simpl (String.eqb _ _) in *; cbv iota in *;
    cbv beta; rewrite He, Ht; cbv beta iota; rewrite Hpost; cbv beta iota;
    destruct (fs_writeFileSync rt _ audio) as [e|[]];
    (split; [reflexivity|]);
    try reflexivity;
    eexists; (split; [reflexivity|]); cbn [fst snd member_opt member prop assoc];
    simpl (String.eqb _ _); cbv iota; repeat split; reflexivity.
Qed.

Lemma voiceover_is_written_where_reported_witness :
  exists doc,
    fst (callTool "generate_voiceover" accented_voiceover_arguments (speaking_runtime "ID3"))
    = inr (success doc) /\
    member_opt doc "audioPath" = JStr "/tmp/voiceover-1759785405000-k3j9x0q1z.mp3" /\
    member_opt doc "duration" = JInt 1 /\
    String.length (vo_script accented_voiceover_args) = 36.
Proof.
  destruct (voiceover_is_written_where_reported (speaking_runtime "ID3")
              accented_voiceover_arguments accented_voiceover_args
              "key-for-ELEVENLABS_API_KEY" "ID3")
    as (_ & doc & Hdoc & Hpath & _ & Hduration).
  - reflexivity.
  - split; [reflexivity | discriminate].
  - reflexivity.
  - exists doc. split; [exact Hdoc|]. split; [exact Hpath|].
    split; [rewrite Hduration; reflexivity | reflexivity].
Defined.

(** X15. A voiceover whose provider fails leaves nothing on disk: when the
    text-to-speech request fails, the call is answered by the error
    envelope of that failure, and the request is the only thing the call
    did outside the process. *)
Theorem failed_voiceover_writes_nothing (rt : runtime) (arguments : jsval)
    (args : GenerateVoiceoverArgs) (key : string) (e : exn) :
  GenerateVoiceoverArgsSchema arguments = inr args ->
  has_credential rt (tts_credential args) key ->
  axios_post rt (tts_url args) (tts_body args) = inl e ->
  let out := callTool "generate_voiceover" arguments rt in
  fst out = inr (error_envelope rt (exn_message e)) /\
  effects (snd out) = [HttpPost (tts_url args) (tts_body args) (tts_header args key)].
Proof.
  intros Hs Hkey Hpost.
  destruct (key_is_truthy _ _ _ Hkey) as [He Ht].
  unfold tts_credential, tts_url, tts_body, tts_header in *.
  cbv zeta. enter Hs. unfold generateVoiceover. run.
  destruct (String.eqb (vo_provider args) "elevenlabs");
    cbv beta; rewrite He, Ht; cbv beta iota; rewrite Hpost; split; reflexivity.
Qed.

Lemma failed_voiceover_writes_nothing_witness :
  effects (snd (callTool "generate_voiceover" sample_voiceover_arguments sample_runtime))
  = [HttpPost (tts_url sample_voiceover_args) (tts_body sample_voiceover_args)
       "key-for-ELEVENLABS_API_KEY"].
Proof.
  apply (failed_voiceover_writes_nothing sample_runtime sample_voiceover_arguments
           sample_voiceover_args "key-for-ELEVENLABS_API_KEY"
           (RequestError "Network Error")).
  - reflexivity.
  - split; [reflexivity | discriminate].
  - reflexivity.
Defined.

(** X16. The built-in ElevenLabs voice is out of reach of an omitted
    argument: the schema turns a missing [voice] into [neutral], so the
    voice requested is the built-in one only when the caller passes the
    empty string (or the built-in id itself). *)
Theorem built_in_voice_needs_empty_string (o : list (string * jsval))
    (args : GenerateVoiceoverArgs) :
  GenerateVoiceoverArgsSchema (JObj o) = inr args ->
  (prop o "voice" = JUndefined -> voiceId (vo_voice args) = "neutral") /\
  (voiceId (vo_voice args) = "21m00Tcm4TlvDq8ikWAM" <->
   prop o "voice" = JStr EmptyString \/ prop o "voice" = JStr "21m00Tcm4TlvDq8ikWAM").
Proof.
  unfold GenerateVoiceoverArgsSchema, args_object, ap, pure, field.
  destruct (z_string (prop o "script")); [|cbn [fst snd app]; discriminate].
  destruct (z_default _ _ (prop o "voice")) as [v|] eqn:Ev; [|cbn [fst snd app]; discriminate].
  destruct (z_default _ _ (prop o "provider")); [|cbn [fst snd app]; discriminate].
  destruct (z_default _ _ (prop o "format")); [|cbn [fst snd app]; discriminate].
  cbn [fst snd app]. intro H. inversion H; subst; clear H. cbn [vo_voice].
  unfold z_default, z_string in Ev. unfold voiceId.
  destruct (prop o "voice") as [| | | |given| |]; try discriminate;
    inversion Ev; subst; clear Ev.
  - split; [reflexivity|]. simpl. split; [discriminate | intros [H|H]; discriminate].
  - split; [discriminate|].
    destruct (String.eqb v EmptyString) eqn:E.
    + apply String.eqb_eq in E. subst. split; [now left | reflexivity].
    + apply String.eqb_neq in E. split.
      * intros ->. now right.
      * intros [H|H]; inversion H; subst; [contradiction | reflexivity].
Qed.

Lemma built_in_voice_needs_empty_string_witness :
  voiceId (vo_voice sample_voiceover_args) = "neutral".
Proof.
  apply (proj1 (built_in_voice_needs_empty_string
                  [("script", JStr "Welcome back to the channel. Today we sharpen knives.");
                   ("provider", JStr "elevenlabs")]
                  sample_voiceover_args eq_refl)).
  reflexivity.
Defined.



(** X18. An export reads three things of its arguments: the format, the
    voiceover path and the title of the storyboard.  Two requests that
    agree on them give the same document, the same file and the same
    reply, whatever else their storyboards hold and whatever their b-roll
    suggestions are. *)
Theorem export_reads_three_things (rt : runtime) (a b : ExportProjectArgs)
    (traceId : string) :
  same_export a b ->
  exportEditingProject a traceId rt = exportEditingProject b traceId rt.
Proof.
  intros (Hf & Hv & Ht).
  unfold exportEditingProject, projectDocument, fcpxml, premiereXml, projectName.
  now rewrite Hf, Hv, Ht.
Qed.

Lemma export_reads_three_things_witness :
  exportEditingProject sample_export_args "t-1" sample_runtime
  = exportEditingProject bare_export_args "t-1" sample_runtime.
Proof.
  apply (export_reads_three_things sample_runtime sample_export_args bare_export_args
           "t-1").
  repeat split; reflexivity.
Defined.

End MediaTheorems.

(** ** Posting schedules without usable history *)

Module BaselineTheorems.
Import GrowthOptimizer ScheduleSpec ScheduleFacts BaselineSpec CallFacts.

Lemma schedule_schema_platform arguments args :
  OptimizeScheduleArgsSchema arguments = inr args ->
  exists times, baselineTimes (os_platform args) = Some times /\ List.length times = 3.
Proof.
  unfold OptimizeScheduleArgsSchema, args_object, ap, pure, field.
  destruct arguments as [| | | | | |o]; try discriminate.
  destruct (z_enum _ (prop o "platform")) as [p|] eqn:Ep; [|cbn [fst snd app]; discriminate].
  destruct (z_string (prop o "timezone")); [|cbn [fst snd app]; discriminate].
  destruct (z_optional _ (prop o "audienceDemographics")); [|cbn [fst snd app]; discriminate].
  destruct (z_optional _ (prop o "historicalPerformance")); [|cbn [fst snd app]; discriminate].
  cbn [fst snd app]. intro H. inversion H; subst; clear H. cbn [os_platform].
  apply enum_value in Ep. destruct Ep as [_ Ep]. simpl in Ep.
  destruct Ep as [<-|[<-|[<-|[<-|[]]]]]; eexists; split; reflexivity.
Qed.

(** X19. The posting schedule is computed inside the process: with accepted
    arguments, history or not, the call is answered by a success envelope
    and does nothing but log; it needs no credential, no provider and no
    request. *)
Theorem schedule_is_computed_locally (rt : runtime) (arguments : jsval)
    (args : OptimizeScheduleArgs) :
  OptimizeScheduleArgsSchema arguments = inr args ->
  let out := callTool "optimize_posting_schedule" arguments rt in
  (exists doc, fst out = inr (success doc)) /\ silent (snd out).
Proof.
  intro Hs. destruct (schedule_schema_platform _ _ Hs) as (times & Hb & _).
  cbv zeta. unfold silent. enter Hs. unfold optimizePostingSchedule. run. rewrite Hb.
  destruct (os_historicalPerformance args) as [[|p ps]|]; cbn [List.length Nat.ltb Nat.leb];
    cbv beta iota; split; try (eexists; reflexivity); reflexivity.
Qed.

Lemma schedule_is_computed_locally_witness :
  silent (snd (callTool "optimize_posting_schedule" sample_baseline_arguments
                 keyless_runtime)).
Proof.
  apply (schedule_is_computed_locally keyless_runtime sample_baseline_arguments
           sample_baseline_args).
  reflexivity.
Defined.

(** X20. Without usable history the baseline table answers: when
    [historicalPerformance] is absent or empty, the posting times of the
    reply are the three baseline times of the platform, in the order of the
    table. *)
Theorem baseline_without_history (rt : runtime) (arguments : jsval)
    (args : OptimizeScheduleArgs) :
  OptimizeScheduleArgsSchema arguments = inr args ->
  without_history args ->
  exists doc times,
    fst (callTool "optimize_posting_schedule" arguments rt) = inr (success doc) /\
    baselineTimes (os_platform args) = Some times /\
    posting_times doc = map JStr times /\
    List.length (posting_times doc) = 3.
Proof.
  intros Hs Hh. destruct (schedule_schema_platform _ _ Hs) as (times & Hb & Hl).
  enter Hs. unfold optimizePostingSchedule. run. rewrite Hb.
  destruct Hh as [-> | ->]; cbn [List.length Nat.ltb Nat.leb]; cbv beta iota;
    eexists; exists times; (split; [reflexivity|]); (split; [reflexivity|]);
    unfold posting_times; simpl; rewrite map_map; simpl; rewrite length_map;
    (split; [reflexivity|exact Hl]).
Qed.

Lemma baseline_without_history_witness :
  exists doc,
    fst (callTool "optimize_posting_schedule" sample_baseline_arguments sample_runtime)
    = inr (success doc) /\
    posting_times doc = [JStr "07:00"; JStr "12:00"; JStr "19:00"].
Proof.
  destruct (baseline_without_history sample_runtime sample_baseline_arguments
              sample_baseline_args eq_refl (or_introl eq_refl))
    as (doc & times & Hdoc & Hb & Ht & _).
  exists doc. split; [exact Hdoc|]. rewrite Ht.
  inversion Hb. reflexivity.
Defined.

Lemma undated_hours (rt : runtime) (history : list Post) :
  unreadable_times rt history -> history <> [] ->
  distinct_hours rt history = [None].
Proof.
  intros Hu Hne. unfold distinct_hours.
  assert (E : map (hour_of rt) history = repeat None (List.length history)).
  { clear Hne. induction history as [|p ps IH]; [reflexivity|].
    cbn [map List.length repeat]. unfold hour_of at 1. rewrite (Hu p (or_introl eq_refl)).
    f_equal. apply IH. intros q Hq. apply Hu. now right. }
  rewrite E. destruct history as [|p ps]; [congruence|]. clear.
  cbn [List.length]. induction (List.length ps) as [|n IH]; [reflexivity|].
  change (repeat None (S (S n))) with (@None nat :: repeat None (S n)).
  cbn [nodup]. destruct (in_dec Hour_eq_dec None (repeat None (S n))) as [_|Hn].
  - exact IH.
  - exfalso. apply Hn. now left.
Qed.

Lemma undated_ranking (rt : runtime) (history : list Post) :
  unreadable_times rt history -> history <> [] ->
  map formatTime (topHours rt history) = ["NaN:00"].
Proof.
  intros Hu Hne.
  pose proof (ranked_hours_distinct rt history) as P.
  rewrite (undated_hours rt history Hu Hne) in P.
  apply Permutation_sym, Permutation_length_1_inv in P.
  unfold topHours. destruct (rankedHours rt history) as [|s [|s' r]]; try discriminate.
  inversion P as [Hh]. cbn [firstn map]. unfold formatTime. now rewrite Hh.
Qed.

(** X21. Timestamps that [Date] cannot read are not rejected: a non-empty
    history whose samples all have an unreadable [postTime] replaces the
    baseline by the single posting time [NaN:00], which the recommendation
    then names. *)
Theorem unreadable_times_rank_as_NaN (rt : runtime) (args : OptimizeScheduleArgs)
    (traceId : string) (history : list Post) :
  os_historicalPerformance args = Some history ->
  history <> [] ->
  unreadable_times rt history ->
  exists doc,
    fst (optimizePostingSchedule args traceId rt) = inr doc /\
    posting_times doc = [JStr "NaN:00"] /\
    member_opt doc "recommendation"
    = JStr ("Post on NaN:00 " ++ os_timezone args ++ " for maximum reach.").
Proof.
  intros Hh Hne Hu. unfold optimizePostingSchedule. rewrite Hh.
  destruct history as [|p ps]; [congruence|].
  run. cbn [List.length Nat.ltb Nat.leb]. cbv beta iota.
  rewrite (undated_ranking rt (p :: ps) Hu Hne).
  eexists. split; [reflexivity|]. split; reflexivity.
Qed.

Lemma unreadable_times_rank_as_NaN_witness :
  exists doc,
    fst (optimizePostingSchedule undated_args "t-1" sample_runtime) = inr doc /\
    posting_times doc = [JStr "NaN:00"].
Proof.
  destruct (unreadable_times_rank_as_NaN sample_runtime undated_args "t-1" undated_history)
    as (doc & Hdoc & Htimes & _).
  - reflexivity.
  - discriminate.
  - intros p [<-|[<-|[]]]; reflexivity.
  - exists doc. split; [exact Hdoc | exact Htimes].
Defined.

(** X22. The audience demographics are validated and never read: two
    requests with the same platform, timezone and history give the same
    schedule and the same log lines, whatever their demographics. *)
Theorem demographics_are_not_read (rt : runtime) (a b : OptimizeScheduleArgs)
    (traceId : string) :
  same_schedule_request a b ->
  optimizePostingSchedule a traceId rt = optimizePostingSchedule b traceId rt.
Proof.
  intros (Hp & Hz & Hh). unfold optimizePostingSchedule. now rewrite Hp, Hz, Hh.
Qed.

Lemma demographics_are_not_read_witness :
  optimizePostingSchedule sample_baseline_args "t-1" sample_runtime
  = optimizePostingSchedule profiled_baseline_args "t-1" sample_runtime.
Proof.
  apply (demographics_are_not_read sample_runtime sample_baseline_args
           profiled_baseline_args "t-1").
  repeat split; reflexivity.
Defined.

End BaselineTheorems.

(** ** The idea schema *)

Module SchemaFacts.
Import Shared IdeaShape CallFacts.

Lemma strings_again (l : list string) : z_array z_string (strs l) = Some l.
Proof.
  unfold strs, z_array. induction l as [|s r IH]; [reflexivity|].
  cbn [map all_some z_string]. now rewrite IH.
Qed.

Lemma all_some_again (q : jsval -> option jsval) (l ys : list jsval) :
  (forall x y, q x = Some y -> q y = Some y) ->
  all_some q l = Some ys -> all_some q ys = Some ys.
Proof.
  intro Hq. revert ys. induction l as [|x r IH]; intros ys H.
  - inversion H. reflexivity.
  - cbn [all_some] in H. destruct (q x) as [y|] eqn:Ex; [|discriminate].
    destruct (all_some q r) as [zs|] eqn:Er; [|discriminate].
    inversion H; subst. cbn [all_some]. rewrite (Hq _ _ Ex), (IH zs eq_refl). reflexivity.
Qed.

Lemma number_again (v : jsval) (x : float) :
  z_number v = Some x -> v = JNum x /\ z_number (JNum x) = Some x.
Proof.
  unfold z_number. destruct v as [| | |y| | |]; try discriminate.
  destruct (PrimFloat.is_nan y) eqn:E; [discriminate|].
  intro H. inversion H; subst. rewrite E. split; reflexivity.
Qed.

Lemma outlineSection_again (x y : jsval) :
  outlineSection x = Some y -> outlineSection y = Some y.
Proof.
  unfold outlineSection, z_object, opt_bind.
  destruct x as [| | | | | |o]; try discriminate.
  destruct (z_string (prop o "section")) as [s|]; [|discriminate].
  destruct (z_number (prop o "duration")) as [d|] eqn:Ed; [|discriminate].
  destruct (z_array z_string (prop o "keyPoints")) as [k|]; [|discriminate].
  intro H. inversion H; subst; clear H.
  unfold prop; cbn [assoc]; simpl (String.eqb _ _); cbv iota.
  cbn [z_string]. rewrite (proj2 (number_again _ _ Ed)). now rewrite strings_again.
Qed.

Lemma estimatedViews_again (x y : jsval) :
  estimatedViewsSchema x = Some y -> estimatedViewsSchema y = Some y.
Proof.
  unfold estimatedViewsSchema, z_object, opt_bind.
  destruct x as [| | | | | |o]; try discriminate.
  destruct (z_number (prop o "min")) as [lo|] eqn:E1; [|discriminate].
  destruct (z_number (prop o "max")) as [hi|] eqn:E2; [|discriminate].
  destruct (z_number (prop o "confidence")) as [c|] eqn:E3; [|discriminate].
  intro H. inversion H; subst; clear H.
  unfold prop; cbn [assoc]; simpl (String.eqb _ _); cbv iota.
  now rewrite (proj2 (number_again _ _ E1)), (proj2 (number_again _ _ E2)),
    (proj2 (number_again _ _ E3)).
Qed.

Lemma seo_again (x y : jsval) : seoSchema x = Some y -> seoSchema y = Some y.
Proof.
  unfold seoSchema, z_object, opt_bind, refine, opt_bind.
  destruct x as [| | | | | |o]; try discriminate.
  destruct (z_array z_string (prop o "tags")) as [tags|]; [|discriminate].
  destruct (z_max_items 30 tags) as [tags'|] eqn:Et; [|discriminate].
  destruct (z_string (prop o "description")) as [d|]; [|discriminate].
  destruct (z_max_len 500 d) as [d'|] eqn:Ed; [|discriminate].
  destruct (z_array z_string (prop o "keywords")) as [k|]; [|discriminate].
  intro H. inversion H; subst; clear H.
  unfold prop; cbn [assoc]; simpl (String.eqb _ _); cbv iota.
  assert (tags' = tags) as ->.
  { unfold z_max_items in Et. destruct (_ <=? _)%nat; inversion Et; reflexivity. }
  assert (d' = d) as ->.
  { unfold z_max_len in Ed. destruct (_ <=? _)%nat; inversion Ed; reflexivity. }
  rewrite !strings_again, Et. cbn [z_string]. now rewrite Ed.
Qed.

Lemma bounded_text (lo hi : nat) (v : jsval) (s : string) :
  refine (refine z_string (z_min_len lo)) (z_max_len hi) v = Some s ->
  v = JStr s /\ lo <= js_length s <= hi.
Proof.
  unfold refine, opt_bind, z_string, z_min_len, z_max_len.
  destruct v; try discriminate.
  destruct (lo <=? js_length s0)%nat eqn:E1; [|discriminate].
  destruct (js_length s0 <=? hi)%nat eqn:E2; [|discriminate].
  intro H. inversion H; subst. apply Nat.leb_le in E1, E2. auto.
Qed.

Lemma not_below (lo x : float) :
  FloatOrder.nan_free lo -> FloatOrder.nan_free x ->
  (x <? lo)%float = false -> (lo <=? x)%float = true.
Proof.
  intros Hlo Hx. rewrite (FloatFacts.ltb_rank _ _ Hx Hlo), (FloatFacts.leb_rank _ _ Hlo Hx).
  rewrite Z.ltb_ge. apply Z.leb_le.
Qed.

Lemma bounded_number (lo hi : float) (v : jsval) (x : float) :
  FloatOrder.nan_free lo -> FloatOrder.nan_free hi ->
  refine (refine z_number (z_min lo)) (z_max hi) v = Some x ->
  v = JNum x /\ (lo <=? x)%float = true /\ (x <=? hi)%float = true.
Proof.
  intros Hlo Hhi. unfold refine, opt_bind, z_number, z_min, z_max.
  destruct v as [| | |y| | |]; try discriminate.
  destruct (PrimFloat.is_nan y) eqn:En; [discriminate|].
  destruct (y <? lo)%float eqn:E1; [discriminate|].
  destruct (hi <? y)%float eqn:E2; [discriminate|].
  intro H. inversion H; subst.
  split; [reflexivity|]. split; now apply not_below.
Qed.

Lemma datetime_value (rt : runtime) (v : jsval) (s : string) :
  refine z_string (z_datetime rt) v = Some s -> v = JStr s /\ zod_datetime rt s = true.
Proof.
  unfold refine, opt_bind, z_string, z_datetime. destruct v; try discriminate.
  destruct (zod_datetime rt s0) eqn:E; [|discriminate].
  intro H. inversion H; subst. auto.
Qed.

Lemma parsed_shape_and_fixpoint (rt : runtime) (raw idea : jsval) :
  ViralIdeaSchema rt raw = Some idea ->
  well_formed_idea idea /\ ViralIdeaSchema rt idea = Some idea.
Proof.
  unfold ViralIdeaSchema at 1. unfold z_object, opt_bind.
  destruct raw as [| | | | | |o]; try discriminate.
  destruct (z_string (prop o "id")) as [id|]; [|discriminate].
  destruct (refine _ _ (prop o "title")) as [title|] eqn:Etitle; [|discriminate].
  destruct (refine _ _ (prop o "hook")) as [hook|] eqn:Ehook; [|discriminate].
  destruct (z_enum platforms5 (prop o "platform")) as [platform|] eqn:Ep; [|discriminate].
  destruct (z_enum categories (prop o "category")) as [category|] eqn:Ec; [|discriminate].
  destruct (refine _ _ (prop o "viralScore")) as [score|] eqn:Es; [|discriminate].
  destruct (z_array z_string (prop o "trendingTopics")) as [topics|]; [|discriminate].
  destruct (z_string (prop o "targetAudience")) as [audience|]; [|discriminate].
  destruct (z_string (prop o "thumbnailConcept")) as [thumb|]; [|discriminate].
  destruct (z_array outlineSection (prop o "scriptOutline")) as [outline|] eqn:Eo;
    [|discriminate].
  destruct (estimatedViewsSchema (prop o "estimatedViews")) as [views|] eqn:Ev;
    [|discriminate].
  destruct (seoSchema (prop o "seo")) as [seo|] eqn:Eseo; [|discriminate].
  destruct (refine _ _ (prop o "generatedAt")) as [at_|] eqn:Eat; [|discriminate].
  intro H. inversion H; subst; clear H.
  pose proof (bounded_text _ _ _ _ Etitle) as [Ht1 Ht2].
  pose proof (bounded_text _ _ _ _ Ehook) as [Hh1 Hh2].
  pose proof (enum_value _ _ _ Ep) as [Hp1 Hp2].
  pose proof (enum_value _ _ _ Ec) as [Hc1 Hc2].
  pose proof (bounded_number 0 100 _ _ (eq_refl false) (eq_refl false) Es) as [Hs1 Hs2].
  pose proof (datetime_value _ _ _ Eat) as [Ha1 Ha2].
  split.
  - unfold well_formed_idea, member_opt, member, prop; cbn [assoc keys_of map fst];
      simpl (String.eqb _ _); cbv iota.
    split; [reflexivity|].
    split; [exists title; auto|].
    split; [exists hook; auto|].
    split; [exists platform; auto|].
    split; [exists category; auto|].
    exists score; auto.
  - rewrite Ht1 in Etitle. rewrite Hh1 in Ehook. rewrite Hp1 in Ep. rewrite Hc1 in Ec.
    rewrite Hs1 in Es. rewrite Ha1 in Eat.
    unfold ViralIdeaSchema, z_object, opt_bind, prop; cbn [assoc];
      simpl (String.eqb _ _); cbv iota.
    cbn [z_string]. rewrite Etitle, Ehook, Ep, Ec, Es, !strings_again.
    assert (Eo' : z_array outlineSection (JArr outline) = Some outline).
    { unfold z_array in *. destruct (prop o "scriptOutline"); try discriminate.
      eapply all_some_again; [apply outlineSection_again | exact Eo]. }
    rewrite Eo', (estimatedViews_again _ _ Ev), (seo_again _ _ Eseo), Eat. reflexivity.
Qed.

Lemma survivors_canonical (rt : runtime) (ideas : list jsval) :
  Forall well_formed_idea (IdeaSpec.survivors rt ideas) /\
  IdeaSpec.survivors rt (IdeaSpec.survivors rt ideas) = IdeaSpec.survivors rt ideas.
Proof.
  unfold IdeaSpec.survivors. induction ideas as [|x r [IHf IHs]]; [split; [constructor|reflexivity]|].
  cbn [flat_map]. destruct (ViralIdeaSchema rt x) as [v|] eqn:E; cbn [app].
  - destruct (parsed_shape_and_fixpoint rt x v E) as [Hw Hv]. split; [now constructor|].
    cbn [flat_map]. rewrite Hv. cbn [app]. now f_equal.
  - split; assumption.
Qed.

End SchemaFacts.

Module SchemaTheorems.
Import Shared IdeaShape IdeaSpec PayloadSpec SchemaFacts.

(** X23. Parsing an idea is a projection: what [ViralIdeaSchema] returns
    has the thirteen keys of the schema and no other, a title of 10 to 100
    and a hook of 10 to 200 UTF-16 code units, a platform and a category
    of the two enumerations and a score from 0 to 100, and parsing it
    again returns it unchanged. *)
Theorem parsed_idea_is_canonical (rt : runtime) (raw idea : jsval) :
  ViralIdeaSchema rt raw = Some idea ->
  well_formed_idea idea /\ ViralIdeaSchema rt idea = Some idea.
Proof.
  intro Hparsed.
  destruct (parsed_shape_and_fixpoint rt raw idea Hparsed) as [Hshape Hagain].
  split.
  - exact Hshape.
  - exact Hagain.
Qed.

Lemma parsed_idea_is_canonical_witness :
  well_formed_idea (sample_idea "idea-1" 85) /\
  ViralIdeaSchema sample_runtime accented_idea = None /\
  String.length "Café déjà" = 12.
Proof.
  split; [|split; reflexivity].
  apply (parsed_idea_is_canonical sample_runtime (sample_idea "idea-1" 85)).
  reflexivity.
Defined.

(** X24. Every idea that [generate_viral_ideas] returns is well formed,
    and the reply is stable: when the matched span parses to an array, the
    ideas of the reply all have the shape the schema promises, and the same
    ideas sent again by the provider would all be kept, unchanged. *)
Theorem returned_ideas_are_well_formed (rt : runtime) (key text : string)
    (ideas : list jsval) (arguments : jsval) :
  has_credential rt "GEMINI_API_KEY" key ->
  provider_answers rt text ->
  parses_to rt "[" "]" text (JArr ideas) ->
  g_accepts ideas_tool arguments = true ->
  exists returned,
    answers (g_call ideas_tool arguments rt) (ideas_document returned) /\
    Forall well_formed_idea returned /\
    survivors rt returned = returned.
Proof.
  intros Hkey Hp (m & Hm & Hj) Ha.
  apply CallFacts.accepted_inr in Ha. destruct Ha as (args & Hs).
  destruct (IdeaFacts.ideas_run rt key text m ideas arguments args Hkey Hp Hm Hj Hs)
    as (events & Hrun & _).
  exists (survivors rt ideas). unfold answers. cbn [g_call ideas_tool]. rewrite Hrun.
  split; [reflexivity|]. apply survivors_canonical.
Qed.

Lemma returned_ideas_are_well_formed_witness :
  exists returned,
    answers (g_call ideas_tool sample_idea_arguments ideas_runtime)
            (ideas_document returned) /\
    Forall well_formed_idea returned.
Proof.
  destruct (returned_ideas_are_well_formed ideas_runtime "key-for-GEMINI_API_KEY"
              sample_array_text five_ideas sample_idea_arguments)
    as (returned & Hdoc & Hwf & _).
  - split; [reflexivity | discriminate].
  - intro prompt. reflexivity.
  - eexists. split; reflexivity.
  - reflexivity.
  - exists returned. split; [exact Hdoc | exact Hwf].
Defined.

End SchemaTheorems.

(** ** What every call leaves behind *)

Module AuditFacts.
Import AuditSpec.

Section Always.
Variable P : event -> Prop.
Variable rt : runtime.

Lemma always_ret {A : Type} (a : A) : always P rt (ret a).
Proof. constructor. Qed.

Lemma always_throw {A : Type} (e : exn) : always P rt (@throw A e).
Proof. constructor. Qed.

Lemma always_lift {A : Type} (r : exn + A) : always P rt (lift r).
Proof. constructor. Qed.

Lemma always_parse {A B : Type} (name : string) (schema : jsval -> issues + A)
    (v : jsval) (k : A -> M B) :
  (forall args, schema v = inr args -> always P rt (k args)) ->
  always P rt (bind (parse name schema v) k).
Proof.
  intro Hk. unfold always, bind, parse.
  destruct (schema v) as [violations|args] eqn:E.
  - constructor.
  - specialize (Hk args eq_refl). unfold always in Hk. cbn.
    destruct (k args rt) as [r t]. exact Hk.
Qed.

Lemma always_ask {A : Type} (f : runtime -> A) : always P rt (ask f).
Proof. constructor. Qed.

Lemma always_emit (ev : event) : P ev -> always P rt (emit ev).
Proof. intro H. unfold always. cbn. constructor; [exact H | constructor]. Qed.

Lemma always_bind {A B : Type} (m : M A) (k : A -> M B) :
  always P rt m -> (forall a, always P rt (k a)) -> always P rt (bind m k).
Proof.
  unfold always, bind. intros Hm Hk. destruct (m rt) as [[e|a] t]; [exact Hm|].
  specialize (Hk a). destruct (k a rt) as [r t']. cbn [snd] in *.
  apply Forall_app. split; assumption.
Qed.

Lemma always_bind_ask {A B : Type} (f : runtime -> A) (k : A -> M B) :
  always P rt (k (f rt)) -> always P rt (bind (ask f) k).
Proof.
  unfold always, bind, ask. intro H. destruct (k (f rt) rt) as [r t']. exact H.
Qed.

Lemma always_try_catch {A : Type} (m : M A) (h : exn -> M A) :
  always P rt m -> (forall e, always P rt (h e)) -> always P rt (try_catch m h).
Proof.
  unfold always, try_catch. intros Hm Hh. destruct (m rt) as [[e|a] t]; [|exact Hm].
  specialize (Hh e). destruct (h e rt) as [r t']. cbn [snd] in *.
  apply Forall_app. split; assumption.
Qed.

Lemma always_mapM {A B : Type} (f : A -> M B) (l : list A) :
  (forall x, always P rt (f x)) -> always P rt (mapM f l).
Proof.
  intro Hf. induction l as [|x r IH]; [constructor|].
  cbn [mapM]. apply always_bind; [apply Hf|]. intro y.
  apply always_bind; [exact IH|]. intro ys. apply always_ret.
Qed.

End Always.

Lemma scrape_events (P : event -> Prop) (rt : runtime) (niche traceId : string)
    (platforms : list string) :
  (forall s, Forall P (TrendSpec.source_events rt niche traceId s)) ->
  always P rt (IdeaGenerator.scrapeTrendingTopics niche platforms traceId).
Proof.
  intro H. unfold always. rewrite TrendFacts.scrape_run. cbn [snd].
  induction (TrendSpec.requested platforms) as [|s r IH]; [constructor|].
  cbn [flat_map]. apply Forall_app. split; [apply H | exact IH].
Qed.

Lemma sources_logged (rt : runtime) (niche traceId s : string) :
  Forall (logged_under traceId) (TrendSpec.source_events rt niche traceId s).
Proof.
  unfold TrendSpec.source_events, TrendSpec.failure_log.
  destruct (String.eqb s "youtube"); [|destruct (String.eqb s "reddit")];
    repeat constructor.
  - destruct (TrendSpec.youtube_outcome rt niche); reflexivity.
  - destruct (TrendSpec.reddit_outcome rt niche); reflexivity.
Qed.

Lemma sources_permitted (rt : runtime) (arguments : jsval) (niche traceId s : string) :
  member_opt arguments "niche" = JStr niche ->
  Forall (permitted rt arguments) (TrendSpec.source_events rt niche traceId s).
Proof.
  intro Hn. unfold TrendSpec.source_events, TrendSpec.failure_log.
  destruct (String.eqb s "youtube"); [|destruct (String.eqb s "reddit")];
    [constructor; [|constructor; [|constructor]]
    |constructor; [|constructor; [|constructor]]
    |constructor].
  - left. split; reflexivity.
  - destruct (TrendSpec.youtube_outcome rt niche); exact I.
  - right. exists niche. repeat split. exact Hn.
  - destruct (TrendSpec.reddit_outcome rt niche); exact I.
Qed.

(** The niche of a parsed argument object is the one it was given. *)
Lemma ideas_niche (arguments : jsval) (args : IdeaGenerator.GenerateIdeasArgs) :
  IdeaGenerator.GenerateIdeasArgsSchema arguments = inr args ->
  member_opt arguments "niche" = JStr (IdeaGenerator.gi_niche args).
Proof.
  unfold IdeaGenerator.GenerateIdeasArgsSchema, args_object, ap, pure, field.
  destruct arguments as [| | | | | |o]; try discriminate.
  destruct (z_string (prop o "niche")) as [n|] eqn:En; [|cbn [fst snd app]; discriminate].
  destruct (z_enum _ (prop o "platform")); [|cbn [fst snd app]; discriminate].
  destruct (refine _ _ (prop o "count")); [|cbn [fst snd app]; discriminate].
  destruct (z_default _ _ (prop o "trendWindow")); [|cbn [fst snd app]; discriminate].
  cbn [fst snd app]. intro H. inversion H; subst; clear H. cbn.
  unfold z_string in En. destruct (prop o "niche"); try discriminate. now inversion En.
Qed.

Lemma trends_niche (arguments : jsval) (args : IdeaGenerator.AnalyzeTrendsArgs) :
  IdeaGenerator.AnalyzeTrendsArgsSchema arguments = inr args ->
  member_opt arguments "niche" = JStr (IdeaGenerator.at_niche args).
Proof.
  unfold IdeaGenerator.AnalyzeTrendsArgsSchema, args_object, ap, pure, field.
  destruct arguments as [| | | | | |o]; try discriminate.
  destruct (z_string (prop o "niche")) as [n|] eqn:En; [|cbn [fst snd app]; discriminate].
  destruct (z_array _ (prop o "platforms")); [|cbn [fst snd app]; discriminate].
  cbn [fst snd app]. intro H. inversion H; subst; clear H. cbn.
  unfold z_string in En. destruct (prop o "niche"); try discriminate. now inversion En.
Qed.

(** One step through a handler: the effect layer by its lemmas, a branch by
    cases, an event by [leaf]. *)
Ltac step leaf :=
  first
    [ apply always_ret | apply always_throw | apply always_lift | apply always_ask
    | apply always_bind_ask; cbv beta
    | apply always_emit; leaf
    | apply always_parse; intros ? ?
    | apply scrape_events; intro;
      first [ apply sources_logged
            | apply sources_permitted;
              first [ eapply ideas_niche; eassumption
                    | eapply trends_niche; eassumption ] ]
    | apply always_mapM; intro
    | apply always_try_catch; [|intro]
    | apply always_bind; [|intro]
    | match goal with
      | |- always _ _ (if negb (truthy_str ?o) then _ else _) =>
          let E := fresh "E" in
          destruct o as [?key|] eqn:E; cbn [truthy_str negb];
          [ let K := fresh "K" in destruct (String.eqb _ EmptyString) eqn:K; cbn [negb] |]
      | |- always _ _ (if ?b then _ else _) => destruct b eqn:?
      | |- always _ _ (match ?x with _ => _ end) => destruct x eqn:?
      end ].

Ltac open_handlers :=
  cbv [IdeaGenerator.callTool ScriptToVideo.callTool GrowthOptimizer.callTool
       IdeaGenerator.generateViralIdeas IdeaGenerator.analyzeTrends
       IdeaGenerator.predictVirality IdeaGenerator.parseIdea
       ScriptToVideo.generateVideoScript ScriptToVideo.generateStoryboard
       ScriptToVideo.generateVoiceover ScriptToVideo.exportEditingProject
       GrowthOptimizer.optimizeSEO GrowthOptimizer.generateThumbnailConcepts
       GrowthOptimizer.optimizePostingSchedule GrowthOptimizer.repurposeContent
       GrowthOptimizer.runABTest
       createTraceId getenv logWithTrace geminiGenerate jsonParse axiosPost axiosGet
       writeFileSync].

(** The text-to-speech request or the file of a call, in terms of the
    parsed arguments and of the provider chosen. *)
Ltac by_provider :=
  unfold MediaSpec.tts_credential, MediaSpec.tts_url, MediaSpec.tts_body,
    MediaSpec.tts_header, MediaSpec.voiceover_path, MediaSpec.project_path;
  repeat match goal with
         | E : String.eqb _ _ = _ |- _ => rewrite E
         end.

(** An event that [permitted] lets through. *)
Ltac allowed :=
  cbv beta iota;
  first [ exact I
        | split; [eassumption | reflexivity]
        | do 2 eexists; split; [eassumption|]; by_provider;
          split; [eassumption|]; repeat split; reflexivity
        | left; eexists; split; [eassumption|]; by_provider; reflexivity
        | right; eexists; split; [eassumption|]; by_provider; reflexivity ].

End AuditFacts.

Module AuditTheorems.
Import Registry AuditSpec AuditFacts.

(** X25. Every log line of a tool call carries the trace id of that call:
    whatever the tool, the arguments and the answers of the outside world,
    each [Log] event of each of the three dispatchers, the scraper's and the
    error handler's included, is written under the id that the dispatcher
    created on entry. *)
Theorem log_lines_carry_the_trace_id (s : server) (tool : string) (arguments : jsval)
    (rt : runtime) :
  In s servers ->
  Forall (logged_under (trace_id rt)) (snd (call s tool arguments rt)).
Proof.
  intros [<-|[<-|[<-|[]]]]; cbn [call ideaServer scriptServer growthServer];
    match goal with
    | |- Forall ?P (snd (?m rt)) => change (always P rt m)
    end; open_handlers; repeat step ltac:(reflexivity).
Qed.

Lemma log_lines_carry_the_trace_id_witness :
  Forall (logged_under "1759785405000-k3j9x0q1z")
    (snd (call ideaServer "analyze_trending_topics"
            (JObj [("niche", JStr "cooking");
                   ("platforms", JArr [JStr "youtube"; JStr "reddit"])])
            sample_runtime)).
Proof.
  apply (log_lines_carry_the_trace_id ideaServer "analyze_trending_topics"
           (JObj [("niche", JStr "cooking");
                  ("platforms", JArr [JStr "youtube"; JStr "reddit"])])
           sample_runtime).
  now left.
Defined.

(** X26. A tool call stays within an allowance that its arguments fix:
    whatever the tool, the arguments and the answers of the outside world,
    the only requests are a read of the YouTube trending page, a read of
    [https://www.reddit.com/r/<niche>/hot.json] with the [niche] argument
    spliced in as it is, calls of the model [gemini-1.5-pro] with the
    Gemini key of the environment, and the text-to-speech request of the
    arguments: to the ElevenLabs endpoint followed by the [voice] argument
    as it is, with the ElevenLabs key of the environment, or to the
    HuggingFace endpoint with the HuggingFace key as a bearer token.  The
    only files the handlers write are [/tmp/voiceover-<traceId>.<format>]
    and [/tmp/project-<traceId>.fcpxml] or [.xml].  Nothing escapes or
    checks [niche] and [voice], so the two URLs are whatever the prefix
    and the argument spell; and the log lines are handed to the logger,
    whose own outputs are not part of the statement. *)
Theorem calls_stay_within_their_allowance (s : server) (tool : string)
    (arguments : jsval) (rt : runtime) :
  In s servers ->
  Forall (permitted rt arguments) (snd (call s tool arguments rt)).
Proof.
  intros [<-|[<-|[<-|[]]]]; cbn [call ideaServer scriptServer growthServer];
    match goal with
    | |- Forall ?P (snd (?m rt)) => change (always P rt m)
    end; open_handlers; repeat step ltac:(allowed).
Qed.

Lemma calls_stay_within_their_allowance_witness :
  Forall (permitted sample_runtime wandering_arguments)
    (snd (call ideaServer "analyze_trending_topics" wandering_arguments sample_runtime)) /\
  In (HttpGet "https://www.reddit.com/r/../user/me/hot.json" [("limit", JInt 10)])
     (snd (call ideaServer "analyze_trending_topics" wandering_arguments sample_runtime)).
Proof.
  split.
  - apply (calls_stay_within_their_allowance ideaServer "analyze_trending_topics"
             wandering_arguments sample_runtime).
    now left.
  - vm_compute. now left.
Defined.

End AuditTheorems.

(** ** A provider that is down *)

Module OutageFacts.
Import PayloadSpec CallFacts OutageSpec.

Lemma sources_ask_no_provider (rt : runtime) (niche traceId : string) (l : list string) :
  provider_calls (flat_map (TrendSpec.source_events rt niche traceId) l) = [].
Proof.
  unfold provider_calls. induction l as [|s r IH]; [reflexivity|].
  cbn [flat_map]. rewrite filter_app, IH, app_nil_r.
  unfold TrendSpec.source_events, TrendSpec.failure_log.
  destruct (String.eqb s "youtube"); [|destruct (String.eqb s "reddit")];
    cbn [filter is_provider_call].
  - destruct (TrendSpec.youtube_outcome rt niche); reflexivity.
  - destruct (TrendSpec.reddit_outcome rt niche); reflexivity.
  - reflexivity.
Qed.

Section Outage.
Variables (rt : runtime) (key : string) (e : exn).
Hypothesis Hkey : has_credential rt "GEMINI_API_KEY" key.
Hypothesis Hp : provider_fails rt e.

Ltac down := split; [rewrite Hp; reflexivity | eexists; rewrite Hp; reflexivity].

Lemma ideas_outage arguments args :
  IdeaGenerator.GenerateIdeasArgsSchema arguments = inr args ->
  asked_once rt key e (IdeaGenerator.callTool "generate_viral_ideas" arguments rt).
Proof.
  intro Hs. unfold asked_once. enter Hs. unfold IdeaGenerator.generateViralIdeas. run.
  keyed Hkey. rewrite TrendFacts.scrape_run. cbv beta iota.
  split; [rewrite Hp; reflexivity|]. eexists. rewrite Hp. cbn [snd].
  unfold provider_calls. rewrite !filter_app.
  pose proof (sources_ask_no_provider rt (IdeaGenerator.gi_niche args)
                (Z_to_string (date_now rt) ++ "-" ++ random_suffix rt)
                (TrendSpec.requested ["youtube"; "reddit"; "google-trends"])) as Hn.
  unfold provider_calls in Hn. rewrite Hn. reflexivity.
Qed.

Lemma virality_outage arguments args :
  IdeaGenerator.PredictViralityArgsSchema arguments = inr args ->
  asked_once rt key e (IdeaGenerator.callTool "predict_virality" arguments rt).
Proof.
  intro Hs. unfold asked_once. enter Hs. unfold IdeaGenerator.predictVirality. run.
  keyed Hkey. down.
Qed.

Lemma script_outage arguments args :
  ScriptToVideo.GenerateScriptArgsSchema arguments = inr args ->
  asked_once rt key e (ScriptToVideo.callTool "generate_video_script" arguments rt).
Proof.
  intro Hs. destruct (GenerativeFacts.script_schema_platform _ _ Hs) as (spec & Hspec).
  unfold asked_once. enter Hs. unfold ScriptToVideo.generateVideoScript. run. keyed Hkey.
  rewrite Hspec. down.
Qed.

Lemma storyboard_outage arguments args :
  ScriptToVideo.GenerateStoryboardArgsSchema arguments = inr args ->
  asked_once rt key e (ScriptToVideo.callTool "generate_storyboard" arguments rt).
Proof.
  intro Hs. unfold asked_once. enter Hs. unfold ScriptToVideo.generateStoryboard. run.
  keyed Hkey. down.
Qed.

Lemma seo_outage arguments args :
  GrowthOptimizer.OptimizeSEOArgsSchema arguments = inr args ->
  asked_once rt key e (GrowthOptimizer.callTool "optimize_seo" arguments rt).
Proof.
  intro Hs. destruct (GenerativeFacts.seo_schema_platform _ _ Hs) as (rules & Hr).
  unfold asked_once. enter Hs. unfold GrowthOptimizer.optimizeSEO. run. keyed Hkey.
  rewrite Hr. down.
Qed.

Lemma thumbnails_outage arguments args :
  GrowthOptimizer.GenerateThumbnailArgsSchema arguments = inr args ->
  asked_once rt key e
    (GrowthOptimizer.callTool "generate_thumbnail_concepts" arguments rt).
Proof.
  intro Hs. unfold asked_once. enter Hs. unfold GrowthOptimizer.generateThumbnailConcepts.
  run. keyed Hkey. down.
Qed.

Lemma repurpose_outage arguments args :
  GrowthOptimizer.RepurposeContentArgsSchema arguments = inr args ->
  asked_once rt key e (GrowthOptimizer.callTool "repurpose_content" arguments rt).
Proof.
  intro Hs. unfold asked_once. enter Hs. unfold GrowthOptimizer.repurposeContent. run.
  keyed Hkey. down.
Qed.

Lemma abtest_outage arguments args :
  GrowthOptimizer.RunABTestArgsSchema arguments = inr args ->
  asked_once rt key e (GrowthOptimizer.callTool "run_ab_test" arguments rt).
Proof.
  intro Hs. unfold asked_once. enter Hs. unfold GrowthOptimizer.runABTest. run.
  keyed Hkey. down.
Qed.

End Outage.

End OutageFacts.

Module OutageTheorems.
Import PayloadSpec CallFacts OutageSpec OutageFacts.

(** X27. A provider that is down is asked once and reported: in each of
    the eight generative tools, with the credential present and accepted
    arguments, a provider that rejects the prompt makes the call answer the
    error envelope of that rejection, after exactly one request to the
    model [gemini-1.5-pro] with the key of the environment; there is no
    retry and no default. *)
Theorem provider_outage_is_reported (t : generative_tool) (rt : runtime)
    (key : string) (e : exn) (arguments : jsval) :
  In t generative_tools ->
  has_credential rt "GEMINI_API_KEY" key ->
  provider_fails rt e ->
  g_accepts t arguments = true ->
  asked_once rt key e (g_call t arguments rt).
Proof.
  intros Ht Hkey Hp Ha.
  repeat (destruct Ht as [<-|Ht];
          [ apply accepted_inr in Ha; destruct Ha as (args & Hs);
            cbn [g_call ideas_tool virality_tool script_tool storyboard_tool
                 seo_tool thumbnail_tool repurpose_tool abtest_tool] in *;
            first [ eapply ideas_outage; eassumption
                  | eapply virality_outage; eassumption
                  | eapply script_outage; eassumption
                  | eapply storyboard_outage; eassumption
                  | eapply seo_outage; eassumption
                  | eapply thumbnails_outage; eassumption
                  | eapply repurpose_outage; eassumption
                  | eapply abtest_outage; eassumption ] |]).
  contradiction.
Qed.

Lemma provider_outage_is_reported_witness :
  asked_once outage_runtime "key-for-GEMINI_API_KEY"
    (RequestError "503 Service Unavailable")
    (g_call ideas_tool sample_idea_arguments outage_runtime).
Proof.
  apply (provider_outage_is_reported ideas_tool outage_runtime "key-for-GEMINI_API_KEY"
           (RequestError "503 Service Unavailable") sample_idea_arguments).
  - now left.
  - split; [reflexivity | discriminate].
  - intro prompt. reflexivity.
  - reflexivity.
Defined.

End OutageTheorems.

(** ** Descriptors and validators *)

Module ValidatorFacts.
Import Registry PayloadSpec ValidatorSpec.

Lemma prop_without (k k' : string) (o : list (string * jsval)) :
  prop (without k o) k' = if String.eqb k' k then JUndefined else prop o k'.
Proof.
  unfold prop, without. induction o as [|[a v] r IH]; cbn [filter assoc fst].
  - now destruct (String.eqb k' k).
  - destruct (String.eqb a k) eqn:Ea; cbn [negb assoc].
    + apply String.eqb_eq in Ea. subst a.
      destruct (String.eqb k' k) eqn:Ek; [exact IH|]. exact IH.
    + destruct (String.eqb k' a) eqn:Eka.
      * apply String.eqb_eq in Eka. subst a. now rewrite Ea.
      * exact IH.
Qed.

(** The fields of a schema, one by one: is it the omitted key? *)
Ltac fields k :=
  repeat match goal with
         | |- context [String.eqb ?f k] =>
             let E := fresh "E" in
             destruct (String.eqb f k) eqn:E;
             [ apply String.eqb_eq in E; subst k | ]
         end.

Ltac schemas :=
  cbv [IdeaGenerator.GenerateIdeasArgsSchema IdeaGenerator.AnalyzeTrendsArgsSchema
       IdeaGenerator.PredictViralityArgsSchema
       ScriptToVideo.GenerateScriptArgsSchema ScriptToVideo.GenerateStoryboardArgsSchema
       ScriptToVideo.GenerateVoiceoverArgsSchema ScriptToVideo.ExportProjectArgsSchema
       GrowthOptimizer.OptimizeSEOArgsSchema GrowthOptimizer.GenerateThumbnailArgsSchema
       GrowthOptimizer.OptimizeScheduleArgsSchema GrowthOptimizer.RepurposeContentArgsSchema
       GrowthOptimizer.RunABTestArgsSchema args_object ap pure field].

(** The validator of one tool, with the key [k] omitted. *)
Ltac omit o k Hk :=
  cbn [name]; unfold validates; simpl (String.eqb _ _); cbv iota;
  unfold accepted; schemas; rewrite !prop_without; vm_compute in Hk; fields k;
  simpl (String.eqb _ _); cbv iota;
  first [ exfalso; apply Hk; tauto
        | repeat match goal with
                 | |- context [match ?p (prop o ?f) with Some _ => _ | None => _ end] =>
                     destruct (p (prop o f))
                 end;
          cbn [fst snd app];
          first [ discriminate | intros _; reflexivity ] ].

(** [validates] is the table of the dispatchers: arguments it rejects are
    refused by the call. *)
Lemma validates_is_dispatched (s : server) (t : Tool) (arguments : jsval) (rt : runtime) :
  In s servers -> In t (tools s) ->
  validates (name t) arguments = false ->
  exists message, refused rt message (call s (name t) arguments rt).
Proof.
  intros Hs Ht.
  destruct Hs as [<-|[<-|[<-|[]]]];
    cbn [tools call ideaServer scriptServer growthServer] in *;
    unfold IDEA_GENERATOR_TOOLS, SCRIPT_TO_VIDEO_TOOLS, GROWTH_OPTIMIZER_TOOLS in Ht;
    repeat (destruct Ht as [<-|Ht];
            [ cbn [name]; unfold validates, refused; simpl (String.eqb _ _); cbv iota;
              unfold accepted;
              cbv [IdeaGenerator.callTool ScriptToVideo.callTool GrowthOptimizer.callTool
                   bind ret throw emit ask lift logWithTrace try_catch createTraceId parse];
              simpl (String.eqb _ _); cbv iota;
              match goal with
              | |- match ?schema with inl _ => _ | inr _ => _ end = false -> _ =>
                  destruct schema; [intros _ | discriminate]
              end;
              eexists; split; reflexivity |]);
    contradiction.
Qed.

End ValidatorFacts.

Module ValidatorTheorems.
Import Registry PayloadSpec ValidatorSpec ValidatorFacts.

(** X28. What a descriptor does not list under [required], the validator
    does not require: arguments that the validator of a tool accepts are
    still accepted after any key outside the descriptor's [required] list
    has been removed from them.  With X5, the [required] list of every
    descriptor is exactly the set of top-level fields its validator
    insists on. *)
Theorem unlisted_fields_are_optional (s : server) (t : Tool) (k : string)
    (o : list (string * jsval)) :
  In s servers -> In t (tools s) -> ~ In k (required_fields t) ->
  validates (name t) (JObj o) = true ->
  validates (name t) (JObj (without k o)) = true.
Proof.
  intros Hs Ht Hk.
  destruct Hs as [<-|[<-|[<-|[]]]]; cbn [tools ideaServer scriptServer growthServer] in Ht;
    unfold IDEA_GENERATOR_TOOLS, SCRIPT_TO_VIDEO_TOOLS, GROWTH_OPTIMIZER_TOOLS in Ht;
    repeat (destruct Ht as [<-|Ht]; [omit o k Hk|]); contradiction.
Qed.

Lemma unlisted_fields_are_optional_witness :
  validates "generate_viral_ideas"
    (JObj [("niche", JStr "cooking"); ("platform", JStr "tiktok"); ("count", JInt 12)])
  = true.
Proof.
  apply (unlisted_fields_are_optional ideaServer
           (nth 0 IDEA_GENERATOR_TOOLS
              {| name := EmptyString; description := EmptyString; inputSchema := JNull |})
           "trendWindow"
           [("niche", JStr "cooking"); ("trendWindow", JStr "24h");
            ("platform", JStr "tiktok"); ("count", JInt 12)]).
  - now left.
  - now left.
  - vm_compute. intros [H|[H|[H|[]]]]; discriminate.
  - reflexivity.
Defined.

End ValidatorTheorems.

(** ** Lookup tables and the enumerations that index them *)

Module TableTheorems.
Import GenerativeFacts BaselineTheorems.

(** X29. The lookup tables cover the enumerations that index them: for
    arguments that the validator accepts, [platformSpecs] has an entry for
    the idea's platform, [platformRules] for the SEO platform and
    [baselineTimes] for the schedule platform, so that no handler reads a
    property of a missing table entry. *)
Theorem platform_tables_cover_their_enums (arguments : jsval) :
  (forall args, ScriptToVideo.GenerateScriptArgsSchema arguments = inr args ->
     ScriptToVideo.platformSpecs (ScriptToVideo.idea_platform (ScriptToVideo.gs_idea args))
     <> None) /\
  (forall args, GrowthOptimizer.OptimizeSEOArgsSchema arguments = inr args ->
     GrowthOptimizer.platformRules (GrowthOptimizer.seo_platform args) <> None) /\
  (forall args, GrowthOptimizer.OptimizeScheduleArgsSchema arguments = inr args ->
     GrowthOptimizer.baselineTimes (GrowthOptimizer.os_platform args) <> None).
Proof.
  split; [|split]; intros args Hs.
  - destruct (script_schema_platform _ _ Hs) as (spec & ->). discriminate.
  - destruct (seo_schema_platform _ _ Hs) as (rules & ->). discriminate.
  - destruct (schedule_schema_platform _ _ Hs) as (times & -> & _). discriminate.
Qed.

Lemma platform_tables_cover_their_enums_witness :
  GrowthOptimizer.baselineTimes "tiktok" <> None.
Proof.
  apply (proj2 (proj2 (platform_tables_cover_their_enums
                         BaselineSpec.sample_baseline_arguments))
           BaselineSpec.sample_baseline_args).
  reflexivity.
Defined.

End TableTheorems.
